(** * Schema discovery pipeline: role classifier, graph builder, profiler,
      fallback synthesizer and schema comparator.

    Shallow embedding of [scripts/build_graph.py], [scripts/main.py],
    [scripts/compare_schemas.py] and [app.py].

    Conventions of the embedding:
    - Python [str] values are byte strings ([string]); [x in s] is the
      substring test.  Letter case and white space are those of ASCII:
      [str.lower], [str.strip] and matching under [re.IGNORECASE] are
      embedded as they act on ASCII text, and a statement that would not
      hold for other text says that the text is ASCII ([is_ascii]).
    - Python dicts are insertion-ordered: they are association lists with
      update in place ([dict_set]); Python sets of names are [gset string].
    - Python floats are IEEE binary64 values ([spec_float] with precision 53
      and maximal exponent 1024), with the operations of [SpecFloat].
    - The NetworkX [DiGraph] is modelled from the library: a node table and,
      per node, a successor table, both insertion-ordered. *)

From Stdlib Require Import ZArith List String Ascii Bool Lia Sorted.
From Stdlib Require Import Floats.SpecFloat.
From stdpp Require Import base option list gmap strings pretty.

Local Open Scope string_scope.

(** ** Python string primitives *)

Module PyStr.

(** [c.lower()] on one ASCII character. *)
Definition lower_ascii (c : ascii) : ascii :=
  let n := nat_of_ascii c in
  if ((65 <=? n)%nat && (n <=? 90)%nat)%bool then ascii_of_nat (n + 32) else c.

(** [s.lower()]. *)
Fixpoint lower (s : string) : string :=
  match s with
  | EmptyString => EmptyString
  | String c s' => String (lower_ascii c) (lower s')
  end.

(** [needle in hay]. *)
Fixpoint contains (needle hay : string) : bool :=
  if String.prefix needle hay then true
  else match hay with
       | EmptyString => false
       | String _ hay' => contains needle hay'
       end.

(** Truthiness of a string: [bool(s)]. *)
Definition truthy (s : string) : bool :=
  match s with EmptyString => false | _ => true end.

(** [next((c for c in cols if p c), None)]. *)
Definition next_where (p : string -> bool) (cols : list string) : option string :=
  List.find p cols.

(** Truthiness of [next(..., None)]: [None] and the empty string are falsy. *)
Definition opt_truthy (o : option string) : bool :=
  match o with Some s => truthy s | None => false end.

End PyStr.

(** ** Tabular role classifier ([detect_file_role]) *)

Inductive role :=
| RoleEdge (start_col end_col : string)
| RoleNode (id_col : string)
| RoleUnknown.

Inductive role_tag := edge | node | unknown.

Definition tag_of (r : role) : role_tag :=
  match r with
  | RoleEdge _ _ => edge
  | RoleNode _ => node
  | RoleUnknown => unknown
  end.

Definition is_start_col (c : string) : bool :=
  PyStr.contains ":START_ID" c || PyStr.contains "source" (PyStr.lower c).

Definition is_end_col (c : string) : bool :=
  PyStr.contains ":END_ID" c || PyStr.contains "target" (PyStr.lower c).

(** [':ID' in c or 'id' in c.lower() and not start_col]: [and] binds tighter
    than [or]. *)
Definition is_id_col (start_col : option string) (c : string) : bool :=
  PyStr.contains ":ID" c
  || (PyStr.contains "id" (PyStr.lower c) && negb (PyStr.opt_truthy start_col)).

Definition detect_file_role (cols : list string) : role :=
  let start_col := PyStr.next_where is_start_col cols in
  let end_col := PyStr.next_where is_end_col cols in
  let id_col := PyStr.next_where (is_id_col start_col) cols in
  match start_col, end_col with
  | Some s, Some e =>
      if PyStr.truthy s && PyStr.truthy e then RoleEdge s e
      else match id_col with
           | Some i => if PyStr.truthy i then RoleNode i else RoleUnknown
           | None => RoleUnknown
           end
  | _, _ =>
      match id_col with
      | Some i => if PyStr.truthy i then RoleNode i else RoleUnknown
      | None => RoleUnknown
      end
  end.

(** The classifier as the specification words it: the identifier test does
    not look at the start column. *)
Definition spec_role_tag (cols : list string) : role_tag :=
  if existsb is_start_col cols && existsb is_end_col cols then edge
  else if existsb (fun c => PyStr.contains "id" (PyStr.lower c)) cols then node
  else unknown.

(** What [detect_file_role] computes, as a decision on the header. *)
Definition code_role_tag (cols : list string) : role_tag :=
  if existsb is_start_col cols && existsb is_end_col cols then edge
  else if existsb (PyStr.contains ":ID") cols
          || (existsb (fun c => PyStr.contains "id" (PyStr.lower c)) cols
              && negb (existsb is_start_col cols))
       then node
  else unknown.

(** ** Attribute bags and insertion-ordered dictionaries *)

(** A cell value as pandas yields it.  Nothing in the pipeline computes with
    a float cell: it is only rendered ([str]) and classified ([isinstance]),
    so a float cell is identified by its [repr]. *)
Inductive scalar :=
| VStr (s : string)
| VInt (z : Z)
| VFloat (repr : string)
| VBool (b : bool).

Module PyDict.
Section Dict.
Context {V : Type}.

Definition dict := list (string * V).

(** [d.get(k)] *)
Fixpoint get (k : string) (d : dict) : option V :=
  match d with
  | [] => None
  | (k', v) :: d' => if String.eqb k k' then Some v else get k d'
  end.

(** [k in d] *)
Definition mem (k : string) (d : dict) : bool :=
  match get k d with Some _ => true | None => false end.

(** [d[k] = v]: an existing key keeps its position. *)
Fixpoint set (k : string) (v : V) (d : dict) : dict :=
  match d with
  | [] => [(k, v)]
  | (k', v') :: d' =>
      if String.eqb k k' then (k', v) :: d' else (k', v') :: set k v d'
  end.

(** [d.update(new)] *)
Definition update (d new : dict) : dict :=
  fold_left (fun acc kv => set (fst kv) (snd kv) acc) new d.

Definition keys (d : dict) : list string := map fst d.
Definition values (d : dict) : list V := map snd d.
End Dict.
Arguments dict : clear implicits.
End PyDict.

Abbreviation attrs := (PyDict.dict scalar).

(** ** NetworkX [DiGraph] *)

(** [_node] maps a node to its attribute dict, [_succ] maps a node to the
    dict of its successors with the edge attribute dicts.  ([_pred] mirrors
    [_succ] and shares its attribute dicts; nothing here reads it.) *)
Record DiGraph := {
  _node : PyDict.dict attrs;
  _succ : PyDict.dict (PyDict.dict attrs)
}.

Module nx.

Definition empty : DiGraph := {| _node := []; _succ := [] |}.

Definition has_node (G : DiGraph) (n : string) : bool := PyDict.mem n (_node G).

Definition number_of_nodes (G : DiGraph) : nat := length (_node G).

(** [G.edges(data=True)] *)
Definition edges (G : DiGraph) : list (string * string * attrs) :=
  flat_map (fun '(u, nbrs) => map (fun '(v, dd) => (u, v, dd)) nbrs) (_succ G).

Definition number_of_edges (G : DiGraph) : nat := length (edges G).

(** [G.nodes(data=True)] *)
Definition nodes (G : DiGraph) : list (string * attrs) := _node G.

(** [G.nodes[n]] *)
Definition node_attrs (G : DiGraph) (n : string) : option attrs :=
  PyDict.get n (_node G).

(** [G.edges[u, v]] *)
Definition edge_attrs (G : DiGraph) (u v : string) : option attrs :=
  match PyDict.get u (_succ G) with
  | Some nbrs => PyDict.get v nbrs
  | None => None
  end.

(** [G.add_node(n, **attr)] *)
Definition add_node (n : string) (attr : attrs) (G : DiGraph) : DiGraph :=
  if PyDict.mem n (_succ G) then
    {| _node := PyDict.set n (PyDict.update (default [] (PyDict.get n (_node G))) attr) (_node G);
       _succ := _succ G |}
  else
    {| _node := PyDict.set n (PyDict.update [] attr) (_node G);
       _succ := PyDict.set n [] (_succ G) |}.

(** The first lines of [add_edge]: an endpoint that is not in the graph
    is added with an empty attribute dict. *)
Definition touch (n : string) (G : DiGraph) : DiGraph :=
  if PyDict.mem n (_succ G) then G
  else {| _node := PyDict.set n [] (_node G); _succ := PyDict.set n [] (_succ G) |}.

(** [G.add_edge(u, v, **attr)] *)
Definition add_edge (u v : string) (attr : attrs) (G : DiGraph) : DiGraph :=
  let G1 := touch v (touch u G) in
  let nbrs := default [] (PyDict.get u (_succ G1)) in
  let datadict := PyDict.update (default [] (PyDict.get v nbrs)) attr in
  {| _node := _node G1;
     _succ := PyDict.set u (PyDict.set v datadict nbrs) (_succ G1) |}.

(** [nx.get_node_attributes(G, name)] *)
Definition get_node_attributes (G : DiGraph) (name : string) : PyDict.dict scalar :=
  flat_map (fun '(n, d) => match PyDict.get name d with
                           | Some x => [(n, x)]
                           | None => []
                           end) (_node G).

End nx.

(** ** Graph builder ([build_graph.py]) *)

(** [str(v)] of a cell, as [astype(str)] applies it. *)
Definition py_str (v : scalar) : string :=
  match v with
  | VStr s => s
  | VInt z => pretty z
  | VFloat r => r
  | VBool true => "True"
  | VBool false => "False"
  end.

Module PyPath.

(** Index-free helpers on strings. *)
Fixpoint after_last_slash (s acc : string) : string :=
  match s with
  | EmptyString => acc
  | String c s' =>
      if Ascii.eqb c "/"%char then after_last_slash s' s' else after_last_slash s' acc
  end.

(** [os.path.basename] *)
Definition basename (p : string) : string := after_last_slash p p.

Fixpoint all_dots (s : string) : bool :=
  match s with
  | EmptyString => true
  | String c s' => Ascii.eqb c "."%char && all_dots s'
  end.

(** Position of the last dot that has a character other than a dot
    somewhere before it, as [os.path.splitext] looks for it. *)
Fixpoint last_ext_dot (s : string) (pos : nat) (seen_name : bool) (best : option nat)
  : option nat :=
  match s with
  | EmptyString => best
  | String c s' =>
      if Ascii.eqb c "."%char
      then last_ext_dot s' (S pos) seen_name (if seen_name then Some pos else best)
      else last_ext_dot s' (S pos) true best
  end.

(** [os.path.splitext(p)[0]] for a path without directory part. *)
Definition splitext_root (b : string) : string :=
  match last_ext_dot b 0 false None with
  | Some i => String.substring 0 i b
  | None => b
  end.

(** [re.sub(pat, '', s, flags=re.IGNORECASE)] for a literal pattern that is
    not empty, on ASCII text: the leftmost occurrence is removed and
    scanning resumes after it.  [skip] counts the characters of a match
    that are still to be dropped.  (Outside ASCII the library also takes
    the letters U+0130 and U+0131 for an [i] and U+017F for an [s].) *)
Fixpoint sub_ci_from (pat : string) (skip : nat) (s : string) : string :=
  match s with
  | EmptyString => EmptyString
  | String c s' =>
      match skip with
      | S k => sub_ci_from pat k s'
      | O =>
          if String.prefix (PyStr.lower pat) (PyStr.lower s)
          then sub_ci_from pat (String.length pat - 1) s'
          else String c (sub_ci_from pat 0 s')
      end
  end.

Definition sub_ci (pat s : string) : string := sub_ci_from pat 0 s.

End PyPath.

Definition clean_type_name (filename : string) : string :=
  let base := PyPath.splitext_root (PyPath.basename filename) in
  let base := PyPath.sub_ci "Neuprint_" base in
  let base := PyPath.sub_ci "_fib25" base in
  let base := PyPath.sub_ci "_hemibrain" base in
  let base := PyPath.sub_ci "_strict" base in
  base.

(** A CSV file of the data folder as [pd.read_csv] sees it: [header] is the
    column list of the preview read ([nrows=0]) and [data] the rows of the
    full read, one cell per column; [None] stands for a read that raises. *)
Record csv_file := {
  path : string;
  header : option (list string);
  data : option (list (list scalar))
}.

(** [row.to_dict()]: the cells of a row by column name. *)
Definition row_dict (cols : list string) (cells : list scalar) : attrs :=
  PyDict.update [] (combine cols cells).

(** [df[col] = df[col].astype(str)], seen on one row. *)
Definition astype_str (col : string) (r : attrs) : attrs :=
  map (fun kv => if String.eqb (fst kv) col then (fst kv, VStr (py_str (snd kv)))
                 else kv) r.

(** A call [f(..., **row)] raises [TypeError] when a key of [row] names a
    parameter that the call already binds. *)
Definition kwargs_clash (bound : list string) (r : attrs) : bool :=
  existsb (fun k => existsb (String.eqb k) bound) (PyDict.keys r).

(** State of a loop body that may raise: the graph is mutated in place, so
    it keeps what was done before the exception. *)
Inductive outcome :=
| Done (G : DiGraph)
| Raised (G : DiGraph).

Definition graph_of (o : outcome) : DiGraph :=
  match o with Done G | Raised G => G end.

(** [for _, row in df.iterrows(): body] inside a [try]. *)
Fixpoint iterrows (body : attrs -> DiGraph -> outcome) (rows : list attrs) (G : DiGraph)
  : outcome :=
  match rows with
  | [] => Done G
  | r :: rows' =>
      match body r G with
      | Done G' => iterrows body rows' G'
      | Raised G' => Raised G'
      end
  end.

(** Parameters bound by name or position at the two call sites. *)
Definition add_node_bound : list string := ["self"; "node_for_adding"; "node_type"].
Definition add_edge_bound : list string := ["self"; "u_of_edge"; "v_of_edge"; "type"].

(** [G.add_node(row[id_col], node_type=type_name, **row.to_dict())] *)
Definition node_row (type_name id_col : string) (r : attrs) (G : DiGraph) : outcome :=
  match PyDict.get id_col r with
  | None => Raised G
  | Some n =>
      if kwargs_clash add_node_bound r then Raised G
      else Done (nx.add_node (py_str n) (("node_type", VStr type_name) :: r) G)
  end.

(** [if not G.has_node(n): G.add_node(n, node_type="Inferred")] *)
Definition ensure_node (n : string) (G : DiGraph) : DiGraph :=
  if nx.has_node G n then G else nx.add_node n [("node_type", VStr "Inferred")] G.

(** Body of the edge loop, lines 83 to 86. *)
Definition edge_row (type_name start_col end_col : string) (r : attrs) (G : DiGraph)
  : outcome :=
  match PyDict.get start_col r, PyDict.get end_col r with
  | Some u, Some v =>
      let u := py_str u in
      let v := py_str v in
      let G := ensure_node u G in
      let G := ensure_node v G in
      if kwargs_clash add_edge_bound r then Raised G
      else Done (nx.add_edge u v (("type", VStr type_name) :: r) G)
  | _, _ => Raised G
  end.

(** Pass 1 on one file. *)
Definition pass1_file (G : DiGraph) (f : csv_file) : DiGraph :=
  match header f with
  | None => G
  | Some cols =>
      match detect_file_role cols with
      | RoleNode id_col =>
          match data f with
          | None => G
          | Some rows =>
              graph_of (iterrows (node_row (clean_type_name (path f)) id_col)
                          (map (fun cells => astype_str id_col (row_dict cols cells)) rows) G)
          end
      | _ => G
      end
  end.

(** Pass 2 on one file. *)
Definition pass2_file (G : DiGraph) (f : csv_file) : DiGraph :=
  match header f with
  | None => G
  | Some cols =>
      match detect_file_role cols with
      | RoleEdge start_col end_col =>
          match data f with
          | None => G
          | Some rows =>
              graph_of (iterrows (edge_row (clean_type_name (path f)) start_col end_col)
                          (map (fun cells =>
                                  astype_str end_col (astype_str start_col (row_dict cols cells)))
                             rows) G)
          end
      | _ => G
      end
  end.

Definition pass1 (csv_files : list csv_file) (G : DiGraph) : DiGraph :=
  fold_left pass1_file csv_files G.

Definition pass2 (csv_files : list csv_file) (G : DiGraph) : DiGraph :=
  fold_left pass2_file csv_files G.

(** [build_graph(data_folder)]: [None] is a folder that does not exist,
    [Some csv_files] the files that [glob] lists. *)
Definition build_graph (data_folder : option (list csv_file)) : DiGraph :=
  match data_folder with
  | None => nx.empty
  | Some [] => nx.empty
  | Some csv_files => pass2 csv_files (pass1 csv_files nx.empty)
  end.

(** ** Python floats *)

Module PyFloat.

Definition prec : Z := 53.
Definition emax : Z := 1024.

(** [float(z)] for an integer; exact when [|z| < 2^53]. *)
Definition of_int (z : Z) : spec_float := binary_normalize prec emax z 0 false.

Definition mul (x y : spec_float) : spec_float := SFmul prec emax x y.
Definition div (x y : spec_float) : spec_float := SFdiv prec emax x y.

(** [x > y] *)
Definition gtb (x y : spec_float) : bool := SFltb y x.

(** [a / b] on two [int]s below [2^53]: one correctly rounded division
    of the two converted operands. *)
Definition truediv (a b : Z) : spec_float := div (of_int a) (of_int b).

(** The literals [0.9] and [0.8]: the doubles nearest to 9/10 and 8/10,
    [0x1.ccccccccccccdp-1] and [0x1.999999999999ap-1]. *)
Definition lit_0_9 : spec_float := S754_finite false 8106479329266893 (-53).
Definition lit_0_8 : spec_float := S754_finite false 7205759403792794 (-53).
Definition zero : spec_float := S754_zero false.

(** Nearest integer to [n / d], ties to even, for [d > 0]. *)
Definition div_half_even (n d : Z) : Z :=
  let q := (n / d)%Z in
  let r := (n mod d)%Z in
  match (2 * r ?= d)%Z with
  | Lt => q
  | Gt => (q + 1)%Z
  | Eq => if Z.even q then q else (q + 1)%Z
  end.

(** The number of hundredths that [round(x, 2)] and the format [.2f]
    select: the exact value of [x] rounded to two decimals, ties to even. *)
Definition hundredths (x : spec_float) : option Z :=
  match x with
  | S754_zero _ => Some 0%Z
  | S754_finite s m e =>
      let k := match e with
               | Zneg p => div_half_even (100 * Zpos m) (2 ^ Zpos p)
               | _ => (100 * Zpos m * 2 ^ e)%Z
               end in
      Some (if s then (- k)%Z else k)
  | _ => None
  end.

(** [round(x, 2)]: the double nearest to the selected decimal.  A finite
    [x] that rounds to no hundredth gives the zero of its sign; zeros,
    infinities and NaN are returned as they are.  Both operands of the
    quotient are exact while the number of hundredths is below [2^53]. *)
Definition round2 (x : spec_float) : spec_float :=
  match x with
  | S754_finite s _ _ =>
      match hundredths x with
      | Some k => if (k =? 0)%Z then S754_zero s else div (of_int k) (of_int 100)
      | None => x
      end
  | _ => x
  end.

End PyFloat.

(** ** [difflib.SequenceMatcher(None, a, b).ratio()] *)

Module difflib.

Definition Match : Type := nat * nat * nat.

(** [__chain_b]: the positions of each element of [b], without the
    elements that are popular in a [b] of 200 elements or more.  No junk
    predicate is given, so the junk set is empty. *)
Definition chain_b (b : list ascii) : gmap ascii (list nat) :=
  let b2j :=
    fold_left (fun (m : gmap ascii (list nat)) (ie : nat * ascii) =>
                 <[snd ie := (default [] (m !! snd ie) ++ [fst ie])%list]> m)
              (zip (seq 0 (length b)) b) ∅ in
  let n := length b in
  if (200 <=? n)%nat then
    let ntest := (n / 100 + 1)%nat in
    filter (fun kv => (length (snd kv) <= ntest)%nat) b2j
  else b2j.

Section Matcher.
Variables a b : list ascii.
Variable b2j : gmap ascii (list nat).

(** The inner loop over the positions [j] of [a[i]] in [b]. *)
Fixpoint scan_row (js : list nat) (i blo bhi : nat) (j2len newj2len : gmap nat nat)
         (best : Match) : gmap nat nat * Match :=
  match js with
  | [] => (newj2len, best)
  | j :: js' =>
      if (j <? blo)%nat then scan_row js' i blo bhi j2len newj2len best
      else if (bhi <=? j)%nat then (newj2len, best)
      else
        let k := S (match j with
                    | O => 0%nat
                    | S j' => default 0%nat (j2len !! j')
                    end) in
        let best' := if (snd best <? k)%nat then ((i + 1 - k)%nat, (j + 1 - k)%nat, k)
                     else best in
        scan_row js' i blo bhi j2len (<[j := k]> newj2len) best'
  end.

(** The outer loop [for i in range(alo, ahi)], [n] rows from [i]. *)
Fixpoint scan_rows (n i blo bhi : nat) (j2len : gmap nat nat) (best : Match) : Match :=
  match n with
  | O => best
  | S n' =>
      let js := match a !! i with
                | Some x => default [] (b2j !! x)
                | None => []
                end in
      let '(newj2len, best') := scan_row js i blo bhi j2len ∅ best in
      scan_rows n' (S i) blo bhi newj2len best'
  end.

(** [while besti > alo and bestj > blo and a[besti-1] == b[bestj-1]] *)
Fixpoint extend_left (besti bestj bestsize alo blo : nat) : Match :=
  match besti, bestj with
  | S i', S j' =>
      if (alo <? besti)%nat && (blo <? bestj)%nat
         && bool_decide (is_Some (a !! i') /\ a !! i' = b !! j')
      then extend_left i' j' (S bestsize) alo blo
      else (besti, bestj, bestsize)
  | _, _ => (besti, bestj, bestsize)
  end.

(** [while besti+bestsize < ahi and bestj+bestsize < bhi and
    a[besti+bestsize] == b[bestj+bestsize]], at most [n] times. *)
Fixpoint extend_right (n besti bestj bestsize ahi bhi : nat) : Match :=
  match n with
  | O => (besti, bestj, bestsize)
  | S n' =>
      if (besti + bestsize <? ahi)%nat && (bestj + bestsize <? bhi)%nat
         && bool_decide (is_Some (a !! (besti + bestsize)%nat)
                         /\ a !! (besti + bestsize)%nat = b !! (bestj + bestsize)%nat)
      then extend_right n' besti bestj (S bestsize) ahi bhi
      else (besti, bestj, bestsize)
  end.

(** [find_longest_match(alo, ahi, blo, bhi)].  The two last loops of the
    library extend over junk elements only and never run here. *)
Definition find_longest_match (alo ahi blo bhi : nat) : Match :=
  let '(besti, bestj, bestsize) := scan_rows (ahi - alo) alo blo bhi ∅ (alo, blo, 0%nat) in
  let '(besti, bestj, bestsize) := extend_left besti bestj bestsize alo blo in
  extend_right (ahi - (besti + bestsize)) besti bestj bestsize ahi bhi.

(** The loop of [get_matching_blocks]: [queue] is a stack whose top is
    the head of the list; blocks are collected in the order found. *)
Fixpoint blocks_loop (fuel : nat) (queue : list (nat * nat * nat * nat))
         (matching_blocks : list Match) : list Match :=
  match fuel with
  | O => matching_blocks
  | S fuel' =>
      match queue with
      | [] => matching_blocks
      | (alo, ahi, blo, bhi) :: queue' =>
          let '(i, j, k) := find_longest_match alo ahi blo bhi in
          if (k =? 0)%nat then blocks_loop fuel' queue' matching_blocks
          else
            let q1 := if (alo <? i)%nat && (blo <? j)%nat
                      then (alo, i, blo, j) :: queue' else queue' in
            let q2 := if (i + k <? ahi)%nat && (j + k <? bhi)%nat
                      then ((i + k)%nat, ahi, (j + k)%nat, bhi) :: q1 else q1 in
            blocks_loop fuel' q2 (matching_blocks ++ [(i, j, k)])%list
      end
  end.
End Matcher.

(** The blocks of [get_matching_blocks] before they are sorted and
    adjacent ones are merged, two steps that keep the sum of the sizes.
    Every block takes at least one element of [a] and queues at most two
    ranges, so [2 * len(a) + 1] iterations empty the queue. *)
Definition get_matching_blocks (a b : list ascii) : list Match :=
  blocks_loop a b (chain_b b) (2 * length a + 1) [(0, length a, 0, length b)]%nat [].

(** [sum(triple[-1] for triple in self.get_matching_blocks())] *)
Definition matches (a b : list ascii) : nat :=
  fold_left (fun s t => (s + snd t)%nat) (get_matching_blocks a b) 0%nat.

(** [_calculate_ratio(matches, len(a) + len(b))] *)
Definition ratio (a b : list ascii) : spec_float :=
  let length := (length a + length b)%nat in
  if (length =? 0)%nat then PyFloat.of_int 1
  else PyFloat.div (PyFloat.mul (PyFloat.of_int 2) (PyFloat.of_int (Z.of_nat (matches a b))))
                   (PyFloat.of_int (Z.of_nat length)).

End difflib.

(** ** Schema comparator ([compare_schemas.py], [app.py]) *)

(** [similar(a, b)]; the integer [0] of the first line is the float zero. *)
Definition similar (a b : string) : spec_float :=
  if negb (PyStr.truthy a) || negb (PyStr.truthy b) then PyFloat.zero
  else difflib.ratio (list_ascii_of_string (PyStr.lower a))
                     (list_ascii_of_string (PyStr.lower b)).

(** The loop of [find_best_match] over [(best_score, best_match)]. *)
Definition best_step (name : string) (st : spec_float * option string) (target : string)
  : spec_float * option string :=
  let score := similar name target in
  if PyFloat.gtb score PyFloat.lit_0_8 then
    if PyFloat.gtb score (fst st) then (score, Some target) else st
  else st.

Definition find_best_match (name : string) (target_list : list string) : option string :=
  snd (fold_left (best_step name) target_list (PyFloat.zero, None)).

(** A schema as [json.load] returns it.  A field that is absent is [None];
    names are JSON strings. *)
Record json_property := { jp_name : option string }.

Record json_type := {
  jt_name : option string;          (* ['name'] of a node type, ['type'] of an edge type *)
  jt_alt : option string;           (* ['name'] of an edge type *)
  jt_labels : option (list string); (* ['labels'] of a node type *)
  jt_properties : option (list json_property)
}.

Record json_schema := {
  js_node_types : option (list json_type);
  js_edge_types : option (list json_type)
}.

(** [x or y] on optional strings. *)
Definition py_or (x : option string) (y : string) : string :=
  match x with
  | Some s => if PyStr.truthy s then s else y
  | None => y
  end.

(** [n.get('name') or (n.get('labels', [''])[0] if n.get('labels') else '')] *)
Definition node_key (n : json_type) : string :=
  py_or (jt_name n)
        (match jt_labels n with
         | Some (l :: _) => l
         | _ => ""
         end).

(** [e.get('type') or e.get('name')]; a key [None] is written [""]: both
    are falsy, score 0 against every name and are never matched. *)
Definition edge_key (e : json_type) : string :=
  py_or (jt_name e) (default "" (jt_alt e)).

(** [{key(n): n for n in types}] *)
Definition index_by (key : json_type -> string) (types : option (list json_type))
  : PyDict.dict json_type :=
  fold_left (fun d n => PyDict.set (key n) n d) (default [] types) [].

(** [{str(p['name']) for p in props if p.get('name')}] *)
Definition prop_names (props : list json_property) : gset string :=
  list_to_set (flat_map (fun p => match jp_name p with
                                  | Some s => if PyStr.truthy s then [s] else []
                                  | None => []
                                  end) props).

Definition compare_properties (gt_props inf_props : list json_property)
  : gset string * gset string * gset string :=
  let gt_names := prop_names gt_props in
  let inf_names := prop_names inf_props in
  (gt_names ∩ inf_names, gt_names ∖ inf_names, inf_names ∖ gt_names).

(** [d[k].get('properties', [])] for a key of [d]. *)
Definition properties_of (d : PyDict.dict json_type) (k : string) : list json_property :=
  match PyDict.get k d with
  | Some n => default [] (jt_properties n)
  | None => []
  end.

(** The match list of one namespace: one entry per reference name that has
    a truthy best match. *)
Definition match_names (gt_d inf_d : PyDict.dict json_type) : list (string * string) :=
  flat_map (fun gt_name =>
              match find_best_match gt_name (PyDict.keys inf_d) with
              | Some match_name => if PyStr.truthy match_name then [(gt_name, match_name)] else []
              | None => []
              end) (PyDict.keys gt_d).

Record property_detail := {
  pd_node : string;
  pd_correct : gset string;
  pd_missing : gset string;
  pd_extra : gset string
}.

Record comparison := {
  accuracy : spec_float;
  node_matches : list (string * string);
  edge_matches : list (string * string);
  property_details : list property_detail;
  total_properties : nat;
  matched_properties : nat
}.

(** The property loop over [(total_props, total_matches, property_details)]. *)
Definition property_step (gt_nodes inf_nodes : PyDict.dict json_type)
           (st : nat * nat * list property_detail) (m : string * string)
  : nat * nat * list property_detail :=
  let '(total_props, total_matches, details) := st in
  let '(tp, fn, fp) := compare_properties (properties_of gt_nodes (fst m))
                                          (properties_of inf_nodes (snd m)) in
  ((total_props + length (properties_of gt_nodes (fst m)))%nat,
   (total_matches + size tp)%nat,
   (details ++ [{| pd_node := fst m; pd_correct := tp; pd_missing := fn; pd_extra := fp |}])%list).

(** [(total_matches / total_props * 100) if total_props > 0 else 0] *)
Definition raw_accuracy (total_matches total_props : nat) : spec_float :=
  if (0 <? total_props)%nat
  then PyFloat.mul (PyFloat.truediv (Z.of_nat total_matches) (Z.of_nat total_props))
                   (PyFloat.of_int 100)
  else PyFloat.zero.

(** The body of the [/compare] route of [app.py], from the two loaded
    schemas to the reported object. *)
Definition compare_schemas (gt inf : json_schema) : comparison :=
  let gt_nodes := index_by node_key (js_node_types gt) in
  let inf_nodes := index_by node_key (js_node_types inf) in
  let node_matches := match_names gt_nodes inf_nodes in
  let '(total_props, total_matches, details) :=
    fold_left (property_step gt_nodes inf_nodes) node_matches (0%nat, 0%nat, []) in
  let gt_edges := index_by edge_key (js_edge_types gt) in
  let inf_edges := index_by edge_key (js_edge_types inf) in
  let edge_matches := match_names gt_edges inf_edges in
  {| accuracy := PyFloat.round2 (raw_accuracy total_matches total_props);
     node_matches := node_matches;
     edge_matches := edge_matches;
     property_details := details;
     total_properties := total_props;
     matched_properties := total_matches |}.

(** The last lines of [main] in [compare_schemas.py], on schemas whose
    types are indexed as above: the score that is printed with the format
    [.2f], in hundredths, when one is printed. *)
Definition final_property_score (gt inf : json_schema) : option Z :=
  let gt_nodes := index_by node_key (js_node_types gt) in
  let inf_nodes := index_by node_key (js_node_types inf) in
  let '(total_props, total_matches, _) :=
    fold_left (property_step gt_nodes inf_nodes) (match_names gt_nodes inf_nodes)
              (0%nat, 0%nat, []) in
  if (0 <? total_props)%nat
  then PyFloat.hundredths
         (PyFloat.mul (PyFloat.truediv (Z.of_nat total_matches) (Z.of_nat total_props))
                      (PyFloat.of_int 100))
  else None.

(** ** Deterministic fallback synthesizer ([generate_mock_schema]) *)

#[global] Instance scalar_eq_dec : EqDecision scalar.
Proof. solve_decision. Defined.

Record property := {
  name : string;
  type : string;
  mandatory : bool
}.

Record type_entry := {
  te_name : scalar;
  te_properties : list property
}.

Record schema := {
  node_types : list type_entry;
  edge_types : list type_entry
}.

(** The scalar kind: [bool] is a subclass of [int], so the first test
    already takes a boolean. *)
Definition prop_type (value : scalar) : string :=
  match value with
  | VInt _ | VBool _ => "Long"
  | VFloat _ => "Double"
  | VStr _ => "String"
  end.

(** [(has_prop_count / population) > 0.9] *)
Definition is_mandatory (has_prop_count population : nat) : bool :=
  PyFloat.gtb (PyFloat.truediv (Z.of_nat has_prop_count) (Z.of_nat population))
              PyFloat.lit_0_9.

(** [len([x for x in l if p x])], also [sum(1 for x in l if p x)]. *)
Definition count_where {A} (p : A -> bool) (l : list A) : nat := length (List.filter p l).

(** A Python [set] of tags: each tag is listed once.  The iteration order
    of a [set] is not specified by the interpreter. *)
Definition tag_set (l : list scalar) : list scalar := remove_dups l.

(** [[n for n, attr in G.nodes(data=True) if attr.get('node_type') == nt]] *)
Definition nodes_of_type (G : DiGraph) (nt : scalar) : list string :=
  map fst (List.filter (fun na => bool_decide (PyDict.get "node_type" (snd na) = Some nt))
             (nx.nodes G)).

(** [[(u, v, attr) for u, v, attr in G.edges(data=True) if attr.get('type') == et]] *)
Definition edges_of_type (G : DiGraph) (et : scalar) : list (string * string * attrs) :=
  List.filter (fun e => bool_decide (PyDict.get "type" (snd e) = Some et)) (nx.edges G).

(** [nx.get_edge_attributes(G, name).values()] *)
Definition edge_attribute_values (G : DiGraph) (name : string) : list scalar :=
  flat_map (fun e => match PyDict.get name (snd e) with
                     | Some x => [x]
                     | None => []
                     end) (nx.edges G).

(** The properties of a node type, from its first node. *)
Definition mock_node_properties (G : DiGraph) (nodes_of_type : list string) (node_attrs : attrs)
  : list property :=
  flat_map (fun kv =>
              if String.eqb (fst kv) "node_type" then []
              else
                let has_prop_count :=
                  count_where (fun n => PyDict.mem (fst kv) (default [] (nx.node_attrs G n)))
                              nodes_of_type in
                [{| name := fst kv;
                    type := prop_type (snd kv);
                    mandatory := is_mandatory has_prop_count (length nodes_of_type) |}])
           node_attrs.

Definition mock_node_types (G : DiGraph) : list type_entry :=
  flat_map (fun nt =>
              let members := nodes_of_type G nt in
              match members with
              | [] => []
              | sample_node :: _ =>
                  [{| te_name := nt;
                      te_properties :=
                        mock_node_properties G members
                          (default [] (nx.node_attrs G sample_node)) |}]
              end)
           (tag_set (PyDict.values (nx.get_node_attributes G "node_type"))).

(** The properties of an edge type, from its first edge. *)
Definition mock_edge_properties (edges_of_type : list (string * string * attrs))
           (edge_attrs : attrs) : list property :=
  flat_map (fun kv =>
              if String.eqb (fst kv) "type" then []
              else
                let has_prop_count :=
                  count_where (fun e => PyDict.mem (fst kv) (snd e)) edges_of_type in
                [{| name := fst kv;
                    type := prop_type (snd kv);
                    mandatory := is_mandatory has_prop_count (length edges_of_type) |}])
           edge_attrs.

Definition mock_edge_types (G : DiGraph) : list type_entry :=
  flat_map (fun et =>
              let members := edges_of_type G et in
              match members with
              | [] => []
              | sample_edge :: _ =>
                  [{| te_name := et;
                      te_properties := mock_edge_properties members (snd sample_edge) |}]
              end)
           (tag_set (edge_attribute_values G "type")).

(** [generate_mock_schema(G, job_id)]: the object that is serialized. *)
Definition generate_mock_schema (G : DiGraph) : schema :=
  {| node_types := mock_node_types G; edge_types := mock_edge_types G |}.

(** ** Attribute profiler ([main.py]) *)

(** The profile of one type.  The source renders it as lines of text; the
    record holds what the lines say. *)
Record property_profile := {
  pp_key : string;
  pp_count : nat;
  pp_kind : string;
  pp_examples : list string
}.

Record type_profile := {
  tp_type : scalar;
  tp_count : nat;
  tp_topology : list (string * nat);
  tp_properties : list property_profile
}.

(** [type(v).__name__] *)
Definition type_name_of (v : scalar) : string :=
  match v with
  | VStr _ => "str"
  | VInt _ => "int"
  | VFloat _ => "float"
  | VBool _ => "bool"
  end.

Module collections.

(** [Counter(l)]: the distinct elements in the order of first occurrence,
    each with its number of occurrences. *)
Definition Counter (l : list string) : PyDict.dict nat :=
  fold_left (fun c x => PyDict.set x (S (default 0%nat (PyDict.get x c))) c) l [].

(** Insertion after every entry whose count is at least as large, which
    is how a stable descending sort places an entry. *)
Fixpoint insert_desc (x : string * nat) (l : list (string * nat)) : list (string * nat) :=
  match l with
  | [] => [x]
  | y :: l' => if (snd y <? snd x)%nat then x :: y :: l' else y :: insert_desc x l'
  end.

Definition sort_desc (l : list (string * nat)) : list (string * nat) :=
  fold_left (fun acc x => insert_desc x acc) l [].

(** [c.most_common(n)]: [sorted(c.items(), key=count, reverse=True)[:n]]. *)
Definition most_common (n : nat) (c : PyDict.dict nat) : list (string * nat) :=
  firstn n (sort_desc c).

End collections.

(** The keys of a list of attribute dicts without [tag], each listed once.
    The source collects them in a [set], whose order is not specified. *)
Definition key_set (tag : string) (ds : list attrs) : list string :=
  List.filter (fun k => negb (String.eqb k tag)) (remove_dups (flat_map PyDict.keys ds)).

(** [profile_node_type(G, target_type)]; [random_sample] is
    [random.sample], and [None] is the empty report. *)
Definition profile_node_type (random_sample : list string -> nat -> list string)
           (G : DiGraph) (target_type : scalar) : option type_profile :=
  let members := nodes_of_type G target_type in
  let count := length members in
  if (count =? 0)%nat then None
  else
    let sample_size := Nat.min count 1000 in
    let sample_nodes := random_sample members sample_size in
    let all_keys :=
      key_set "node_type" (map (fun n => default [] (nx.node_attrs G n)) sample_nodes) in
    Some {| tp_type := target_type;
            tp_count := count;
            tp_topology := [];
            tp_properties :=
              flat_map (fun key =>
                          let all_values_dict := nx.get_node_attributes G key in
                          let relevant_values :=
                            flat_map (fun n => match PyDict.get n all_values_dict with
                                               | Some x => [x]
                                               | None => []
                                               end) members in
                          match relevant_values with
                          | [] => []
                          | sample_val :: _ =>
                              [{| pp_key := key;
                                  pp_count := length relevant_values;
                                  pp_kind := type_name_of sample_val;
                                  pp_examples :=
                                    firstn 5 (remove_dups (map py_str (firstn 20 relevant_values))) |}]
                          end) all_keys |}.

(** [G.nodes[n].get('node_type', 'Unknown')] inside an f-string. *)
Definition node_type_text (G : DiGraph) (n : string) : string :=
  py_str (default (VStr "Unknown") (PyDict.get "node_type" (default [] (nx.node_attrs G n)))).

(** The connection label of an edge: [f"{src_type}->{tgt_type}"]. *)
Definition connection (G : DiGraph) (e : string * string * attrs) : string :=
  node_type_text G (fst (fst e)) ++ "->" ++ node_type_text G (snd (fst e)).

(** The presence count of one key over a population of edges:
    [len([attr.get(key) for ... if attr.get(key) is not None])]. *)
Definition presence (key : string) (population : list (string * string * attrs)) : list scalar :=
  flat_map (fun e => match PyDict.get key (snd e) with
                     | Some x => [x]
                     | None => []
                     end) population.

(** [profile_edge_type(G, target_type)] *)
Definition profile_edge_type (G : DiGraph) (target_type : scalar) : option type_profile :=
  let members := edges_of_type G target_type in
  let count := length members in
  if (count =? 0)%nat then None
  else
    let connections := map (connection G) (firstn 50 members) in
    let common_topology := collections.most_common 5 (collections.Counter connections) in
    let sample_edges := firstn 100 members in
    let all_keys := key_set "type" (map snd sample_edges) in
    Some {| tp_type := target_type;
            tp_count := count;
            tp_topology := common_topology;
            tp_properties :=
              flat_map (fun key =>
                          let values := presence key members in
                          match values with
                          | [] => []
                          | first :: _ =>
                              [{| pp_key := key;
                                  pp_count := length values;
                                  pp_kind := type_name_of first;
                                  pp_examples := [] |}]
                          end) all_keys |}.

(** The data of the prompt: the two totals and the profiles of all types. *)
Record context_report := {
  total_nodes : nat;
  total_edges : nat;
  node_profiles : list type_profile;
  edge_profiles : list type_profile
}.

Definition profile_graph (random_sample : list string -> nat -> list string) (G : DiGraph)
  : context_report :=
  {| total_nodes := nx.number_of_nodes G;
     total_edges := nx.number_of_edges G;
     node_profiles :=
       omap (profile_node_type random_sample G)
            (tag_set (PyDict.values (nx.get_node_attributes G "node_type")));
     edge_profiles :=
       omap (profile_edge_type G) (tag_set (edge_attribute_values G "type")) |}.

(** ** The two pipelines ([process_schema_discovery], [main.py]) *)

Module PyText.

(** The white space of [str.strip] in ASCII: the characters 9 to 13 and 28
    to 32.  (Outside ASCII the library also strips the Unicode spaces, such
    as U+0085 and U+00A0.) *)
Definition is_space (c : ascii) : bool :=
  let n := nat_of_ascii c in
  ((9 <=? n)%nat && (n <=? 13)%nat) || ((28 <=? n)%nat && (n <=? 32)%nat).

Fixpoint lstrip (s : string) : string :=
  match s with
  | String c s' => if is_space c then lstrip s' else s
  | EmptyString => EmptyString
  end.

Fixpoint rstrip (s : string) : string :=
  match s with
  | String c s' =>
      match rstrip s' with
      | EmptyString => if is_space c then EmptyString else String c EmptyString
      | r => String c r
      end
  | EmptyString => EmptyString
  end.

(** [s.strip()], on ASCII text. *)
Definition strip (s : string) : string := rstrip (lstrip s).

(** [s.replace(old, "")] for an [old] that is not empty; [skip] counts the
    characters of an occurrence that are still to be dropped. *)
Fixpoint remove_from (old : string) (skip : nat) (s : string) : string :=
  match s with
  | EmptyString => EmptyString
  | String c s' =>
      match skip with
      | S k => remove_from old k s'
      | O =>
          if String.prefix old s
          then remove_from old (String.length old - 1) s'
          else String c (remove_from old 0 s')
      end
  end.

Definition remove (old s : string) : string := remove_from old 0 s.

End PyText.

(** What lies outside the pipeline: the credential of the environment, the
    text generation service, the random sampler and the JSON library over
    its values [J].  [None] is a call that raises. *)
Record environment (J : Type) := {
  api_key : option string;
  generate_content : context_report -> option string;
  random_sample : list string -> nat -> list string;
  json_loads : string -> option J;
  json_truthy : J -> bool;
  json_dumps : schema -> string
}.
Arguments api_key {J}.
Arguments generate_content {J}.
Arguments random_sample {J}.
Arguments json_loads {J}.
Arguments json_truthy {J}.
Arguments json_dumps {J}.

(** The effects that are observed. *)
Inductive event (J : Type) :=
| EvMakedirs (dir : string)
| EvPrint (line : string)
| EvSleep
| EvOracle (prompt : context_report)
| EvWrite (file : string) (content : option J)
| EvExit.
Arguments EvMakedirs {J}.
Arguments EvPrint {J}.
Arguments EvSleep {J}.
Arguments EvOracle {J}.
Arguments EvWrite {J}.
Arguments EvExit {J}.

(** The entry [jobs[job_id]] and the trace of effects. *)
Record world (J : Type) := {
  status : string;
  message : string;
  progress : nat;
  result : option J;
  output_file : option string;
  trace : list (event J)
}.
Arguments status {J}.
Arguments message {J}.
Arguments progress {J}.
Arguments result {J}.
Arguments output_file {J}.
Arguments trace {J}.

Section Pipeline.
Context {J : Type}.
Variable env : environment J.

Definition set_status (s m : string) (w : world J) : world J :=
  {| status := s; message := m; progress := progress w; result := result w;
     output_file := output_file w; trace := trace w |}.

Definition set_progress (p : nat) (w : world J) : world J :=
  {| status := status w; message := message w; progress := p; result := result w;
     output_file := output_file w; trace := trace w |}.

Definition emit (e : event J) (w : world J) : world J :=
  {| status := status w; message := message w; progress := progress w; result := result w;
     output_file := output_file w; trace := (trace w ++ [e])%list |}.

Definition complete (j : J) (file : string) (w : world J) : world J :=
  {| status := "completed"; message := "Schema discovery completed successfully!";
     progress := 100; result := Some j; output_file := Some file; trace := trace w |}.

(** The state of a job when [upload_files] queues it. *)
Definition queued : world J :=
  {| status := "queued"; message := "Job queued"; progress := 0; result := None;
     output_file := None; trace := [] |}.

(** [extract_json(text)] *)
Definition extract_json (text : string) : option J :=
  json_loads env (PyText.remove "```" (PyText.remove "```json" (PyText.strip text))).

(** [call_gemini_api(prompt, job_id, G=G, use_mock=use_mock)] of [app.py] *)
Definition call_gemini_api (prompt : context_report) (G : DiGraph) (use_mock : bool)
           (w : world J) : option string * world J :=
  if negb (PyStr.opt_truthy (api_key env)) || use_mock then
    let w := set_status "calling_api"
               "Generating mock schema (DEMO MODE - No API key required)..." w in
    let w := emit EvSleep w in
    (Some (json_dumps env (generate_mock_schema G)), w)
  else
    let w := set_status "calling_api" "Calling Gemini API..." w in
    let w := emit (EvOracle prompt) w in
    match generate_content env prompt with
    | Some text => (Some text, w)
    | None => (None, set_status "error" "API Error" w)
    end.

(** [process_schema_discovery(data_dir, output_dir, job_id)] *)
Definition process_schema_discovery (data_dir : option (list csv_file)) (output_dir : string)
           (w : world J) : world J :=
  let w := set_status "building_graph" "Building graph from CSV files..." w in
  let G := build_graph data_dir in
  if (nx.number_of_nodes G =? 0)%nat then
    set_status "error" "Graph is empty. No data found." w
  else
    let w := set_progress 30 (set_status "profiling" "Profiling nodes and edges..." w) in
    let prompt := profile_graph (random_sample env) G in
    let w := set_status "generating_prompt" "Generating schema inference prompt..."
               (set_progress 60 w) in
    let w := set_progress 70 w in
    let use_mock := negb (PyStr.opt_truthy (api_key env)) in
    let '(response, w) := call_gemini_api prompt G use_mock w in
    if PyStr.opt_truthy response then
      let w := set_status "saving" "Saving inferred schema..." (set_progress 90 w) in
      match extract_json (default "" response) with
      | Some j =>
          if json_truthy env j then
            let file := output_dir ++ "/inferred_schema.json" in
            complete j file (emit (EvWrite file (Some j)) w)
          else set_status "error" "Failed to parse JSON response from API" w
      | None => set_status "error" "Failed to parse JSON response from API" w
      end
    else set_status "error" "API call failed" w.

(** [call_gemini_api(prompt)] of [main.py]: no key, no call. *)
Definition cli_call_gemini_api (prompt : context_report) (t : list (event J))
  : option string * list (event J) :=
  if negb (PyStr.opt_truthy (api_key env)) then (None, t)
  else
    let t := (t ++ [EvOracle prompt])%list in
    match generate_content env prompt with
    | Some text => (Some text, t)
    | None => (None, (t ++ [EvPrint "Error"])%list)
    end.

(** The main block of [main.py]: the trace of its effects. *)
Definition cli_main (data_dir : option (list csv_file)) (output_dir : string)
  : list (event J) :=
  let output_file := output_dir ++ "/inferred_schema.json" in
  let t := [EvMakedirs output_dir] in
  let G := build_graph data_dir in
  if (nx.number_of_nodes G =? 0)%nat then
    (t ++ [EvPrint "Graph is empty. Exiting."; EvExit])%list
  else
    let prompt := profile_graph (random_sample env) G in
    let '(response, t) := cli_call_gemini_api prompt t in
    if PyStr.opt_truthy response then
      (t ++ [EvWrite output_file (extract_json (default "" response));
             EvPrint "Inferred Schema saved"])%list
    else (t ++ [EvPrint "API failed."])%list.

End Pipeline.

(** An oracle call or a schema write in a trace. *)
Definition is_oracle_call {J} (e : event J) : bool :=
  match e with EvOracle _ => true | _ => false end.

Definition is_schema_write {J} (e : event J) : bool :=
  match e with EvWrite _ _ => true | _ => false end.

(** ** Pass 2 as a sequence of graph operations *)

(** What one edge row does to the graph: a row that is ingested creates
    the missing endpoints and writes the edge; a row whose [add_edge] call
    raises has created the endpoints only. *)
Inductive op :=
| OpEndpoints (u v : string)
| OpEdge (u v type_name : string) (r : attrs).

Definition ensure_endpoints (u v : string) (G : DiGraph) : DiGraph :=
  ensure_node v (ensure_node u G).

Definition run_op (G : DiGraph) (o : op) : DiGraph :=
  match o with
  | OpEndpoints u v => ensure_endpoints u v G
  | OpEdge u v type_name r =>
      nx.add_edge u v (("type", VStr type_name) :: r) (ensure_endpoints u v G)
  end.

(** The operations of the rows of one edge file, up to the row that raises. *)
Fixpoint rows_ops (type_name start_col end_col : string) (rows : list attrs) : list op :=
  match rows with
  | [] => []
  | r :: rows' =>
      match PyDict.get start_col r, PyDict.get end_col r with
      | Some u, Some v =>
          if kwargs_clash add_edge_bound r then [OpEndpoints (py_str u) (py_str v)]
          else OpEdge (py_str u) (py_str v) type_name r
                 :: rows_ops type_name start_col end_col rows'
      | _, _ => []
      end
  end.

Definition file_ops (f : csv_file) : list op :=
  match header f with
  | None => []
  | Some cols =>
      match detect_file_role cols with
      | RoleEdge start_col end_col =>
          match data f with
          | None => []
          | Some rows =>
              rows_ops (clean_type_name (path f)) start_col end_col
                (map (fun cells =>
                        astype_str end_col (astype_str start_col (row_dict cols cells)))
                   rows)
          end
      | _ => []
      end
  end.

Definition pass2_ops (csv_files : list csv_file) : list op := flat_map file_ops csv_files.

(** The edge rows that Pass 2 ingests, in order: source, target, type. *)
Definition ingested (ops : list op) : list (string * string * string) :=
  flat_map (fun o => match o with
                     | OpEdge u v type_name _ => [(u, v, type_name)]
                     | OpEndpoints _ _ => []
                     end) ops.

Definition ingested_edges (csv_files : list csv_file) : list (string * string * string) :=
  ingested (pass2_ops csv_files).

(** The type of the last ingested row between [u] and [v]. *)
Definition last_type (u v : string) (rows : list (string * string * string)) : option string :=
  fold_left (fun acc row =>
               if String.eqb (fst (fst row)) u && String.eqb (snd (fst row)) v
               then Some (snd row) else acc) rows None.

(** The identifiers that the rows of the node files declare. *)
Definition declared_in_file (f : csv_file) : list string :=
  match header f, data f with
  | Some cols, Some rows =>
      match detect_file_role cols with
      | RoleNode id_col =>
          flat_map (fun cells =>
                      match PyDict.get id_col (astype_str id_col (row_dict cols cells)) with
                      | Some n => [py_str n]
                      | None => []
                      end) rows
      | _ => []
      end
  | _, _ => []
  end.

Definition declared_ids (csv_files : list csv_file) : list string :=
  flat_map declared_in_file csv_files.

(** The pair of an edge of [G.edges(data=True)]. *)
Definition edge_keys (G : DiGraph) : list (string * string) := map fst (nx.edges G).

(** The type tag of the edge between [u] and [v]. *)
Definition edge_tag (G : DiGraph) (u v : string) : option scalar :=
  match nx.edge_attrs G u v with
  | Some d => PyDict.get "type" d
  | None => None
  end.

(** The placeholder attributes: the type tag alone. *)
Definition inferred_attrs : attrs := [("node_type", VStr "Inferred")].

(** ** Notions used in the statements *)

(** The invariant of the library: both tables list the same nodes, once
    each, every successor dict lists a target once, and every target is a
    node. *)
Record graph_ok (G : DiGraph) : Prop := {
  ok_keys : PyDict.keys (_node G) = PyDict.keys (_succ G);
  ok_nodup : List.NoDup (PyDict.keys (_succ G));
  ok_nbrs : forall u nbrs, In (u, nbrs) (_succ G) -> List.NoDup (PyDict.keys nbrs);
  ok_closed : forall u nbrs v,
      In (u, nbrs) (_succ G) -> In v (PyDict.keys nbrs) -> In v (PyDict.keys (_node G))
}.

(** A node that an operation finds absent becomes a placeholder, and a
    placeholder stays one. *)
Definition absent_or_inferred (G : DiGraph) (m : string) : Prop :=
  nx.node_attrs G m = None \/ nx.node_attrs G m = Some inferred_attrs.

Definition endpoints (o : op) : list string :=
  match o with
  | OpEndpoints u v => [u; v]
  | OpEdge u v _ _ => [u; v]
  end.

(** The text of the cell of [col] in a row, as [astype(str)] renders it. *)
Definition cell (cols : list string) (cells : list scalar) (col : string) : option string :=
  option_map py_str (PyDict.get col (row_dict cols cells)).


Definition clean (ops : list op) : Prop :=
  forall u v type_name r,
    In (OpEdge u v type_name r) ops -> kwargs_clash add_edge_bound r = false.

(** Two edge files of one row each, between the same two nodes. *)
Definition follows_csv : csv_file :=
  {| path := "data/FOLLOWS.csv";
     header := Some [":START_ID"; ":END_ID"];
     data := Some [[VStr "x"; VStr "y"]] |}.

Definition likes_csv : csv_file :=
  {| path := "data/LIKES.csv";
     header := Some [":START_ID"; ":END_ID"];
     data := Some [[VStr "x"; VStr "y"]] |}.


(** A node file of the type [type_name] that declares the [k] identifiers
    from [first] on. *)
Definition nodes_csv (type_name : string) (first k : nat) : csv_file :=
  {| path := "data/" ++ type_name ++ ".csv";
     header := Some [":ID"];
     data := Some (map (fun i => [VInt (Z.of_nat i)]) (seq first k)) |}.

(** An edge file with one row from each of the [k] identifiers from [first]
    on to the identifier [hub], with one more column [extra]. *)
Definition hub_edges_csv (file extra : string) (hub : Z) (first k : nat) : csv_file :=
  {| path := "data/" ++ file ++ ".csv";
     header := Some [":START_ID"; ":END_ID"; extra];
     data := Some (map (fun i => [VInt (Z.of_nat i); VInt hub; VInt 1]) (seq first k)) |}.

(** A folder of 120 nodes of six types.  Every node has an edge of the
    type LINK to the undeclared node 0: the first 110 edges come with a
    column [w] and the last 10, of a second file of the same type, with a
    column [late].  Ten nodes also have an edge of the type OTHER. *)
Definition star_folder : list csv_file :=
  [nodes_csv "A" 1 12; nodes_csv "B" 13 11; nodes_csv "C" 24 10; nodes_csv "D" 34 9;
   nodes_csv "E" 43 5; nodes_csv "F" 48 73;
   hub_edges_csv "LINK" "w" 0 1 110;
   hub_edges_csv "LINK_fib25" "late" 0 111 10;
   hub_edges_csv "OTHER" "w" 500 1 10].

(** A node file that declares [x]. *)
Definition person_csv : csv_file :=
  {| path := "data/Person.csv";
     header := Some [":ID"; "name"];
     data := Some [[VStr "x"; VStr "Ann"]] |}.

(** What the loop of [find_best_match] has established after the targets
    [seen]. *)
Definition best_inv (name : string) (seen : list string) (st : spec_float * option string)
  : Prop :=
  match snd st with
  | None =>
      fst st = PyFloat.zero /\
      forall t, In t seen -> PyFloat.gtb (similar name t) PyFloat.lit_0_8 = false
  | Some t =>
      fst st = similar name t /\ In t seen /\
      PyFloat.gtb (similar name t) PyFloat.lit_0_8 = true /\
      forall t', In t' seen -> PyFloat.gtb (similar name t') (similar name t) = false
  end.

(** Two names whose ratio is 0.8 and two whose ratio is 0.81. *)
Definition letters (c : ascii) (n : nat) : string := string_of_list_ascii (repeat c n).

Definition name_81 : string := letters "a" 81.
Definition target_81 : string := letters "a" 81 ++ letters "b" 38.

(** The double nearest to 0.81, [0x1.9eb851eb851ecp-1]. *)
Definition lit_0_81 : spec_float := S754_finite false 7295831396340204 (-53).

(** The doubles 0.25, 0.5 and 1.0. *)
Definition lit_0_25 : spec_float := S754_finite false 4503599627370496 (-54).
Definition lit_0_5 : spec_float := S754_finite false 4503599627370496 (-53).
Definition lit_1_0 : spec_float := S754_finite false 4503599627370496 (-52).

(** The detail entry of one matched pair. *)
Definition detail_of (gt_nodes inf_nodes : PyDict.dict json_type) (m : string * string)
  : property_detail :=
  {| pd_node := fst m;
     pd_correct := prop_names (properties_of gt_nodes (fst m))
                   ∩ prop_names (properties_of inf_nodes (snd m));
     pd_missing := prop_names (properties_of gt_nodes (fst m))
                   ∖ prop_names (properties_of inf_nodes (snd m));
     pd_extra := prop_names (properties_of inf_nodes (snd m))
                 ∖ prop_names (properties_of gt_nodes (fst m)) |}.

(** The reference type with properties a, b, c and a candidate with a, b, d. *)
Definition named (s : string) : json_property := {| jp_name := Some s |}.

Definition reference_example : json_schema :=
  {| js_node_types :=
       Some [{| jt_name := Some "Neuron"; jt_alt := None; jt_labels := Some ["Neuron"];
                jt_properties := Some [named "a"; named "b"; named "c"] |}];
     js_edge_types := Some [] |}.

Definition candidate_example : json_schema :=
  {| js_node_types :=
       Some [{| jt_name := Some "Neuron"; jt_alt := None; jt_labels := Some ["Neuron"];
                jt_properties := Some [named "a"; named "b"; named "d"] |}];
     js_edge_types := Some [] |}.

(** The double nearest to 66.67, [0x1.0aae147ae147bp+6]. *)
Definition lit_66_67 : spec_float := S754_finite false 4691484174324859 (-46).

(** The doubles nearest to 0.12 and 0.38, [0x1.eb851eb851eb8p-4] and
    [0x1.851eb851eb852p-2]. *)
Definition lit_0_12 : spec_float := S754_finite false 8646911284551352 (-56).
Definition lit_0_38 : spec_float := S754_finite false 6845471433603154 (-54).

(** Descending order of the counts. *)
Definition count_ge (x y : string * nat) : Prop := (snd y <= snd x)%nat.

(** The mantissa of the literal [0.9]; it is odd. *)
Definition mantissa_0_9 : Z := 8106479329266893.

(** The members of a type that carry a key. *)
Definition node_carriers (G : DiGraph) (nt : scalar) (key : string) : nat :=
  count_where (fun n => PyDict.mem key (default [] (nx.node_attrs G n))) (nodes_of_type G nt).

Definition edge_carriers (G : DiGraph) (et : scalar) (key : string) : nat :=
  count_where (fun e => PyDict.mem key (snd e)) (edges_of_type G et).

(** Node files of the type Neuron: [k] rows with the property [p], and
    [k] rows without it in a second file of the same type. *)
Definition neurons_with_p (k : nat) : csv_file :=
  {| path := "data/Neuprint_Neuron.csv";
     header := Some [":ID"; "p"];
     data := Some (map (fun i => [VInt (Z.of_nat i); VInt 7]) (seq 1 k)) |}.

Definition neurons_without_p (first k : nat) : csv_file :=
  {| path := "data/Neuron_fib25.csv";
     header := Some [":ID"];
     data := Some (map (fun i => [VInt (Z.of_nat i)]) (seq first k)) |}.

(** The flag of a property of a type in a schema. *)
Definition flag_of (entries : list type_entry) (te : scalar) (key : string) : option bool :=
  match List.find (fun e => bool_decide (te_name e = te)) entries with
  | Some e =>
      option_map mandatory (List.find (fun p => String.eqb (name p) key) (te_properties e))
  | None => None
  end.

(** A match inside the window. *)
Definition in_window (alo ahi blo bhi : nat) (m : difflib.Match) : Prop :=
  (alo <= fst (fst m) /\ fst (fst m) + snd m <= ahi /\
   blo <= snd (fst m) /\ snd (fst m) + snd m <= bhi)%nat.

(** The lengths recorded after [rows] rows of the window: a match that
    ends at [j] has at most [rows] elements and starts at [blo] or later. *)
Definition row_ok (blo bhi rows : nat) (j2len : gmap nat nat) : Prop :=
  map_Forall (fun j k => (1 <= k /\ k <= rows /\ k <= j + 1 - blo /\ blo <= j /\ j < bhi)%nat)
             j2len.

(** The iterations that a queue can still take: one for each range and two
    for each element of [a] in it. *)
Definition queue_cost (queue : list (nat * nat * nat * nat)) : nat :=
  sum_list_with (fun w => (2 * (snd (fst (fst w)) - fst (fst (fst w))) + 1)%nat) queue.

Definition window_ok (w : nat * nat * nat * nat) : Prop :=
  (fst (fst (fst w)) <= snd (fst (fst w)) /\ snd (fst w) <= snd w)%nat.

(** ** Further functions of the sources and notions of their statements *)

(** The tags that [clean_type_name] removes. *)
Definition dataset_tags : list string := ["Neuprint_"; "_fib25"; "_hemibrain"; "_strict"].

(** An edge row of a file names the identifier [x]. *)
Definition names_endpoint (f : csv_file) (x : string) : Prop :=
  exists cols start_col end_col rows cells,
    header f = Some cols /\ detect_file_role cols = RoleEdge start_col end_col /\
    data f = Some rows /\ In cells rows /\
    (cell cols cells start_col = Some x \/ cell cols cells end_col = Some x).

(** Every node carries a type tag that is a text. *)
Definition typed (G : DiGraph) : Prop :=
  forall n a, nx.node_attrs G n = Some a ->
              exists t, PyDict.get "node_type" a = Some (VStr t).

(** The keyword arguments of the [add_edge] calls of the ingested rows
    between [u] and [v], in the order of the calls. *)
Definition rows_between (u v : string) (ops : list op) : list attrs :=
  flat_map (fun o => match o with
                     | OpEdge u' v' type_name r =>
                         if String.eqb u' u && String.eqb v' v
                         then [(("type", VStr type_name) :: r)] else []
                     | OpEndpoints _ _ => []
                     end) ops.

(** The attribute dict that successive [update]s with the rows leave. *)
Definition merged (base : option attrs) (rows : list attrs) : option attrs :=
  match rows with
  | [] => base
  | _ => Some (fold_left PyDict.update rows (default [] base))
  end.

(** ** Pass 1 as a sequence of [add_node] calls *)

(** The calls that the rows of one node file make, up to the row that
    raises: the node and the keyword arguments. *)
Fixpoint node_rows_calls (type_name id_col : string) (rows : list attrs)
  : list (string * attrs) :=
  match rows with
  | [] => []
  | r :: rows' =>
      match PyDict.get id_col r with
      | None => []
      | Some n =>
          if kwargs_clash add_node_bound r then []
          else (py_str n, ("node_type", VStr type_name) :: r)
                 :: node_rows_calls type_name id_col rows'
      end
  end.

Definition file_node_calls (f : csv_file) : list (string * attrs) :=
  match header f with
  | None => []
  | Some cols =>
      match detect_file_role cols with
      | RoleNode id_col =>
          match data f with
          | None => []
          | Some rows =>
              node_rows_calls (clean_type_name (path f)) id_col
                (map (fun cells => astype_str id_col (row_dict cols cells)) rows)
          end
      | _ => []
      end
  end.

Definition pass1_calls (csv_files : list csv_file) : list (string * attrs) :=
  flat_map file_node_calls csv_files.

(** The keyword arguments of the calls for the node [n], in order. *)
Definition calls_for (n : string) (calls : list (string * attrs)) : list attrs :=
  map snd (List.filter (fun c => String.eqb (fst c) n) calls).

(** One call of Pass 1. *)
Definition run_call (G : DiGraph) (c : string * attrs) : DiGraph :=
  nx.add_node (fst c) (snd c) G.

(** The value of a key on a node: [G.nodes[n][key]] when both exist. *)
Definition node_value (G : DiGraph) (n key : string) : option scalar :=
  match nx.node_attrs G n with
  | Some d => PyDict.get key d
  | None => None
  end.

(** [ALLOWED_EXTENSIONS] *)
Definition ALLOWED_EXTENSIONS : list string := ["csv"].

(** [s.rsplit('.', 1)[1]] for an [s] with a dot: the text after the last
    dot.  [acc] is the text after the last dot met so far. *)
Fixpoint after_last_dot (s : string) (acc : option string) : option string :=
  match s with
  | EmptyString => acc
  | String c s' =>
      if Ascii.eqb c "."%char then after_last_dot s' (Some s') else after_last_dot s' acc
  end.

(** [allowed_file(filename)] *)
Definition allowed_file (filename : string) : bool :=
  PyStr.contains "." filename &&
  match after_last_dot filename None with
  | Some ext => existsb (String.eqb (PyStr.lower ext)) ALLOWED_EXTENSIONS
  | None => false
  end.

(** A text of white space only. *)
Fixpoint blank (s : string) : bool :=
  match s with
  | EmptyString => true
  | String c s' => PyText.is_space c && blank s'
  end.

(** [s.isascii()]: every character is below 128. *)
Fixpoint is_ascii (s : string) : bool :=
  match s with
  | EmptyString => true
  | String c s' => (nat_of_ascii c <? 128)%nat && is_ascii s'
  end.

(** An environment whose parser returns the text that it is given. *)
Definition echo_env : environment string :=
  {| api_key := Some "key";
     generate_content := fun _ => None;
     random_sample := fun l _ => l;
     json_loads := fun s => Some s;
     json_truthy := fun _ => true;
     json_dumps := fun _ => "{}" |}.

(** The property types that the fallback emits. *)
Definition mock_property_types : list string := ["String"; "Long"; "Double"].

(** The keys of an attribute dict other than the tag. *)
Definition keys_without (tag : string) (a : attrs) : list string :=
  List.filter (fun k => negb (String.eqb k tag)) (PyDict.keys a).

(** What the loop of [find_best_match] has established about the place of
    the best candidate: every candidate before it that clears the threshold
    has a strictly smaller ratio. *)
Definition first_best (name : string) (seen : list string) (best : option string) : Prop :=
  match best with
  | None => True
  | Some t =>
      exists l1 l2, seen = (l1 ++ t :: l2)%list /\
        forall t', In t' l1 -> PyFloat.gtb (similar name t') PyFloat.lit_0_8 = true ->
                   PyFloat.gtb (similar name t) (similar name t') = true
  end.

(** ** Job routes of [app.py] *)

(** The answer of [/status/<job_id>].  The keys [result] and [output_file]
    are present together. *)
Record status_response (J : Type) := {
  sr_status : string;
  sr_message : string;
  sr_progress : nat;
  sr_result : option (J * string)
}.
Arguments sr_status {J}.
Arguments sr_message {J}.
Arguments sr_progress {J}.
Arguments sr_result {J}.

(** [get_status(job_id)]; [None] is the answer 404. *)
Definition get_status {J : Type} (jobs : gmap string (world J)) (job_id : string)
  : option (status_response J) :=
  match jobs !! job_id with
  | None => None
  | Some job =>
      Some {| sr_status := status job;
              sr_message := message job;
              sr_progress := progress job;
              sr_result :=
                if String.eqb (status job) "completed"
                then match result job with
                     | Some j => Some (j, default "" (output_file job))
                     | None => None
                     end
                else None |}
  end.

Inductive download_response :=
| DlNotAvailable
| DlFileNotFound
| DlSend (file : string).

(** [download_result(job_id)]; [path_exists] is [os.path.exists]. *)
Definition download_result {J : Type} (jobs : gmap string (world J))
           (path_exists : string -> bool) (job_id : string) : download_response :=
  match jobs !! job_id with
  | None => DlNotAvailable
  | Some job =>
      if negb (String.eqb (status job) "completed") then DlNotAvailable
      else
        match output_file job with
        | Some f => if PyStr.truthy f && path_exists f then DlSend f else DlFileNotFound
        | None => DlFileNotFound
        end
  end.

(** The files that a trace has written. *)
Definition written {J : Type} (t : list (event J)) (file : string) : bool :=
  existsb (fun e => match e with
                    | EvWrite f _ => String.eqb f file
                    | _ => false
                    end) t.

(** ** Ground truth ([get_ground_truth], [extract_gt.py]) *)

(** [s.endswith(suffix)] *)
Fixpoint endswith (s suffix : string) : bool :=
  String.eqb s suffix ||
  match s with
  | EmptyString => false
  | String _ s' => endswith s' suffix
  end.

(** [f.endswith('.json') and 'golden_truth' in f] *)
Definition is_gt_file (f : string) : bool :=
  endswith f ".json" && PyStr.contains "golden_truth" f.

Inductive gt_response (J : Type) :=
| GtNoDirectory
| GtNoFiles
| GtLoadError
| GtSchema (j : J).
Arguments GtNoDirectory {J}.
Arguments GtNoFiles {J}.
Arguments GtLoadError {J}.
Arguments GtSchema {J}.

(** [get_ground_truth()]: [listing] is [os.listdir('gt_schema')], [None]
    when the directory does not exist; [load] opens and parses a file and
    is [None] when that raises. *)
Definition get_ground_truth {J : Type} (listing : option (list string))
           (load : string -> option J) : gt_response J :=
  match listing with
  | None => GtNoDirectory
  | Some files =>
      match List.filter is_gt_file files with
      | [] => GtNoFiles
      | f :: _ =>
          match load ("gt_schema/" ++ f) with
          | Some j => GtSchema j
          | None => GtLoadError
          end
      end
  end.

(** The name of the file that [extract_gt.py] writes for a dataset:
    [f"golden_truth_{dataset_name}.json"]. *)
Definition golden_truth_file (dataset_name : string) : string :=
  "golden_truth_" ++ dataset_name ++ ".json".

(** ** The comparison script ([compare_schemas.py]) *)

(** [n.get('name') or n.get('labels')[0]]: without a truthy name the
    subscript raises when there are no labels or the list is empty. *)
Definition cli_gt_key (n : json_type) : option string :=
  match jt_name n with
  | Some (String c s) => Some (String c s)
  | _ => match jt_labels n with
         | Some (l :: _) => Some l
         | _ => None
         end
  end.

(** [n.get('name') or n.get('labels', [''])[0]]: without a truthy name the
    subscript raises when the list of labels is there and empty. *)
Definition cli_inf_key (n : json_type) : option string :=
  match jt_name n with
  | Some (String c s) => Some (String c s)
  | _ => match jt_labels n with
         | None => Some ""
         | Some (l :: _) => Some l
         | Some [] => None
         end
  end.

(** [{key(n): n for n in types}] with a key that may raise. *)
Definition cli_index (key : json_type -> option string) (types : option (list json_type))
  : option (PyDict.dict json_type) :=
  fold_left (fun acc n => match acc, key n with
                          | Some d, Some k => Some (PyDict.set k n d)
                          | _, _ => None
                          end) (default [] types) (Some []).

(** [main] of the script on the two loaded schemas.  [None]: the script
    raises; [Some None]: no score line is printed; [Some (Some k)]: the
    score line shows [k] hundredths. *)
Definition cli_compare (gt inf : json_schema) : option (option Z) :=
  match cli_index cli_gt_key (js_node_types gt) with
  | None => None
  | Some gt_nodes =>
      match cli_index cli_inf_key (js_node_types inf) with
      | None => None
      | Some inf_nodes =>
          let '(total_props, total_matches, _) :=
            fold_left (property_step gt_nodes inf_nodes) (match_names gt_nodes inf_nodes)
                      (0%nat, 0%nat, []) in
          Some (if (0 <? total_props)%nat
                then PyFloat.hundredths
                       (PyFloat.mul (PyFloat.truediv (Z.of_nat total_matches)
                                                     (Z.of_nat total_props))
                                    (PyFloat.of_int 100))
                else None)
      end
  end.

(** * Properties *)

(** ** Role classifier *)

Lemma contains_nil_hay needle :
  PyStr.contains needle "" = true -> needle = "".
Proof. destruct needle; simpl; [reflexivity | discriminate]. Qed.

Lemma lower_truthy s : PyStr.truthy (PyStr.lower s) = PyStr.truthy s.
Proof. destruct s; reflexivity. Qed.

Lemma is_start_col_truthy c : is_start_col c = true -> PyStr.truthy c = true.
Proof.
  unfold is_start_col. destruct c as [|x c]; [|reflexivity].
  simpl. discriminate.
Qed.

Lemma is_end_col_truthy c : is_end_col c = true -> PyStr.truthy c = true.
Proof.
  unfold is_end_col. destruct c as [|x c]; [|reflexivity].
  simpl. discriminate.
Qed.

Lemma is_id_col_truthy st c : is_id_col st c = true -> PyStr.truthy c = true.
Proof.
  unfold is_id_col. destruct c as [|x c]; [|reflexivity].
  simpl. discriminate.
Qed.

Lemma find_existsb {A} (p : A -> bool) l :
  existsb p l = match List.find p l with Some _ => true | None => false end.
Proof. induction l as [|x l IH]; simpl; [reflexivity|]. destruct (p x); auto. Qed.

Lemma find_truthy (p : string -> bool) l x :
  (forall c, p c = true -> PyStr.truthy c = true) ->
  List.find p l = Some x -> PyStr.truthy x = true.
Proof. intros Hp Hf. apply List.find_some in Hf as [_ Hx]. auto. Qed.

Lemma id_col_existsb st cols :
  existsb (is_id_col st) cols =
  existsb (PyStr.contains ":ID") cols
  || (existsb (fun c => PyStr.contains "id" (PyStr.lower c)) cols
      && negb (PyStr.opt_truthy st)).
Proof.
  induction cols as [|c cols IH]; simpl; [reflexivity|].
  rewrite IH. unfold is_id_col.
  destruct (PyStr.contains ":ID" c), (PyStr.contains "id" (PyStr.lower c)),
    (PyStr.opt_truthy st), (existsb (PyStr.contains ":ID") cols); simpl;
    try reflexivity; rewrite ?orb_true_r, ?andb_false_r, ?andb_true_r; reflexivity.
Qed.

Lemma detect_file_role_code cols : tag_of (detect_file_role cols) = code_role_tag cols.
Proof.
  unfold detect_file_role, code_role_tag, PyStr.next_where.
  rewrite (find_existsb is_start_col), (find_existsb is_end_col).
  pose proof (id_col_existsb (List.find is_start_col cols) cols) as Hid.
  rewrite (find_existsb (is_id_col _)) in Hid.
  destruct (List.find is_start_col cols) as [s|] eqn:Hs;
    destruct (List.find is_end_col cols) as [e|] eqn:He;
    destruct (List.find (is_id_col _) cols) as [i|] eqn:Hi; simpl in *;
    try (rewrite (find_truthy _ _ _ is_start_col_truthy Hs) in * );
    try (rewrite (find_truthy _ _ _ is_end_col_truthy He) in * );
    try (rewrite (find_truthy _ _ _ (is_id_col_truthy _) Hi) in * );
    simpl in *; rewrite <- ?Hid; try reflexivity;
    rewrite ?andb_false_r, ?orb_false_r in *; simpl; rewrite <- ?Hid; reflexivity.
Qed.

(** C6, as stated: the header [["source"; "id"]] has a column that contains
    "id" and has no end marker, so the stated rule gives [node]; the
    classifier answers [unknown], because the start column switches the
    plain "id" test off. *)
Lemma detect_file_role_start_guard :
  spec_role_tag ["source"; "id"] = node /\
  tag_of (detect_file_role ["source"; "id"]) = unknown.
Proof. split; reflexivity. Qed.

(** C6, amended: [edge] when a start marker and an end marker are present;
    else [node] when a column contains ":ID", or a column contains "id" in
    any letter case and no column is a start marker; else [unknown].  The
    three headers of the specification classify as stated. *)
Theorem detect_file_role_decision :
  (forall cols, tag_of (detect_file_role cols) = code_role_tag cols) /\
  tag_of (detect_file_role [":START_ID(X)"; ":END_ID(Y)"; "weight"]) = edge /\
  tag_of (detect_file_role [":ID(X)"; "name"]) = node /\
  tag_of (detect_file_role ["foo"; "bar"]) = unknown.
Proof.
  split; [exact detect_file_role_code|].
  repeat split; reflexivity.
Qed.

(** ** Dictionaries *)

Module PyDictFacts.
Import PyDict.

Section Facts.
Context {V : Type}.
Implicit Types (d : dict V) (k : string) (v : V).

Lemma get_set_eq k v d : get k (set k v d) = Some v.
Proof.
  induction d as [|[k' v'] d IH]; simpl.
  - now rewrite String.eqb_refl.
  - destruct (String.eqb k k') eqn:E; simpl; rewrite E; auto.
Qed.

Lemma get_set_ne k k' v d : k <> k' -> get k' (set k v d) = get k' d.
Proof.
  intros Hne. induction d as [|[k0 v0] d IH]; simpl.
  - apply String.eqb_neq in Hne. rewrite String.eqb_sym. now rewrite Hne.
  - destruct (String.eqb k k0) eqn:E; simpl.
    + apply String.eqb_eq in E. subst k0.
      destruct (String.eqb k' k) eqn:E'; [|reflexivity].
      apply String.eqb_eq in E'. congruence.
    + now rewrite IH.
Qed.

Lemma get_set k k' v d :
  get k' (set k v d) = if String.eqb k k' then Some v else get k' d.
Proof.
  destruct (String.eqb_spec k k') as [->|Hne].
  - apply get_set_eq.
  - now apply get_set_ne.
Qed.

Lemma get_In k v d : get k d = Some v -> In (k, v) d.
Proof.
  induction d as [|[k' v'] d IH]; simpl; [discriminate|].
  destruct (String.eqb_spec k k') as [->|Hne].
  - intros [= ->]. now left.
  - intros H. right. auto.
Qed.

Lemma get_None_keys k d : get k d = None <-> ~ In k (keys d).
Proof.
  induction d as [|[k' v'] d IH]; simpl.
  - tauto.
  - destruct (String.eqb_spec k k') as [->|Hne].
    + split; [discriminate | intros H; exfalso; apply H; now left].
    + rewrite IH. split; [intros H [E|E]; [congruence | tauto] | tauto].
Qed.

Lemma mem_keys k d : mem k d = true <-> In k (keys d).
Proof.
  unfold mem. destruct (get k d) eqn:E.
  - split; [intros _ | reflexivity].
    apply get_In in E. apply (in_map fst) in E. exact E.
  - apply get_None_keys in E. split; [discriminate | tauto].
Qed.

Lemma mem_false_keys k d : mem k d = false <-> ~ In k (keys d).
Proof.
  rewrite <- mem_keys. destruct (mem k d); split; congruence.
Qed.

Lemma In_get k v d : List.NoDup (keys d) -> In (k, v) d -> get k d = Some v.
Proof.
  induction d as [|[k' v'] d IH]; simpl; [tauto|].
  intros Hnd [E|Hin].
  - injection E as -> ->. now rewrite String.eqb_refl.
  - inversion Hnd as [|? ? Hnotin Hnd']; subst.
    destruct (String.eqb_spec k k') as [->|Hne].
    + apply (in_map fst) in Hin. contradiction.
    + auto.
Qed.

Lemma keys_set k v d :
  keys (set k v d) = if mem k d then keys d else (keys d ++ [k])%list.
Proof.
  unfold mem. induction d as [|[k' v'] d IH]; simpl; [reflexivity|].
  destruct (String.eqb k k') eqn:E; simpl; [reflexivity|].
  rewrite IH. destruct (get k d); reflexivity.
Qed.

Lemma In_set k v k1 v1 d :
  In (k1, v1) (set k v d) -> (k1 = k /\ v1 = v) \/ In (k1, v1) d.
Proof.
  induction d as [|[k' v'] d IH]; simpl.
  - intros [[= <- <-]|[]]. now left.
  - destruct (String.eqb_spec k k') as [->|Hne]; simpl.
    + intros [[= <- <-]|H]; [now left | right; now right].
    + intros [E|H]; [right; now left|].
      destruct (IH H) as [?|?]; [now left | right; now right].
Qed.

Lemma set_absent k v d : mem k d = false -> set k v d = (d ++ [(k, v)])%list.
Proof.
  unfold mem. induction d as [|[k' v'] d IH]; simpl; [reflexivity|].
  destruct (String.eqb k k') eqn:E; [discriminate|].
  intros H. now rewrite IH.
Qed.

Lemma NoDup_keys_set k v d : List.NoDup (keys d) -> List.NoDup (keys (set k v d)).
Proof.
  intros Hnd. rewrite keys_set. destruct (mem k d) eqn:E; [exact Hnd|].
  apply mem_false_keys in E.
  apply NoDup_ListNoDup, NoDup_app. apply NoDup_ListNoDup in Hnd.
  repeat split; [exact Hnd | | apply NoDup_singleton].
  intros x Hx Hx'. apply list_elem_of_In in Hx, Hx'.
  destruct Hx' as [<-|[]]. exact (E Hx).
Qed.

Lemma length_set k v d :
  length (set k v d) = if mem k d then length d else S (length d).
Proof.
  unfold mem. induction d as [|[k' v'] d IH]; simpl; [reflexivity|].
  destruct (String.eqb k k') eqn:E; simpl; [reflexivity|].
  rewrite IH. destruct (get k d); reflexivity.
Qed.

Lemma get_update_absent k d new :
  mem k new = false -> get k (update d new) = get k d.
Proof.
  unfold update. revert d. induction new as [|[k' v'] new IH]; intros d; simpl.
  - reflexivity.
  - unfold mem; simpl. destruct (String.eqb_spec k k') as [->|Hne]; [discriminate|].
    intros H. rewrite IH by exact H. now apply get_set_ne.
Qed.

Lemma get_update_head k v d new :
  mem k new = false -> get k (update d ((k, v) :: new)) = Some v.
Proof.
  intros H. unfold update; simpl.
  change (fold_left _ new ?d0) with (update d0 new).
  rewrite get_update_absent by exact H. apply get_set_eq.
Qed.

Lemma update_nil_singleton k v : update [] [(k, v)] = [(k, v)].
Proof. reflexivity. Qed.

End Facts.
End PyDictFacts.

(** ** The graph and its two tables *)

Module GraphFacts.
Import PyDict PyDictFacts.

Lemma mem_same_keys {A B} (d1 : dict A) (d2 : dict B) k :
  keys d1 = keys d2 -> mem k d1 = mem k d2.
Proof.
  intros E. destruct (mem k d2) eqn:E2.
  - apply mem_keys. rewrite E. now apply mem_keys.
  - apply mem_false_keys. rewrite E. now apply mem_false_keys.
Qed.

Lemma has_node_succ G n : graph_ok G -> mem n (_succ G) = nx.has_node G n.
Proof. intros [E _ _ _]. unfold nx.has_node. symmetry. now apply mem_same_keys. Qed.

Lemma empty_ok : graph_ok nx.empty.
Proof.
  split; simpl; [reflexivity | constructor | tauto | tauto].
Qed.

(** A node that is added to both tables at once. *)
Lemma fresh_ok G n a :
  graph_ok G -> mem n (_succ G) = false ->
  graph_ok {| _node := set n a (_node G); _succ := set n [] (_succ G) |}.
Proof.
  intros [E Hnd Hnb Hcl] Hn.
  assert (Hn' : mem n (_node G) = false).
  { rewrite <- Hn. now apply mem_same_keys. }
  split; simpl.
  - rewrite !keys_set, Hn, Hn'. now rewrite E.
  - now apply NoDup_keys_set.
  - intros u nbrs Hin. apply In_set in Hin as [[_ ->]|Hin]; [constructor | eauto].
  - intros u nbrs v Hin Hv. rewrite keys_set, Hn'. apply in_or_app.
    apply In_set in Hin as [[_ ->]|Hin]; [destruct Hv | left; eauto].
Qed.

Lemma add_node_ok G n a : graph_ok G -> graph_ok (nx.add_node n a G).
Proof.
  intros HG. unfold nx.add_node. destruct (mem n (_succ G)) eqn:Hn.
  - destruct HG as [E Hnd Hnb Hcl].
    assert (Hn' : mem n (_node G) = true).
    { rewrite <- Hn. now apply mem_same_keys. }
    split; simpl; rewrite ?keys_set, ?Hn'; auto.
  - now apply fresh_ok.
Qed.

Lemma touch_ok G n : graph_ok G -> graph_ok (nx.touch n G).
Proof.
  intros HG. unfold nx.touch. destruct (mem n (_succ G)) eqn:Hn; [exact HG|].
  now apply fresh_ok.
Qed.

Lemma ensure_node_ok G n : graph_ok G -> graph_ok (ensure_node n G).
Proof.
  intros HG. unfold ensure_node. destruct (nx.has_node G n); [exact HG|].
  now apply add_node_ok.
Qed.

Lemma touch_present G n : mem n (_succ (nx.touch n G)) = true.
Proof.
  unfold nx.touch. destruct (mem n (_succ G)) eqn:Hn; [exact Hn|].
  simpl. unfold mem. now rewrite get_set_eq.
Qed.

Lemma touch_keeps G n m : mem m (_succ G) = true -> mem m (_succ (nx.touch n G)) = true.
Proof.
  unfold nx.touch. destruct (mem n (_succ G)) eqn:Hn; [tauto|].
  simpl. intros Hm. apply mem_keys. rewrite keys_set, Hn.
  apply in_or_app. left. now apply mem_keys.
Qed.

Lemma touch_id G n : mem n (_succ G) = true -> nx.touch n G = G.
Proof. unfold nx.touch. now intros ->. Qed.

Lemma add_edge_ok G u v a : graph_ok G -> graph_ok (nx.add_edge u v a G).
Proof.
  intros HG. unfold nx.add_edge.
  assert (H1 : graph_ok (nx.touch v (nx.touch u G))) by now apply touch_ok, touch_ok.
  assert (Hu : mem u (_succ (nx.touch v (nx.touch u G))) = true)
    by apply touch_keeps, touch_present.
  assert (Hv : mem v (_succ (nx.touch v (nx.touch u G))) = true)
    by apply touch_present.
  set (G1 := nx.touch v (nx.touch u G)) in *.
  destruct H1 as [E Hnd Hnb Hcl].
  assert (Hnb0 : List.NoDup (keys (default [] (get u (_succ G1))))).
  { destruct (get u (_succ G1)) as [nbrs|] eqn:Eu; simpl; [|constructor].
    apply get_In in Eu. eauto. }
  split; simpl.
  - rewrite keys_set, Hu. exact E.
  - now apply NoDup_keys_set.
  - intros u' nbrs Hin. apply In_set in Hin as [[_ ->]|Hin]; [|eauto].
    now apply NoDup_keys_set.
  - intros u' nbrs v' Hin Hv'.
    apply In_set in Hin as [[_ ->]|Hin]; [|eauto].
    rewrite keys_set in Hv'.
    assert (Hcase : In v' (keys (default [] (get u (_succ G1)))) \/ v' = v).
    { destruct (mem v (default [] (get u (_succ G1)))); [now left|].
      apply in_app_or in Hv' as [?|[<-|[]]]; [now left | now right]. }
    destruct Hcase as [Hold| ->].
    + destruct (get u (_succ G1)) as [nbrs|] eqn:Eu; simpl in Hold; [|destruct Hold].
      apply get_In in Eu. eauto.
    + rewrite E. now apply mem_keys.
Qed.

Lemma run_op_ok G o : graph_ok G -> graph_ok (run_op G o).
Proof.
  intros HG. destruct o as [u v|u v tn r]; simpl; unfold ensure_endpoints.
  - now apply ensure_node_ok, ensure_node_ok.
  - now apply add_edge_ok, ensure_node_ok, ensure_node_ok.
Qed.

Lemma run_ops_ok ops G : graph_ok G -> graph_ok (fold_left run_op ops G).
Proof.
  revert G. induction ops as [|o ops IH]; intros G HG; simpl; [exact HG|].
  apply IH. now apply run_op_ok.
Qed.

End GraphFacts.

Module LookupFacts.
Import PyDict PyDictFacts GraphFacts.

(** *** Node attributes *)

Lemma node_attrs_ensure_present G n m :
  nx.has_node G n = true -> nx.node_attrs (ensure_node n G) m = nx.node_attrs G m.
Proof. unfold ensure_node. now intros ->. Qed.

Lemma node_attrs_ensure_absent G n m :
  nx.has_node G n = false ->
  nx.node_attrs (ensure_node n G) m =
  if String.eqb n m then Some inferred_attrs else nx.node_attrs G m.
Proof.
  intros Hn. unfold ensure_node. rewrite Hn.
  unfold nx.add_node, nx.node_attrs.
  assert (Hget : get n (_node G) = None).
  { unfold nx.has_node, mem in Hn. destruct (get n (_node G)); [discriminate|reflexivity]. }
  destruct (mem n (_succ G)); simpl; rewrite ?Hget; apply get_set.
Qed.

Lemma ensure_node_frame G n m a :
  nx.node_attrs G m = Some a -> nx.node_attrs (ensure_node n G) m = Some a.
Proof.
  intros Hm. destruct (nx.has_node G n) eqn:Hn.
  - now rewrite node_attrs_ensure_present.
  - rewrite node_attrs_ensure_absent by exact Hn.
    destruct (String.eqb_spec n m) as [->|_]; [|exact Hm].
    unfold nx.has_node, mem in Hn. unfold nx.node_attrs in Hm.
    now rewrite Hm in Hn.
Qed.

Lemma ensure_node_present G n : nx.has_node (ensure_node n G) n = true.
Proof.
  destruct (nx.has_node G n) eqn:Hn.
  - unfold ensure_node. now rewrite Hn.
  - unfold nx.has_node, mem. fold (nx.node_attrs (ensure_node n G) n).
    rewrite node_attrs_ensure_absent by exact Hn. now rewrite String.eqb_refl.
Qed.

Lemma ensure_node_keeps G n m :
  nx.has_node G m = true -> nx.has_node (ensure_node n G) m = true.
Proof.
  unfold nx.has_node, mem. fold (nx.node_attrs G m) (nx.node_attrs (ensure_node n G) m).
  destruct (nx.node_attrs G m) as [a|] eqn:E; [|discriminate].
  intros _. now rewrite (ensure_node_frame _ _ _ _ E).
Qed.

Lemma add_edge_nodes G u v a :
  graph_ok G -> nx.has_node G u = true -> nx.has_node G v = true ->
  _node (nx.add_edge u v a G) = _node G.
Proof.
  intros HG Hu Hv. unfold nx.add_edge. simpl.
  rewrite <- (has_node_succ G u HG) in Hu.
  rewrite <- (has_node_succ G v HG) in Hv.
  now rewrite (touch_id G u Hu), (touch_id G v Hv).
Qed.

Lemma run_op_frame G o m a :
  graph_ok G -> nx.node_attrs G m = Some a -> nx.node_attrs (run_op G o) m = Some a.
Proof.
  intros HG Hm.
  assert (He : forall u v, nx.node_attrs (ensure_endpoints u v G) m = Some a).
  { intros u v. unfold ensure_endpoints. now apply ensure_node_frame, ensure_node_frame. }
  destruct o as [u v|u v tn r]; simpl; [apply He|].
  unfold nx.node_attrs. rewrite add_edge_nodes.
  - apply He.
  - unfold ensure_endpoints. now apply ensure_node_ok, ensure_node_ok.
  - unfold ensure_endpoints. apply ensure_node_keeps, ensure_node_present.
  - unfold ensure_endpoints. apply ensure_node_present.
Qed.

Lemma run_ops_frame ops G m a :
  graph_ok G -> nx.node_attrs G m = Some a ->
  nx.node_attrs (fold_left run_op ops G) m = Some a.
Proof.
  revert G. induction ops as [|o ops IH]; intros G HG Hm; simpl; [exact Hm|].
  apply IH; [now apply run_op_ok | now apply run_op_frame].
Qed.

Lemma ensure_node_inferred G n m :
  absent_or_inferred G m -> absent_or_inferred (ensure_node n G) m.
Proof.
  intros [Hm|Hm]; [|right; now apply ensure_node_frame].
  destruct (nx.has_node G n) eqn:Hn.
  - left. now rewrite node_attrs_ensure_present.
  - unfold absent_or_inferred. rewrite node_attrs_ensure_absent by exact Hn.
    destruct (String.eqb n m); [now right | now left].
Qed.

Lemma run_op_inferred G o m :
  graph_ok G -> absent_or_inferred G m -> absent_or_inferred (run_op G o) m.
Proof.
  intros HG Hm.
  assert (He : forall u v, absent_or_inferred (ensure_endpoints u v G) m).
  { intros u v. unfold ensure_endpoints. now apply ensure_node_inferred, ensure_node_inferred. }
  destruct o as [u v|u v tn r]; simpl; [apply He|].
  unfold absent_or_inferred, nx.node_attrs. rewrite add_edge_nodes.
  - apply He.
  - unfold ensure_endpoints. now apply ensure_node_ok, ensure_node_ok.
  - unfold ensure_endpoints. apply ensure_node_keeps, ensure_node_present.
  - unfold ensure_endpoints. apply ensure_node_present.
Qed.

Lemma run_ops_inferred ops G m :
  graph_ok G -> absent_or_inferred G m -> absent_or_inferred (fold_left run_op ops G) m.
Proof.
  revert G. induction ops as [|o ops IH]; intros G HG Hm; simpl; [exact Hm|].
  apply IH; [now apply run_op_ok | now apply run_op_inferred].
Qed.

Lemma ensure_endpoints_present G u v x :
  In x [u; v] -> nx.has_node (ensure_endpoints u v G) x = true.
Proof.
  intros [<-|[<-|[]]]; unfold ensure_endpoints.
  - apply ensure_node_keeps, ensure_node_present.
  - apply ensure_node_present.
Qed.




End LookupFacts.

Module EdgeFacts.
Import PyDict PyDictFacts GraphFacts LookupFacts.

Lemma edge_attrs_fresh G n a u v :
  mem n (_succ G) = false ->
  nx.edge_attrs {| _node := a; _succ := set n [] (_succ G) |} u v = nx.edge_attrs G u v.
Proof.
  intros Hn. unfold nx.edge_attrs; simpl. rewrite get_set.
  destruct (String.eqb_spec n u) as [->|_]; [|reflexivity].
  unfold mem in Hn. destruct (get u (_succ G)); [discriminate|reflexivity].
Qed.

Lemma edge_attrs_add_node G n a u v :
  nx.edge_attrs (nx.add_node n a G) u v = nx.edge_attrs G u v.
Proof.
  unfold nx.add_node. destruct (mem n (_succ G)) eqn:Hn; [reflexivity|].
  now apply edge_attrs_fresh.
Qed.

Lemma edge_attrs_touch G n u v : nx.edge_attrs (nx.touch n G) u v = nx.edge_attrs G u v.
Proof.
  unfold nx.touch. destruct (mem n (_succ G)) eqn:Hn; [reflexivity|].
  now apply edge_attrs_fresh.
Qed.

Lemma edge_attrs_ensure_node G n u v :
  nx.edge_attrs (ensure_node n G) u v = nx.edge_attrs G u v.
Proof.
  unfold ensure_node. destruct (nx.has_node G n); [reflexivity|].
  apply edge_attrs_add_node.
Qed.

Lemma edge_attrs_ensure_endpoints G x y u v :
  nx.edge_attrs (ensure_endpoints x y G) u v = nx.edge_attrs G u v.
Proof. unfold ensure_endpoints. now rewrite !edge_attrs_ensure_node. Qed.

(** [add_edge] writes one entry: the attributes of the call are merged
    on top of those of the edge, if there was one; no other edge changes. *)
Lemma edge_attrs_add_edge G u v a u' v' :
  nx.edge_attrs (nx.add_edge u v a G) u' v' =
  if String.eqb u u' && String.eqb v v'
  then Some (update (default [] (nx.edge_attrs G u v)) a)
  else nx.edge_attrs G u' v'.
Proof.
  rewrite <- (edge_attrs_touch G u u v), <- (edge_attrs_touch (nx.touch u G) v u v).
  rewrite <- (edge_attrs_touch G u u' v'), <- (edge_attrs_touch (nx.touch u G) v u' v').
  unfold nx.add_edge. set (G1 := nx.touch v (nx.touch u G)).
  unfold nx.edge_attrs at 1. simpl. rewrite get_set.
  destruct (String.eqb_spec u u') as [<-|Hu]; simpl; [|reflexivity].
  rewrite get_set. unfold nx.edge_attrs.
  destruct (String.eqb_spec v v') as [<-|Hv]; destruct (get u (_succ G1)); reflexivity.
Qed.

(** *** The edge list and the edge lookup *)

Lemma in_edges G u v d :
  In (u, v, d) (nx.edges G) <-> exists nbrs, In (u, nbrs) (_succ G) /\ In (v, d) nbrs.
Proof.
  unfold nx.edges. rewrite in_flat_map. split.
  - intros [[u' nbrs] [Hin Hm]]. apply in_map_iff in Hm as [[v' d'] [[= -> -> ->] Hm]].
    eauto.
  - intros [nbrs [Hin Hm]]. exists (u, nbrs). split; [exact Hin|].
    apply in_map_iff. now exists (v, d).
Qed.

Lemma in_edges_lookup G u v d :
  graph_ok G -> In (u, v, d) (nx.edges G) <-> nx.edge_attrs G u v = Some d.
Proof.
  intros [E Hnd Hnb Hcl]. rewrite in_edges. unfold nx.edge_attrs. split.
  - intros [nbrs [Hin Hm]]. rewrite (In_get _ _ _ Hnd Hin).
    apply In_get; [eauto | exact Hm].
  - destruct (get u (_succ G)) as [nbrs|] eqn:Eu; [|discriminate].
    intros Hv. exists nbrs. split; now apply get_In.
Qed.

Lemma in_edge_keys G u v :
  graph_ok G -> In (u, v) (edge_keys G) <-> nx.edge_attrs G u v <> None.
Proof.
  intros HG. unfold edge_keys. rewrite in_map_iff. split.
  - intros [[[u' v'] d] [[= -> ->] Hin]].
    apply (in_edges_lookup _ _ _ _ HG) in Hin. congruence.
  - destruct (nx.edge_attrs G u v) as [d|] eqn:E; [|congruence].
    intros _. exists (u, v, d). split; [reflexivity|]. now apply in_edges_lookup.
Qed.

Lemma NoDup_pairs {A} (u : string) (nbrs : dict A) :
  List.NoDup (keys nbrs) -> List.NoDup (map (fun vd => (u, fst vd)) nbrs).
Proof.
  unfold keys. induction nbrs as [|[v d] nbrs IH]; simpl; intros Hnd; [constructor|].
  inversion Hnd as [|? ? Hnotin Hnd']; subst. constructor; [|auto].
  intros Hin. apply in_map_iff in Hin as [[v' d'] [[= ->] Hin]].
  apply Hnotin. apply in_map_iff. now exists (v, d').
Qed.

Lemma edge_keys_flat G :
  edge_keys G = flat_map (fun un => map (fun vd => (fst un, fst vd)) (snd un)) (_succ G).
Proof.
  unfold edge_keys, nx.edges. induction (_succ G) as [|[u nbrs] l IH]; simpl; [reflexivity|].
  rewrite map_app, IH. f_equal. rewrite map_map. apply map_ext. now intros [v d].
Qed.

Lemma NoDup_edge_keys G : graph_ok G -> List.NoDup (edge_keys G).
Proof.
  intros [_ Hnd Hnb _]. rewrite edge_keys_flat.
  induction (_succ G) as [|[u nbrs] l IH]; simpl in *; [constructor|].
  inversion Hnd as [|? ? Hnotin Hnd']; subst.
  apply List.NoDup_app.
  - apply NoDup_pairs. apply (Hnb u nbrs). now left.
  - apply IH; [exact Hnd'|]. intros u' nbrs' Hin. apply (Hnb u' nbrs'). now right.
  - intros [u' v'] Hin Hin'.
    apply in_map_iff in Hin as [[v0 d0] [[= <- <-] _]].
    apply in_flat_map in Hin' as [[u1 nb1] [Hin1 Hin2]].
    apply in_map_iff in Hin2 as [[v1 d1] [[= -> ->] _]]. simpl in Hnotin.
    apply Hnotin. apply in_map_iff. now exists (u, nb1).
Qed.

End EdgeFacts.

(** ** The two passes *)

Module PassFacts.
Import PyDict PyDictFacts GraphFacts LookupFacts EdgeFacts.

Lemma fold_left_flat_map {A B C} (f : A -> B -> A) (g : C -> list B) l a :
  fold_left f (flat_map g l) a = fold_left (fun acc x => fold_left f (g x) acc) l a.
Proof.
  revert a. induction l as [|x l IH]; intros a; simpl; [reflexivity|].
  now rewrite fold_left_app, IH.
Qed.

(** Pass 2 does what its operations do. *)
Lemma rows_run type_name start_col end_col rows G :
  graph_of (iterrows (edge_row type_name start_col end_col) rows G) =
  fold_left run_op (rows_ops type_name start_col end_col rows) G.
Proof.
  revert G. induction rows as [|r rows IH]; intros G; simpl; [reflexivity|].
  unfold edge_row.
  destruct (get start_col r) as [u|]; [|reflexivity].
  destruct (get end_col r) as [v|]; [|reflexivity].
  destruct (kwargs_clash add_edge_bound r); simpl; [reflexivity|].
  apply IH.
Qed.

Lemma pass2_file_run G f : pass2_file G f = fold_left run_op (file_ops f) G.
Proof.
  unfold pass2_file, file_ops.
  destruct (header f) as [cols|]; [|reflexivity].
  destruct (detect_file_role cols) as [s e|i|]; try reflexivity.
  destruct (data f) as [rows|]; [|reflexivity].
  apply rows_run.
Qed.

Lemma pass2_run csv_files G :
  pass2 csv_files G = fold_left run_op (pass2_ops csv_files) G.
Proof.
  unfold pass2, pass2_ops. rewrite fold_left_flat_map.
  revert G. induction csv_files as [|f l IH]; intros G; simpl; [reflexivity|].
  now rewrite IH, pass2_file_run.
Qed.

(** An induction principle for Pass 1: a property of the start graph that
    every ingested node row keeps. *)
Lemma node_rows_ind (P : DiGraph -> Prop) type_name id_col rows G :
  P G ->
  (forall G' r n, In r rows -> get id_col r = Some n -> P G' ->
                  P (nx.add_node (py_str n) (("node_type", VStr type_name) :: r) G')) ->
  P (graph_of (iterrows (node_row type_name id_col) rows G)).
Proof.
  revert G. induction rows as [|r rows IH]; intros G HG Hstep; simpl; [exact HG|].
  unfold node_row. destruct (get id_col r) as [n|] eqn:En; [|exact HG].
  destruct (kwargs_clash add_node_bound r); [exact HG|].
  apply IH.
  - apply (Hstep G r n); auto. now left.
  - intros G' r' n' Hin. apply Hstep. now right.
Qed.

Lemma pass1_ind (P : DiGraph -> Prop) csv_files G :
  P G ->
  (forall G' f cols id_col rows cells n,
      In f csv_files -> header f = Some cols -> detect_file_role cols = RoleNode id_col ->
      data f = Some rows -> In cells rows ->
      get id_col (astype_str id_col (row_dict cols cells)) = Some n -> P G' ->
      P (nx.add_node (py_str n)
           (("node_type", VStr (clean_type_name (path f)))
              :: astype_str id_col (row_dict cols cells)) G')) ->
  P (pass1 csv_files G).
Proof.
  unfold pass1. revert G.
  induction csv_files as [|f l IH]; intros G HG Hstep; simpl; [exact HG|].
  apply IH; [|intros; eapply Hstep; eauto; now right].
  unfold pass1_file.
  destruct (header f) as [cols|] eqn:Hh; [|exact HG].
  destruct (detect_file_role cols) as [s e|id_col|] eqn:Hr; try exact HG.
  destruct (data f) as [rows|] eqn:Hd; [|exact HG].
  apply node_rows_ind; [exact HG|].
  intros G' r n Hin Hn HG'. apply in_map_iff in Hin as [cells [<- Hin]].
  eapply Hstep; eauto. now left.
Qed.

Lemma pass1_ok csv_files G : graph_ok G -> graph_ok (pass1 csv_files G).
Proof.
  intros HG. apply pass1_ind; [exact HG|]. intros. now apply add_node_ok.
Qed.

Lemma pass1_no_edge csv_files u v : nx.edge_attrs (pass1 csv_files nx.empty) u v = None.
Proof.
  apply (pass1_ind (fun G => nx.edge_attrs G u v = None)); [reflexivity|].
  intros. now rewrite edge_attrs_add_node.
Qed.

Lemma has_node_add_node G n a m :
  nx.has_node (nx.add_node n a G) m = String.eqb n m || nx.has_node G m.
Proof.
  unfold nx.has_node, nx.add_node.
  destruct (mem n (_succ G)); cbn [_node]; unfold mem; rewrite get_set;
    destruct (String.eqb n m); reflexivity.
Qed.

(** Pass 1 adds declared identifiers only. *)
Lemma pass1_declared csv_files m :
  nx.has_node (pass1 csv_files nx.empty) m = true -> In m (declared_ids csv_files).
Proof.
  apply (pass1_ind (fun G => nx.has_node G m = true -> In m (declared_ids csv_files)));
    [discriminate|].
  intros G' f cols id_col rows cells n Hf Hh Hr Hd Hc Hn IH.
  rewrite has_node_add_node. intros H. apply orb_true_iff in H as [H|H]; [|auto].
  apply String.eqb_eq in H. subst m.
  unfold declared_ids. apply in_flat_map. exists f. split; [exact Hf|].
  unfold declared_in_file. rewrite Hh, Hd, Hr.
  apply in_flat_map. exists cells. split; [exact Hc|]. rewrite Hn. now left.
Qed.

Lemma build_graph_ok data_dir : graph_ok (build_graph data_dir).
Proof.
  destruct data_dir as [[|f l]|]; simpl; try apply empty_ok.
  change (graph_ok (pass2 (f :: l) (pass1 (f :: l) nx.empty))).
  rewrite pass2_run. apply run_ops_ok, pass1_ok, empty_ok.
Qed.

Lemma build_graph_run csv_files :
  build_graph (Some csv_files) =
  fold_left run_op (pass2_ops csv_files) (pass1 csv_files nx.empty).
Proof.
  destruct csv_files as [|f l]; [reflexivity|].
  change (build_graph (Some (f :: l))) with (pass2 (f :: l) (pass1 (f :: l) nx.empty)).
  apply pass2_run.
Qed.

End PassFacts.

(** ** Rows of a well-formed edge file *)

Module RowFacts.
Import PyDict PyDictFacts.

Lemma in_keys_update {V} k (d new : dict V) :
  In k (keys (update d new)) <-> In k (keys d) \/ In k (keys new).
Proof.
  unfold update. revert d. induction new as [|[k' v'] new IH]; intros d; simpl.
  - tauto.
  - rewrite IH, keys_set. destruct (mem k' d) eqn:E.
    + apply mem_keys in E. split; [tauto|]. intros [H|[<-|H]]; tauto.
    + rewrite in_app_iff. simpl. tauto.
Qed.

Lemma keys_combine {V} (cols : list string) (cells : list V) :
  length cells = length cols -> keys (combine cols cells) = cols.
Proof.
  revert cells. induction cols as [|c cols IH]; intros [|x cells]; simpl;
    try reflexivity; try discriminate.
  intros [= E]. now rewrite IH.
Qed.

Lemma in_keys_row_dict cols cells k :
  length cells = length cols -> In k (keys (row_dict cols cells)) <-> In k cols.
Proof.
  intros E. unfold row_dict. rewrite in_keys_update, keys_combine by exact E.
  simpl. tauto.
Qed.

Lemma keys_astype col r : keys (astype_str col r) = keys r.
Proof.
  unfold astype_str, keys. rewrite map_map. apply map_ext.
  intros [k v]; simpl. now destruct (String.eqb k col).
Qed.

Lemma get_astype col r k :
  get k (astype_str col r) =
  option_map (fun v => if String.eqb k col then VStr (py_str v) else v) (get k r).
Proof.
  induction r as [|[k' v'] r IH]; simpl; [reflexivity|].
  destruct (String.eqb k' col) eqn:E1; simpl;
    destruct (String.eqb k k') eqn:E2; simpl; try exact IH;
    apply String.eqb_eq in E2; rewrite E2, E1; reflexivity.
Qed.

(** The endpoint that the edge loop reads in a converted row. *)
Lemma get_converted cols cells start_col end_col col :
  col = start_col \/ col = end_col ->
  option_map py_str
    (get col (astype_str end_col (astype_str start_col (row_dict cols cells)))) =
  cell cols cells col.
Proof.
  intros Hc. unfold cell. rewrite !get_astype.
  destruct (get col (row_dict cols cells)) as [x|]; simpl; [|reflexivity].
  f_equal.
  destruct (String.eqb col start_col), (String.eqb col end_col); reflexivity.
Qed.


Lemma clash_free_type (r : attrs) :
  kwargs_clash add_edge_bound r = false -> mem "type" r = false.
Proof.
  intros H. apply mem_false_keys. intros Hin.
  unfold kwargs_clash in H.
  assert (E : existsb (fun k => existsb (String.eqb k) add_edge_bound) (keys r) = true).
  { apply existsb_exists. exists "type". split; [exact Hin | reflexivity]. }
  congruence.
Qed.

Lemma detect_edge_cols cols start_col end_col :
  detect_file_role cols = RoleEdge start_col end_col ->
  In start_col cols /\ In end_col cols.
Proof.
  unfold detect_file_role, PyStr.next_where.
  destruct (List.find is_start_col cols) as [s|] eqn:Hs;
    destruct (List.find is_end_col cols) as [e|] eqn:He;
    destruct (List.find (is_id_col _) cols) as [i|];
    repeat match goal with
      | |- context [if ?b then _ else _] => destruct b
      end; try discriminate.
  all: intros [= <- <-]; split;
    [apply (List.find_some _ _ Hs) | apply (List.find_some _ _ He)].
Qed.



End RowFacts.

(** ** Edges of the built graph *)

Module BuildFacts.
Import PyDict PyDictFacts GraphFacts LookupFacts EdgeFacts PassFacts RowFacts.

Lemma run_op_edge_attrs G o u v :
  nx.edge_attrs (run_op G o) u v =
  match o with
  | OpEdge u' v' type_name r =>
      if String.eqb u' u && String.eqb v' v
      then Some (update (default [] (nx.edge_attrs G u' v')) (("type", VStr type_name) :: r))
      else nx.edge_attrs G u v
  | OpEndpoints _ _ => nx.edge_attrs G u v
  end.
Proof.
  destruct o as [x y|x y tn r]; simpl.
  - apply edge_attrs_ensure_endpoints.
  - rewrite edge_attrs_add_edge, !edge_attrs_ensure_endpoints. reflexivity.
Qed.

Lemma ingested_app ops ops' : ingested (ops ++ ops') = (ingested ops ++ ingested ops')%list.
Proof. unfold ingested. apply flat_map_app. Qed.

(** The pairs that have an edge are those of the start graph and those of
    the ingested rows. *)
Lemma run_ops_edges ops G u v :
  nx.edge_attrs (fold_left run_op ops G) u v <> None <->
  nx.edge_attrs G u v <> None \/ In (u, v) (map fst (ingested ops)).
Proof.
  induction ops as [|o ops IH] using rev_ind; simpl; [tauto|].
  rewrite fold_left_app, ingested_app, map_app, in_app_iff. simpl.
  rewrite run_op_edge_attrs. destruct o as [x y|x y tn r]; simpl; [tauto|].
  destruct (String.eqb_spec x u) as [->|Hx]; simpl.
  - destruct (String.eqb_spec y v) as [->|Hy].
    + split; [intros _; right; right; now left | discriminate].
    + rewrite IH. split; [tauto|]. intros [H|[H|[[= E]|[]]]]; tauto.
  - rewrite IH. split; [tauto|]. intros [H|[H|[[= E]|[]]]]; tauto.
Qed.

Lemma rows_ops_clean type_name start_col end_col rows :
  clean (rows_ops type_name start_col end_col rows).
Proof.
  induction rows as [|r rows IH]; intros u v tn r' Hin; simpl in Hin; [destruct Hin|].
  destruct (get start_col r); [|destruct Hin].
  destruct (get end_col r); [|destruct Hin].
  destruct (kwargs_clash add_edge_bound r) eqn:E.
  - destruct Hin as [[=]|[]].
  - destruct Hin as [[= _ _ _ <-]|Hin]; [exact E | eapply IH; eauto].
Qed.

Lemma pass2_ops_clean csv_files : clean (pass2_ops csv_files).
Proof.
  intros u v tn r Hin. unfold pass2_ops in Hin.
  apply in_flat_map in Hin as [f [_ Hin]]. unfold file_ops in Hin.
  destruct (header f) as [cols|]; [|destruct Hin].
  destruct (detect_file_role cols) as [s e|i|]; try destruct Hin.
  destruct (data f) as [rows|]; [|destruct Hin].
  eapply rows_ops_clean; eauto.
Qed.

Lemma last_type_app u v rows row :
  last_type u v (rows ++ [row]) =
  if String.eqb (fst (fst row)) u && String.eqb (snd (fst row)) v
  then Some (snd row) else last_type u v rows.
Proof. unfold last_type. now rewrite fold_left_app. Qed.

(** The tag of an edge is the type of the last row written on its pair. *)
Lemma run_ops_tag ops G u v :
  clean ops ->
  edge_tag (fold_left run_op ops G) u v =
  match last_type u v (ingested ops) with
  | Some t => Some (VStr t)
  | None => edge_tag G u v
  end.
Proof.
  induction ops as [|o ops IH] using rev_ind; intros Hc; [reflexivity|].
  assert (Hc' : clean ops).
  { intros x y tn r Hin. apply (Hc x y tn r). apply in_or_app. now left. }
  rewrite fold_left_app, ingested_app. simpl.
  unfold edge_tag at 1. rewrite run_op_edge_attrs.
  destruct o as [x y|x y tn r]; simpl.
  - rewrite app_nil_r. now apply IH.
  - rewrite last_type_app. simpl.
    destruct (String.eqb x u && String.eqb y v); [|now apply IH].
    apply get_update_head, clash_free_type.
    apply (Hc x y tn r). apply in_or_app. right. now left.
Qed.



End BuildFacts.

Import PyDict PyDictFacts GraphFacts LookupFacts EdgeFacts PassFacts RowFacts BuildFacts.



(** C10: an edge row leaves the attributes of every node that is in the
    graph as they are, the tag [node_type] included, and so does the whole
    of Pass 2; a placeholder is written only for an identifier that is not
    in the graph. *)
Theorem edge_rows_keep_nodes type_name start_col end_col (r : attrs) (G : DiGraph)
        (m : string) (a : attrs) :
  graph_ok G -> nx.node_attrs G m = Some a ->
  nx.node_attrs (graph_of (edge_row type_name start_col end_col r G)) m = Some a /\
  (forall csv_files, nx.node_attrs (pass2 csv_files G) m = Some a) /\
  ensure_node m G = G.
Proof.
  intros HG Hm. repeat split.
  - change r with (hd r [r]).
    rewrite <- (run_ops_frame (rows_ops type_name start_col end_col [r]) G m a HG Hm).
    rewrite <- rows_run. simpl.
    destruct (edge_row type_name start_col end_col r G); reflexivity.
  - intros csv_files. rewrite pass2_run. now apply run_ops_frame.
  - unfold ensure_node, nx.has_node, mem. unfold nx.node_attrs in Hm. now rewrite Hm.
Qed.

(** C2, as stated: two rows of different types between the same pair would
    be two edges.  The graph has one edge, no edge of the first type is
    left, and the edge carries the type of the second file. *)
Lemma edge_types_collapse :
  nx.number_of_edges (build_graph (Some [follows_csv; likes_csv])) = 1%nat /\
  edges_of_type (build_graph (Some [follows_csv; likes_csv])) (VStr "FOLLOWS") = [] /\
  edge_tag (build_graph (Some [follows_csv; likes_csv])) "x" "y" = Some (VStr "LIKES").
Proof. repeat split; vm_compute; reflexivity. Qed.

(** C2, amended: edges are keyed by (source id, target id).  The number of
    edges of the built graph is the number of distinct pairs among the
    ingested edge rows, and the edge of a pair carries the type of the last
    ingested row of that pair, whatever the types of the earlier ones. *)
Theorem edges_keyed_by_pair (csv_files : list csv_file) :
  nx.number_of_edges (build_graph (Some csv_files)) =
    size (list_to_set (map fst (ingested_edges csv_files)) : gset (string * string)) /\
  (forall u v, edge_tag (build_graph (Some csv_files)) u v =
               option_map VStr (last_type u v (ingested_edges csv_files))).
Proof.
  assert (HG : graph_ok (build_graph (Some csv_files))) by apply build_graph_ok.
  split.
  - unfold nx.number_of_edges.
    rewrite <- (length_map fst (nx.edges (build_graph (Some csv_files)))).
    fold (edge_keys (build_graph (Some csv_files))).
    pose proof (NoDup_edge_keys _ HG) as Hnd. apply NoDup_ListNoDup in Hnd.
    rewrite <- (size_list_to_set (C := gset (string * string)) _ Hnd).
    f_equal. apply set_eq. intros [u v].
    rewrite !elem_of_list_to_set, !list_elem_of_In.
    rewrite (in_edge_keys _ u v HG), build_graph_run, run_ops_edges, pass1_no_edge.
    unfold ingested_edges. tauto.
  - intros u v. rewrite build_graph_run, run_ops_tag by apply pass2_ops_clean.
    unfold ingested_edges.
    destruct (last_type u v (ingested (pass2_ops csv_files))); [reflexivity|].
    unfold edge_tag. now rewrite pass1_no_edge.
Qed.


(** C10 at work: the edge row from [x] leaves the declared node [x] as the
    node file wrote it. *)
Lemma edge_rows_keep_nodes_witness :
  nx.node_attrs (pass2 [follows_csv] (pass1 [person_csv] nx.empty)) "x" =
  Some [("node_type", VStr "Person"); (":ID", VStr "x"); ("name", VStr "Ann")].
Proof.
  refine (proj1 (proj2 (edge_rows_keep_nodes "FOLLOWS" ":START_ID" ":END_ID"
                          [(":START_ID", VStr "x"); (":END_ID", VStr "y")]
                          (pass1 [person_csv] nx.empty) "x"
                          [("node_type", VStr "Person"); (":ID", VStr "x"); ("name", VStr "Ann")]
                          _ _)) [follows_csv]).
  - apply pass1_ok, empty_ok.
  - reflexivity.
Defined.

(** ** Empty graph *)

(** A folder without a usable file yields the empty graph. *)
Lemma passes_skip (csv_files : list csv_file) (G : DiGraph) :
  (forall f, In f csv_files ->
             match header f with
             | Some cols => tag_of (detect_file_role cols) = unknown
             | None => True
             end) ->
  pass1 csv_files G = G /\ pass2 csv_files G = G.
Proof.
  unfold pass1, pass2. revert G.
  induction csv_files as [|f l IH]; intros G H; simpl; [now split|].
  assert (E : pass1_file G f = G /\ pass2_file G f = G).
  { unfold pass1_file, pass2_file. specialize (H f (or_introl eq_refl)).
    destruct (header f) as [cols|]; [|now split].
    destruct (detect_file_role cols); try discriminate; now split. }
  destruct E as [-> ->]. apply IH. intros f' Hf'. apply H. now right.
Qed.

Lemma no_valid_csv_empty (csv_files : list csv_file) :
  (forall f, In f csv_files ->
             match header f with
             | Some cols => tag_of (detect_file_role cols) = unknown
             | None => True
             end) ->
  build_graph (Some csv_files) = nx.empty.
Proof.
  intros H. destruct csv_files as [|f0 l]; [reflexivity|].
  change (build_graph (Some (f0 :: l))) with (pass2 (f0 :: l) (pass1 (f0 :: l) nx.empty)).
  destruct (passes_skip (f0 :: l) nx.empty H) as [-> ->]. reflexivity.
Qed.

(** C8: when the built graph has no node, the job ends in the error state
    with the empty-graph message and its trace gains no event, so no oracle
    call and no schema write happen; the command-line run creates the
    output directory, prints the empty-graph line and exits, with neither
    an oracle call nor a schema write in its trace. *)
Theorem empty_graph_rejected {J : Type} (env : environment J)
        (data_dir : option (list csv_file)) (output_dir : string) (w : world J) :
  nx.number_of_nodes (build_graph data_dir) = 0%nat ->
  status (process_schema_discovery env data_dir output_dir w) = "error" /\
  message (process_schema_discovery env data_dir output_dir w)
    = "Graph is empty. No data found." /\
  trace (process_schema_discovery env data_dir output_dir w) = trace w /\
  result (process_schema_discovery env data_dir output_dir w) = result w /\
  output_file (process_schema_discovery env data_dir output_dir w) = output_file w /\
  cli_main env data_dir output_dir
    = [EvMakedirs output_dir; EvPrint "Graph is empty. Exiting."; EvExit] /\
  existsb is_oracle_call (cli_main env data_dir output_dir) = false /\
  existsb is_schema_write (cli_main env data_dir output_dir) = false.
Proof.
  intros H. unfold process_schema_discovery, cli_main. rewrite H. simpl.
  repeat split; reflexivity.
Qed.

(** C8 at work: a folder whose only file has no identifier column. *)
Lemma empty_graph_rejected_witness :
  status (process_schema_discovery
            {| api_key := Some "key";
               generate_content := fun _ => Some "{}";
               random_sample := fun l _ => l;
               json_loads := fun s => Some s;
               json_truthy := fun _ => true;
               json_dumps := fun _ => "{}" |}
            (Some [{| path := "notes.csv"; header := Some ["foo"; "bar"];
                      data := Some [[VInt 1; VInt 2]] |}])
            "out" (queued (J := string))) = "error".
Proof.
  refine (proj1 (empty_graph_rejected _ _ _ _ _)).
  reflexivity.
Defined.

(** With a node in the graph and a credential, the oracle is called. *)
Lemma oracle_reached {J : Type} (env : environment J)
      (data_dir : option (list csv_file)) (output_dir : string) (w : world J) :
  nx.number_of_nodes (build_graph data_dir) <> 0%nat ->
  PyStr.opt_truthy (api_key env) = true ->
  existsb is_oracle_call (cli_main env data_dir output_dir) = true /\
  existsb is_oracle_call (trace (process_schema_discovery env data_dir output_dir w))
  = existsb is_oracle_call (trace w) || true.
Proof.
  intros Hn Hk. unfold process_schema_discovery, cli_main, call_gemini_api,
    cli_call_gemini_api.
  apply Nat.eqb_neq in Hn. rewrite Hn, Hk. simpl.
  split.
  - destruct (generate_content env _) as [t|]; simpl.
    + destruct (PyStr.truthy t); reflexivity.
    + reflexivity.
  - destruct (generate_content env _) as [t|]; simpl;
      [destruct (PyStr.truthy t); simpl;
       [destruct (extract_json env t) as [j|]; simpl;
        [destruct (json_truthy env j)|]|]|];
      simpl; rewrite ?existsb_app; simpl; rewrite ?orb_false_r; reflexivity.
Qed.

(** ** Order of floats *)

Module FloatFacts.

Ltac split_compare :=
  repeat match goal with
    | H : context [Z.compare ?a ?b] |- _ => destruct (Z.compare_spec a b)
    | |- context [Z.compare ?a ?b] => destruct (Z.compare_spec a b)
    | H : context [Pos.compare_cont Eq ?a ?b] |- _ =>
        change (Pos.compare_cont Eq a b) with (Pos.compare a b) in H
    | |- context [Pos.compare_cont Eq ?a ?b] =>
        change (Pos.compare_cont Eq a b) with (Pos.compare a b)
    | H : context [Pos.compare ?a ?b] |- _ => destruct (Pos.compare_spec a b)
    | |- context [Pos.compare ?a ?b] => destruct (Pos.compare_spec a b)
    end.

Lemma ltb_irrefl x : SFltb x x = false.
Proof.
  unfold SFltb, SFcompare.
  destruct x as [s|s| |s m e]; try destruct s; simpl; try reflexivity;
    split_compare; simpl; try reflexivity; lia.
Qed.

Lemma ltb_trans x y z : SFltb x y = true -> SFltb y z = true -> SFltb x z = true.
Proof.
  unfold SFltb, SFcompare.
  destruct x as [sx|sx| |sx mx ex]; destruct y as [sy|sy| |sy my ey];
    destruct z as [sz|sz| |sz mz ez];
    try destruct sx; try destruct sy; try destruct sz; simpl;
    try discriminate; try reflexivity; intros H1 H2;
    split_compare; simpl in *; try discriminate; try reflexivity; lia.
Qed.

Lemma gtb_irrefl x : PyFloat.gtb x x = false.
Proof. apply ltb_irrefl. Qed.

Lemma gtb_trans x y z :
  PyFloat.gtb x y = true -> PyFloat.gtb y z = true -> PyFloat.gtb x z = true.
Proof. unfold PyFloat.gtb. intros H1 H2. exact (ltb_trans _ _ _ H2 H1). Qed.

(** From [z <= y] and [y < x], [z <= x]. *)
Lemma gtb_weak x y z :
  PyFloat.gtb z y = false -> PyFloat.gtb x y = true -> PyFloat.gtb z x = false.
Proof.
  intros H1 H2. destruct (PyFloat.gtb z x) eqn:E; [|reflexivity].
  now rewrite (gtb_trans _ _ _ E H2) in H1.
Qed.

End FloatFacts.

(** ** The matching blocks are computed to the end *)

Module DifflibFacts.
Import difflib.

Section Bounds.
Variables a b : list ascii.
Variable b2j : gmap ascii (list nat).

Lemma scan_row_ok js i alo ahi blo bhi j2len newj2len best :
  (alo <= i)%nat -> (i < ahi)%nat ->
  row_ok blo bhi (i - alo) j2len ->
  row_ok blo bhi (i - alo + 1) newj2len ->
  in_window alo ahi blo bhi best ->
  row_ok blo bhi (i - alo + 1) (fst (scan_row js i blo bhi j2len newj2len best)) /\
  in_window alo ahi blo bhi (snd (scan_row js i blo bhi j2len newj2len best)).
Proof.
  intros Hi Hi' Hprev. revert newj2len best.
  induction js as [|j js IH]; intros newj2len best Hnew Hbest; simpl; [now split|].
  destruct (j <? blo)%nat eqn:E1; [now apply IH|].
  destruct (bhi <=? j)%nat eqn:E2; [now split|].
  apply Nat.ltb_ge in E1. apply Nat.leb_gt in E2.
  set (k := S (match j with O => 0%nat | S j' => default 0%nat (j2len !! j') end)).
  assert (Hk : (1 <= k /\ k <= i - alo + 1 /\ k <= j + 1 - blo)%nat).
  { subst k. destruct j as [|j']; [lia|].
    destruct (j2len !! j') as [k'|] eqn:Ek; simpl; [|lia].
    specialize (Hprev j' k' Ek). simpl in Hprev. lia. }
  apply IH.
  - apply map_Forall_insert_2; [lia | exact Hnew].
  - destruct (snd best <? k)%nat; [|exact Hbest]. unfold in_window. simpl. lia.
Qed.

Lemma scan_rows_ok n i alo ahi blo bhi j2len best :
  (alo <= i)%nat -> (i + n = ahi)%nat ->
  row_ok blo bhi (i - alo) j2len ->
  in_window alo ahi blo bhi best ->
  in_window alo ahi blo bhi (scan_rows a b2j n i blo bhi j2len best).
Proof.
  revert i j2len best. induction n as [|n IH]; intros i j2len best Hi Hn Hprev Hbest; simpl;
    [exact Hbest|].
  destruct (scan_row _ i blo bhi j2len ∅ best) as [newj2len best'] eqn:E.
  pose proof (scan_row_ok
                (match a !! i with Some x => default [] (b2j !! x) | None => [] end)
                i alo ahi blo bhi j2len ∅ best Hi ltac:(lia) Hprev
                ltac:(apply map_Forall_empty) Hbest) as [H1 H2].
  rewrite E in H1, H2. simpl in H1, H2.
  apply IH; try lia; auto.
  replace (S i - alo)%nat with (i - alo + 1)%nat by lia. exact H1.
Qed.

Lemma extend_left_ok besti bestj bestsize alo ahi blo bhi :
  in_window alo ahi blo bhi (besti, bestj, bestsize) ->
  in_window alo ahi blo bhi (extend_left a b besti bestj bestsize alo blo).
Proof.
  revert bestj bestsize. induction besti as [|i' IH]; intros bestj bestsize Hw;
    destruct bestj as [|j']; simpl; try exact Hw.
  destruct ((alo <? S i')%nat && (blo <? S j')%nat && _) eqn:E; [|exact Hw].
  apply andb_true_iff in E as [E _]. apply andb_true_iff in E as [E1 E2].
  apply Nat.ltb_lt in E1, E2. apply IH. unfold in_window in *. simpl in *. lia.
Qed.

Lemma extend_right_ok n besti bestj bestsize alo ahi blo bhi :
  in_window alo ahi blo bhi (besti, bestj, bestsize) ->
  in_window alo ahi blo bhi (extend_right a b n besti bestj bestsize ahi bhi).
Proof.
  revert bestsize. induction n as [|n IH]; intros bestsize Hw; simpl; [exact Hw|].
  destruct ((besti + bestsize <? ahi)%nat && (bestj + bestsize <? bhi)%nat && _) eqn:E;
    [|exact Hw].
  apply andb_true_iff in E as [E _]. apply andb_true_iff in E as [E1 E2].
  apply Nat.ltb_lt in E1, E2. apply IH. unfold in_window in *. simpl in *. lia.
Qed.

Lemma find_longest_match_ok alo ahi blo bhi :
  (alo <= ahi)%nat -> (blo <= bhi)%nat ->
  in_window alo ahi blo bhi (find_longest_match a b b2j alo ahi blo bhi).
Proof.
  intros Ha Hb. unfold find_longest_match.
  pose proof (scan_rows_ok (ahi - alo) alo alo ahi blo bhi ∅ (alo, blo, 0%nat)
                (le_n _) ltac:(lia) ltac:(apply map_Forall_empty)
                ltac:(unfold in_window; simpl; lia)) as H.
  destruct (scan_rows _ _ _ _ _ _ _ _) as [[i j] k].
  apply (extend_left_ok i j k) in H.
  destruct (extend_left _ _ _ _ _ _ _) as [[i' j'] k'].
  now apply extend_right_ok.
Qed.

(** The loop of [extend_right] stops by its own test before the counter
    runs out. *)
Lemma extend_right_enough n n' besti bestj bestsize ahi bhi :
  (ahi - (besti + bestsize) <= n)%nat -> (ahi - (besti + bestsize) <= n')%nat ->
  extend_right a b n besti bestj bestsize ahi bhi
  = extend_right a b n' besti bestj bestsize ahi bhi.
Proof.
  revert n' bestsize. induction n as [|n IH]; intros n' bestsize Hn Hn'.
  - destruct n' as [|n']; simpl; [reflexivity|].
    destruct (besti + bestsize <? ahi)%nat eqn:E; [|reflexivity].
    apply Nat.ltb_lt in E. lia.
  - destruct n' as [|n']; simpl.
    + destruct (besti + bestsize <? ahi)%nat eqn:E; [|reflexivity].
      apply Nat.ltb_lt in E. lia.
    + destruct ((besti + bestsize <? ahi)%nat && (bestj + bestsize <? bhi)%nat && _);
        [|reflexivity].
      apply IH; lia.
Qed.

Lemma queue_cost_cons alo ahi blo bhi queue :
  queue_cost ((alo, ahi, blo, bhi) :: queue) = (2 * (ahi - alo) + 1 + queue_cost queue)%nat.
Proof. reflexivity. Qed.

Lemma blocks_loop_enough fuel fuel' queue matching_blocks :
  Forall window_ok queue ->
  (queue_cost queue <= fuel)%nat -> (queue_cost queue <= fuel')%nat ->
  blocks_loop a b b2j fuel queue matching_blocks
  = blocks_loop a b b2j fuel' queue matching_blocks.
Proof.
  revert fuel' queue matching_blocks.
  induction fuel as [|fuel IH]; intros fuel' queue acc Hok Hf Hf';
    (destruct queue as [|[[[alo ahi] blo] bhi] q]; [destruct fuel'; reflexivity|]);
    rewrite queue_cost_cons in Hf, Hf'; [lia|].
  destruct fuel' as [|fuel']; [lia|].
  apply Forall_cons in Hok as [[Ha Hb] Hq]. simpl in Ha, Hb.
  cbn [blocks_loop].
  pose proof (find_longest_match_ok alo ahi blo bhi Ha Hb) as Hw.
  destruct (find_longest_match a b b2j alo ahi blo bhi) as [[i j] k].
  unfold in_window in Hw. simpl in Hw.
  destruct (k =? 0)%nat eqn:Ek; [apply IH; auto; lia|].
  apply Nat.eqb_neq in Ek.
  destruct ((alo <? i)%nat && (blo <? j)%nat);
    destruct ((i + k <? ahi)%nat && (j + k <? bhi)%nat);
    apply IH; repeat (apply Forall_cons; split); auto;
    rewrite ?queue_cost_cons; unfold window_ok; simpl; lia.
Qed.

End Bounds.

(** The fuel of [get_matching_blocks] is never used up: any larger amount
    gives the same blocks. *)
Theorem get_matching_blocks_total (a b : list ascii) (fuel : nat) :
  (2 * length a + 1 <= fuel)%nat ->
  blocks_loop a b (chain_b b) fuel [(0, length a, 0, length b)]%nat [] =
  get_matching_blocks a b.
Proof.
  intros Hf. unfold get_matching_blocks. apply blocks_loop_enough.
  - apply Forall_cons. split; [|constructor]. unfold window_ok; simpl; lia.
  - unfold queue_cost; simpl; lia.
  - unfold queue_cost; simpl; lia.
Qed.

End DifflibFacts.

(** ** Name matching *)

Module MatchFacts.
Import FloatFacts.

Lemma best_inv_step name seen st x :
  best_inv name seen st -> best_inv name (seen ++ [x]) (best_step name st x).
Proof.
  destruct st as [bs [t|]]; unfold best_inv, best_step; simpl.
  - intros (-> & Hin & Hgt & Hmax).
    destruct (PyFloat.gtb (similar name x) PyFloat.lit_0_8) eqn:E1;
      [destruct (PyFloat.gtb (similar name x) (similar name t)) eqn:E2|]; simpl.
    + repeat split; auto.
      * apply in_or_app. right. now left.
      * intros t' Ht'. apply in_app_or in Ht' as [Ht'|[<-|[]]].
        -- apply (gtb_weak _ (similar name t)); auto.
        -- apply gtb_irrefl.
    + repeat split; auto.
      * apply in_or_app. now left.
      * intros t' Ht'. apply in_app_or in Ht' as [Ht'|[<-|[]]]; auto.
    + repeat split; auto.
      * apply in_or_app. now left.
      * intros t' Ht'. apply in_app_or in Ht' as [Ht'|[<-|[]]]; auto.
        apply (gtb_weak _ PyFloat.lit_0_8); auto.
  - intros (-> & Hnone).
    destruct (PyFloat.gtb (similar name x) PyFloat.lit_0_8) eqn:E1;
      [destruct (PyFloat.gtb (similar name x) PyFloat.zero) eqn:E2|]; simpl.
    + repeat split; auto.
      * apply in_or_app. right. now left.
      * intros t' Ht'. apply in_app_or in Ht' as [Ht'|[<-|[]]].
        -- apply (gtb_weak _ PyFloat.lit_0_8); auto.
        -- apply gtb_irrefl.
    + assert (H0 : PyFloat.gtb PyFloat.lit_0_8 PyFloat.zero = true) by reflexivity.
      now rewrite (gtb_trans _ _ _ E1 H0) in E2.
    + split; [reflexivity|].
      intros t' Ht'. apply in_app_or in Ht' as [Ht'|[<-|[]]]; auto.
Qed.

Lemma best_inv_fold name targets :
  best_inv name targets (fold_left (best_step name) targets (PyFloat.zero, None)).
Proof.
  induction targets as [|x l IH] using rev_ind.
  - split; [reflexivity | intros t []].
  - rewrite fold_left_app. simpl. now apply best_inv_step.
Qed.

Lemma similar_empty_r name : similar name "" = PyFloat.zero.
Proof. unfold similar. simpl. now rewrite orb_true_r. Qed.

Lemma best_match_truthy name targets t :
  find_best_match name targets = Some t -> PyStr.truthy t = true.
Proof.
  unfold find_best_match. pose proof (best_inv_fold name targets) as H.
  unfold best_inv in H. intros E. rewrite E in H. destruct H as (_ & _ & Hgt & _).
  destruct t; [|reflexivity]. now rewrite similar_empty_r in Hgt.
Qed.

End MatchFacts.

(** C5: the candidate that [find_best_match] returns is one of the
    candidates, its ratio is strictly above 0.8 and no candidate has a
    strictly higher ratio; no candidate is returned exactly when no ratio
    is strictly above 0.8, and the match list has an entry for a reference
    name exactly when a candidate is returned.  A ratio of exactly 0.8 is
    not a match and a ratio of 0.81 is one. *)
Theorem find_best_match_threshold (name : string) (targets : list string) :
  (forall t, find_best_match name targets = Some t ->
             In t targets /\
             PyFloat.gtb (similar name t) PyFloat.lit_0_8 = true /\
             forall t', In t' targets ->
                        PyFloat.gtb (similar name t') (similar name t) = false) /\
  (find_best_match name targets = None <->
   forall t, In t targets -> PyFloat.gtb (similar name t) PyFloat.lit_0_8 = false) /\
  (forall gt_d inf_d m,
      In (name, m) (match_names gt_d inf_d) <->
      In name (PyDict.keys gt_d) /\ find_best_match name (PyDict.keys inf_d) = Some m) /\
  (similar "abcde" "abcdX" = PyFloat.lit_0_8 /\
   find_best_match "abcde" ["abcdX"] = None) /\
  (similar name_81 target_81 = lit_0_81 /\
   find_best_match name_81 [target_81] = Some target_81).
Proof.
  pose proof (MatchFacts.best_inv_fold name targets) as H.
  unfold best_inv in H. unfold find_best_match at 1 2.
  split; [|split; [|split; [|split]]].
  - intros t Ht. rewrite Ht in H. destruct H as (_ & Hin & Hgt & Hmax). auto.
  - split.
    + intros Hn. rewrite Hn in H. now destruct H.
    + intros Hall. destruct (snd _) as [t0|]; [|reflexivity].
      destruct H as (_ & Hin & Hgt & _). now rewrite (Hall t0 Hin) in Hgt.
  - intros gt_d inf_d m. unfold match_names. rewrite in_flat_map. split.
    + intros [g [Hg Hm]].
      destruct (find_best_match g (PyDict.keys inf_d)) as [m'|] eqn:E; [|destruct Hm].
      destruct (PyStr.truthy m'); [|destruct Hm].
      destruct Hm as [[= -> ->]|[]]. now split.
    + intros [Hg Hm]. exists name. split; [exact Hg|].
      rewrite Hm, (MatchFacts.best_match_truthy _ _ _ Hm). now left.
  - split; vm_compute; reflexivity.
  - split; vm_compute; reflexivity.
Qed.

(** ** Similarity ratio *)

(** C7, as stated: the ratio would not depend on the order of its
    arguments nor on blanks.  It is 0.25 for ("tide", "diet") and 0.5 for
    ("diet", "tide"); it is 1.0 for ("ab", "ab") and 0.8 for ("ab", "a b"). *)
Lemma similar_order_and_blanks :
  (similar "tide" "diet" = lit_0_25 /\ similar "diet" "tide" = lit_0_5 /\
   similar "tide" "diet" <> similar "diet" "tide") /\
  (similar "ab" "ab" = lit_1_0 /\ similar "ab" "a b" = PyFloat.lit_0_8 /\
   similar "ab" "ab" <> similar "ab" "a b").
Proof. repeat split; vm_compute; (reflexivity || discriminate). Qed.

(** C7, amended: the ratio is case-insensitive; it is the same for two
    pairs of names that differ in letter case only.  (It depends on blanks
    and on the order of its arguments.) *)
Theorem similar_case_insensitive (a a' b b' : string) :
  PyStr.lower a = PyStr.lower a' -> PyStr.lower b = PyStr.lower b' ->
  similar a b = similar a' b'.
Proof.
  intros Ha Hb. unfold similar.
  rewrite <- (lower_truthy a), <- (lower_truthy b), Ha, Hb, !lower_truthy.
  reflexivity.
Qed.

(** C7 at work: "Neuron" against "SYNAPSE" and "NEURON" against "synapse". *)
Lemma similar_case_insensitive_witness :
  similar "Neuron" "SYNAPSE" = similar "NEURON" "synapse".
Proof.
  apply (similar_case_insensitive "Neuron" "NEURON" "SYNAPSE" "synapse");
    reflexivity.
Defined.

(** ** Accuracy *)

Lemma property_step_eq gt_nodes inf_nodes p m d x :
  property_step gt_nodes inf_nodes (p, m, d) x =
  ((p + length (properties_of gt_nodes (fst x)))%nat,
   (m + size (pd_correct (detail_of gt_nodes inf_nodes x)))%nat,
   (d ++ [detail_of gt_nodes inf_nodes x])%list).
Proof. reflexivity. Qed.

Lemma property_fold gt_nodes inf_nodes l p m d :
  fold_left (property_step gt_nodes inf_nodes) l (p, m, d) =
  ((p + sum_list_with (fun x => length (properties_of gt_nodes (fst x))) l)%nat,
   (m + sum_list_with (fun x => size (pd_correct (detail_of gt_nodes inf_nodes x))) l)%nat,
   (d ++ map (detail_of gt_nodes inf_nodes) l)%list).
Proof.
  revert p m d. induction l as [|x l IH]; intros p m d; cbn [fold_left].
  - simpl. now rewrite !Nat.add_0_r, app_nil_r.
  - rewrite property_step_eq, IH. rewrite <- app_assoc. simpl.
    rewrite <- !Nat.add_assoc. reflexivity.
Qed.

Lemma round2_zero : PyFloat.round2 PyFloat.zero = PyFloat.zero.
Proof. reflexivity. Qed.

(** The integer that [div_half_even] selects is a nearest one: it is at
    most half a unit away from the quotient. *)
Lemma div_half_even_nearest n d :
  (0 <= n)%Z -> (0 < d)%Z ->
  (0 <= PyFloat.div_half_even n d)%Z /\
  (Z.abs (2 * n - 2 * PyFloat.div_half_even n d * d) <= d)%Z.
Proof.
  intros Hn Hd. unfold PyFloat.div_half_even.
  pose proof (Z.div_mod n d ltac:(lia)) as E.
  pose proof (Z.mod_pos_bound n d Hd) as [Hr0 Hr1].
  pose proof (Z.div_pos n d Hn Hd) as Hq.
  set (q := (n / d)%Z) in *. set (r := (n mod d)%Z) in *. clearbody q r.
  assert (En : (2 * n = 2 * (q * d) + 2 * r)%Z) by lia.
  destruct (Z.compare_spec (2 * r) d) as [Hc|Hc|Hc].
  - destruct (Z.even q).
    + split; [lia|]. replace (2 * n - 2 * q * d)%Z with (2 * r)%Z by lia. lia.
    + split; [lia|]. replace (2 * n - 2 * (q + 1) * d)%Z with (2 * r - 2 * d)%Z by lia. lia.
  - split; [lia|]. replace (2 * n - 2 * q * d)%Z with (2 * r)%Z by lia. lia.
  - split; [lia|]. replace (2 * n - 2 * (q + 1) * d)%Z with (2 * r - 2 * d)%Z by lia. lia.
Qed.

(** The hundredths of a float with a fraction part are those nearest to
    its exact value: they differ from it by at most half a hundredth. *)
Lemma hundredths_nearest s m p k :
  PyFloat.hundredths (S754_finite s m (Zneg p)) = Some k ->
  (Z.abs (200 * Zpos m - 2 * Z.abs k * 2 ^ Zpos p) <= 2 ^ Zpos p)%Z.
Proof.
  cbn [PyFloat.hundredths]. intros [= <-].
  assert (Hd : (0 < 2 ^ Zpos p)%Z) by (apply Z.pow_pos_nonneg; lia).
  destruct (div_half_even_nearest (100 * Zpos m) (2 ^ Zpos p) ltac:(lia) Hd) as [Hk Hb].
  set (k := PyFloat.div_half_even (100 * Zpos m) (2 ^ Zpos p)) in *. clearbody k.
  set (d := (2 ^ Zpos p)%Z) in *. clearbody d.
  replace (Z.abs (if s then (- k)%Z else k)) with k by (destruct s; lia).
  replace (200 * Zpos m - 2 * k * d)%Z with (2 * (100 * Zpos m) - 2 * k * d)%Z by lia.
  exact Hb.
Qed.

Lemma round2_hundredths x k :
  PyFloat.hundredths x = Some k -> k <> 0%Z ->
  PyFloat.round2 x = PyFloat.div (PyFloat.of_int k) (PyFloat.of_int 100).
Proof.
  intros Hk Hne. unfold PyFloat.round2. destruct x as [s| | |s m e].
  - simpl in Hk. congruence.
  - discriminate.
  - discriminate.
  - rewrite Hk. destruct (Z.eqb_spec k 0); [contradiction | reflexivity].
Qed.

Lemma round2_small x :
  PyFloat.hundredths x = Some 0%Z -> exists s, PyFloat.round2 x = S754_zero s.
Proof.
  intros Hk. unfold PyFloat.round2. destruct x as [s| | |s m e].
  - now exists s.
  - discriminate.
  - discriminate.
  - rewrite Hk. now exists s.
Qed.

(** C4: the matched count is the sum of the sizes of the correct sets and
    the total is the sum of the lengths of the reference property lists,
    both over the matched node type pairs; the accuracy is their quotient
    times 100, rounded to two decimals, and it is 0 when the total is 0.
    For reference properties a, b, c against candidate properties a, b, d,
    as the only pair: correct is {a, b}, missing {c}, extra {d} and the
    accuracy is 66.67.  Rounded to two decimals: the accuracy is the double
    nearest to k/100 for the integer k nearest to 100 times the exact
    quotient, ties to the even k, and a zero when k is 0; so 1 of 30000
    gives 0, 1 of 800 (0.125) gives 0.12 and 3 of 800 (0.375) gives 0.38. *)
Theorem accuracy_formula (gt inf : json_schema) :
  let gt_nodes := index_by node_key (js_node_types gt) in
  let inf_nodes := index_by node_key (js_node_types inf) in
  let c := compare_schemas gt inf in
  let correct :=
    sum_list_with (fun m => size (pd_correct (detail_of gt_nodes inf_nodes m)))
                  (node_matches c) in
  let reference :=
    sum_list_with (fun m => length (properties_of gt_nodes (fst m))) (node_matches c) in
  (matched_properties c = correct /\ total_properties c = reference /\
   property_details c = map (detail_of gt_nodes inf_nodes) (node_matches c)) /\
  accuracy c =
    (if (0 <? reference)%nat
     then PyFloat.round2
            (PyFloat.mul (PyFloat.truediv (Z.of_nat correct) (Z.of_nat reference))
                         (PyFloat.of_int 100))
     else PyFloat.zero) /\
  (reference = 0%nat -> accuracy c = PyFloat.zero) /\
  (property_details (compare_schemas reference_example candidate_example) =
     [{| pd_node := "Neuron"; pd_correct := {["a"; "b"]};
         pd_missing := {["c"]}; pd_extra := {["d"]} |}] /\
   PyFloat.hundredths (raw_accuracy 2 3) = Some 6667%Z /\
   accuracy (compare_schemas reference_example candidate_example) = lit_66_67) /\
  (forall k, PyFloat.hundredths (raw_accuracy correct reference) = Some k ->
     (k <> 0%Z -> accuracy c = PyFloat.div (PyFloat.of_int k) (PyFloat.of_int 100)) /\
     (k = 0%Z -> exists s, accuracy c = S754_zero s) /\
     (forall s m p, raw_accuracy correct reference = S754_finite s m (Zneg p) ->
        (Z.abs (200 * Zpos m - 2 * Z.abs k * 2 ^ Zpos p) <= 2 ^ Zpos p)%Z)) /\
  (PyFloat.round2 (raw_accuracy 1 30000) = PyFloat.zero /\
   PyFloat.round2 (raw_accuracy 1 800) = lit_0_12 /\
   PyFloat.round2 (raw_accuracy 3 800) = lit_0_38).
Proof.
  intros gt_nodes inf_nodes c correct reference.
  assert (E : c = {| accuracy := PyFloat.round2 (raw_accuracy correct reference);
                     node_matches := match_names gt_nodes inf_nodes;
                     edge_matches := match_names (index_by edge_key (js_edge_types gt))
                                                 (index_by edge_key (js_edge_types inf));
                     property_details :=
                       map (detail_of gt_nodes inf_nodes) (match_names gt_nodes inf_nodes);
                     total_properties := reference;
                     matched_properties := correct |}).
  { subst c correct reference. unfold compare_schemas.
    fold gt_nodes inf_nodes. rewrite property_fold. reflexivity. }
  assert (Hacc : accuracy c =
                 if (0 <? reference)%nat
                 then PyFloat.round2
                        (PyFloat.mul (PyFloat.truediv (Z.of_nat correct) (Z.of_nat reference))
                                     (PyFloat.of_int 100))
                 else PyFloat.zero).
  { rewrite E. simpl. unfold raw_accuracy. destruct (0 <? reference)%nat; reflexivity. }
  split; [|split; [|split; [|split; [|split]]]].
  - rewrite E. simpl. repeat split; reflexivity.
  - exact Hacc.
  - intros H0. rewrite Hacc, H0. reflexivity.
  - repeat split; vm_compute; reflexivity.
  - intros k Hk.
    assert (Ea : accuracy c = PyFloat.round2 (raw_accuracy correct reference))
      by (rewrite E; reflexivity).
    split; [|split].
    + intros Hne. rewrite Ea. now apply round2_hundredths.
    + intros ->. rewrite Ea. now apply round2_small.
    + intros s m p Hraw. rewrite Hraw in Hk. now apply (hundredths_nearest s).
  - repeat split; vm_compute; reflexivity.
Qed.

(** C4 at work: a candidate without node types matches nothing, and two
    properties of three are 6667 hundredths. *)
Lemma accuracy_formula_witness :
  accuracy (compare_schemas reference_example
              {| js_node_types := None; js_edge_types := None |}) = PyFloat.zero /\
  accuracy (compare_schemas reference_example candidate_example) =
    PyFloat.div (PyFloat.of_int 6667) (PyFloat.of_int 100).
Proof.
  split.
  - apply (proj1 (proj2 (proj2 (accuracy_formula reference_example
                                  {| js_node_types := None; js_edge_types := None |})))).
    reflexivity.
  - refine (proj1 (proj1 (proj2 (proj2 (proj2 (proj2
              (accuracy_formula reference_example candidate_example)))))
              6667%Z _) _).
    + vm_compute. reflexivity.
    + discriminate.
Defined.

(** The command-line comparison prints the same two decimals, and prints
    no score when the total is 0. *)
Lemma final_property_score_agrees (gt inf : json_schema) :
  final_property_score gt inf =
  if (0 <? total_properties (compare_schemas gt inf))%nat
  then PyFloat.hundredths
         (raw_accuracy (matched_properties (compare_schemas gt inf))
                       (total_properties (compare_schemas gt inf)))
  else None.
Proof.
  unfold final_property_score, compare_schemas.
  destruct (fold_left _ _ _) as [[p m] d]. simpl. unfold raw_accuracy.
  destruct (0 <? p)%nat; reflexivity.
Qed.

(** ** Edge profile *)

Module ProfileFacts.
Import PyDict PyDictFacts collections.

Lemma count_where_app {A} (p : A -> bool) l l' :
  count_where p (l ++ l') = (count_where p l + count_where p l')%nat.
Proof. unfold count_where. now rewrite List.filter_app, List.length_app. Qed.

Lemma Counter_snoc l y :
  Counter (l ++ [y]) = set y (S (default 0%nat (get y (Counter l)))) (Counter l).
Proof. unfold Counter. now rewrite fold_left_app. Qed.

Lemma Counter_get l x :
  get x (Counter l) =
  if (count_where (String.eqb x) l =? 0)%nat then None
  else Some (count_where (String.eqb x) l).
Proof.
  induction l as [|y l IH] using rev_ind; [reflexivity|].
  rewrite Counter_snoc, get_set, count_where_app. unfold count_where at 2 4. simpl.
  rewrite (String.eqb_sym x y).
  destruct (String.eqb_spec y x) as [->|Hne]; simpl.
  - rewrite IH. destruct (count_where (String.eqb x) l) as [|n]; simpl.
    + reflexivity.
    + rewrite Nat.add_1_r. reflexivity.
  - rewrite IH, Nat.add_0_r. reflexivity.
Qed.

Lemma Counter_NoDup l : List.NoDup (keys (Counter l)).
Proof.
  induction l as [|y l IH] using rev_ind; [constructor|].
  rewrite Counter_snoc. now apply NoDup_keys_set.
Qed.

Lemma Counter_entry l x k :
  In (x, k) (Counter l) -> k = count_where (String.eqb x) l /\ (0 < k)%nat.
Proof.
  intros Hin. apply (In_get _ _ _ (Counter_NoDup l)) in Hin.
  rewrite Counter_get in Hin.
  destruct (count_where (String.eqb x) l) as [|n]; simpl in Hin; [discriminate|].
  injection Hin as <-. split; [reflexivity | lia].
Qed.

Lemma Counter_has l x :
  In x l -> In (x, count_where (String.eqb x) l) (Counter l).
Proof.
  intros Hin. apply get_In. rewrite Counter_get.
  assert (H : (0 < count_where (String.eqb x) l)%nat).
  { unfold count_where. induction l as [|y l IH]; [destruct Hin|]. simpl.
    destruct (String.eqb_spec x y) as [->|Hne]; simpl; [lia|].
    destruct Hin as [->|Hin]; [contradiction | auto]. }
  destruct (count_where (String.eqb x) l); [lia | reflexivity].
Qed.

Lemma in_insert_desc x y l : In y (insert_desc x l) <-> y = x \/ In y l.
Proof.
  induction l as [|z l IH]; simpl; [intuition|].
  destruct (snd z <? snd x)%nat; simpl; rewrite ?IH; intuition.
Qed.

Lemma in_sort_desc y l : In y (sort_desc l) <-> In y l.
Proof.
  unfold sort_desc. induction l as [|x l IH] using rev_ind; [reflexivity|].
  rewrite fold_left_app. simpl. rewrite in_insert_desc, IH, in_app_iff. simpl. intuition.
Qed.

Lemma insert_desc_sorted x l :
  StronglySorted count_ge l -> StronglySorted count_ge (insert_desc x l).
Proof.
  induction 1 as [|z l Hs IH Hall]; simpl.
  - repeat constructor.
  - destruct (snd z <? snd x)%nat eqn:E.
    + apply Nat.ltb_lt in E. constructor; [now constructor|].
      constructor; [unfold count_ge; lia|].
      apply List.Forall_forall. intros w Hw.
      rewrite List.Forall_forall in Hall. specialize (Hall w Hw).
      unfold count_ge in *. lia.
    + apply Nat.ltb_ge in E. constructor; [exact IH|].
      apply List.Forall_forall. intros w Hw. apply in_insert_desc in Hw as [->|Hw].
      * exact E.
      * rewrite List.Forall_forall in Hall. auto.
Qed.

Lemma sort_desc_sorted l : StronglySorted count_ge (sort_desc l).
Proof.
  unfold sort_desc. induction l as [|x l IH] using rev_ind; [constructor|].
  rewrite fold_left_app. simpl. now apply insert_desc_sorted.
Qed.

Lemma sorted_app_order {A} (R : A -> A -> Prop) l1 l2 a b :
  StronglySorted R (l1 ++ l2) -> In a l1 -> In b l2 -> R a b.
Proof.
  induction l1 as [|x l1 IH]; simpl; intros Hs Ha Hb; [destruct Ha|].
  apply StronglySorted_inv in Hs as [Hs Hall]. destruct Ha as [->|Ha]; [|auto].
  rewrite List.Forall_forall in Hall. apply Hall. apply in_or_app. now right.
Qed.

(** The entries that [most_common] drops have counts no larger than
    those that it keeps. *)
Lemma most_common_top n c x y :
  In x (most_common n c) -> In y c -> ~ In y (most_common n c) ->
  (snd y <= snd x)%nat.
Proof.
  unfold most_common. intros Hx Hy Hny.
  apply in_sort_desc in Hy. rewrite <- (firstn_skipn n (sort_desc c)) in Hy.
  apply in_app_or in Hy as [Hy|Hy]; [contradiction|].
  apply (sorted_app_order count_ge (firstn n (sort_desc c)) (skipn n (sort_desc c)));
    auto.
  rewrite firstn_skipn. apply sort_desc_sorted.
Qed.

Lemma most_common_in n c x : In x (most_common n c) -> In x c.
Proof.
  unfold most_common. intros H. apply in_sort_desc.
  rewrite <- (firstn_skipn n (sort_desc c)). apply in_or_app. now left.
Qed.

Lemma in_key_set tag ds k :
  In k (key_set tag ds) <-> k <> tag /\ exists d, In d ds /\ In k (keys d).
Proof.
  unfold key_set. rewrite filter_In, <- list_elem_of_In, elem_of_remove_dups,
    list_elem_of_In, in_flat_map.
  rewrite negb_true_iff, String.eqb_neq. tauto.
Qed.

Lemma presence_length key population :
  length (presence key population)
  = count_where (fun e => mem key (snd e)) population.
Proof.
  unfold presence, count_where, mem.
  induction population as [|e l IH]; simpl; [reflexivity|].
  destruct (get key (snd e)); simpl; now rewrite IH.
Qed.

Lemma filter_sublist {A} (p : A -> bool) (l : list A) : sublist (List.filter p l) l.
Proof.
  induction l as [|x l IH]; simpl; [constructor|].
  destruct (p x); now constructor.
Qed.

Lemma count_where_pos {A} (p : A -> bool) l e :
  In e l -> p e = true -> (0 < count_where p l)%nat.
Proof.
  unfold count_where. induction l as [|x l IH]; intros He Hp; [destruct He|]. simpl.
  destruct He as [->|He].
  - rewrite Hp. simpl. lia.
  - destruct (p x); simpl; [lia | auto].
Qed.

Lemma presence_nonempty key population e :
  In e population -> In key (keys (snd e)) -> presence key population <> [].
Proof.
  intros He Hk Hnil.
  assert (H : (0 < length (presence key population))%nat).
  { rewrite presence_length.
    apply (count_where_pos _ _ e He). now apply mem_keys. }
  rewrite Hnil in H. simpl in H. lia.
Qed.

End ProfileFacts.

(** C9: the topology of an edge type is the five most frequent connection
    labels among the first 50 edges of the type, each with its number of
    occurrences among those 50; the keys that are profiled are the keys,
    other than [type], of the first 100 edges of the type; the presence
    count of a key is its number of carriers in the whole population of
    the type.  The population of the type is the edges of the graph whose
    attribute [type] is the type, and no other edge, in the order of the
    graph, and the count of the profile is their number. *)
Theorem profile_edge_type_sampling (G : DiGraph) (target_type : scalar) (p : type_profile) :
  profile_edge_type G target_type = Some p ->
  let members := edges_of_type G target_type in
  let connections := map (connection G) (firstn 50 members) in
  (tp_topology p = collections.most_common 5 (collections.Counter connections) /\
   (length (tp_topology p) <= 5)%nat /\
   (forall c k, In (c, k) (tp_topology p) ->
                k = count_where (String.eqb c) connections /\ (0 < k)%nat) /\
   (forall c k c', In (c, k) (tp_topology p) -> In c' connections ->
                   ~ In c' (map fst (tp_topology p)) ->
                   (count_where (String.eqb c') connections <= k)%nat)) /\
  (forall key, In key (map pp_key (tp_properties p)) <->
               key <> "type" /\
               exists e, In e (firstn 100 members) /\ In key (PyDict.keys (snd e))) /\
  (forall pp, In pp (tp_properties p) ->
              pp_count pp = count_where (fun e => PyDict.mem (pp_key pp) (snd e)) members) /\
  tp_count p = length members /\
  (forall e, In e members <->
             In e (nx.edges G) /\ PyDict.get "type" (snd e) = Some target_type) /\
  sublist members (nx.edges G).
Proof.
  intros Hp members connections. unfold profile_edge_type in Hp.
  fold members in Hp. fold connections in Hp.
  destruct (length members =? 0)%nat; [discriminate|].
  injection Hp as <-. simpl.
  set (entry := fun key => match presence key members with
                           | [] => []
                           | first :: _ =>
                               [{| pp_key := key;
                                   pp_count := length (presence key members);
                                   pp_kind := type_name_of first;
                                   pp_examples := [] |}]
                           end).
  assert (Hentry : forall key pp, In pp (entry key) ->
                                  pp_key pp = key /\
                                  pp_count pp = length (presence key members)).
  { intros key pp. unfold entry.
    destruct (presence key members); [intros []|]. intros [<-|[]]. now split. }
  split; [|split; [|split; [|split; [|split]]]].
  - split; [reflexivity|]. split; [apply firstn_le_length|]. split.
    + intros c k Hin. apply ProfileFacts.most_common_in in Hin.
      now apply ProfileFacts.Counter_entry.
    + intros c k c' Hin Hc' Hout.
      apply (ProfileFacts.most_common_top 5 (collections.Counter connections)
               (c, k) (c', count_where (String.eqb c') connections)); auto.
      * now apply ProfileFacts.Counter_has.
      * intros H. apply Hout. apply (in_map fst) in H. exact H.
  - intros key. rewrite in_map_iff. split.
    + intros [pp [Hk Hin]]. apply in_flat_map in Hin as [key' [Hks Hin]].
      destruct (Hentry key' pp Hin) as [E _]. rewrite E in Hk. subst key'.
      apply ProfileFacts.in_key_set in Hks as [Hne [d [Hd Hkd]]].
      split; [exact Hne|]. apply in_map_iff in Hd as [e [<- He]]. eauto.
    + intros [Hne [e [He Hk]]].
      assert (Hks : In key (key_set "type" (map snd (firstn 100 members)))).
      { apply ProfileFacts.in_key_set. split; [exact Hne|].
        exists (snd e). split; [now apply in_map | exact Hk]. }
      assert (Hpres : presence key members <> []).
      { apply (ProfileFacts.presence_nonempty key members e); [|exact Hk].
        rewrite <- (firstn_skipn 100 members). apply in_or_app. now left. }
      destruct (presence key members) as [|first rest] eqn:E; [congruence|].
      exists {| pp_key := key; pp_count := length (presence key members);
                pp_kind := type_name_of first; pp_examples := [] |}.
      split; [reflexivity|]. apply in_flat_map. exists key. split; [exact Hks|].
      fold (entry key). unfold entry. rewrite E. now left.
  - intros pp Hin. apply in_flat_map in Hin as [key [_ Hin]].
    destruct (Hentry key pp Hin) as [<- ->]. apply ProfileFacts.presence_length.
  - reflexivity.
  - intros e. unfold members, edges_of_type. rewrite filter_In, bool_decide_eq_true.
    reflexivity.
  - apply ProfileFacts.filter_sublist.
Qed.

(** C9 at work: the type LINK of the star folder.  The graph has 130 edges
    and 120 of them are of the type.  Among the first 50 the label of the
    type F occurs 3 times and is not kept, although it is the most frequent
    of the population; the key [late], which only the last 10 edges carry,
    is not profiled; the key [w] is counted on the 110 edges that carry it,
    beyond the first 100. *)
Lemma profile_edge_type_sampling_witness :
  exists p,
    profile_edge_type (build_graph (Some star_folder)) (VStr "LINK") = Some p /\
    nx.number_of_edges (build_graph (Some star_folder)) = 130%nat /\
    tp_count p = 120%nat /\
    tp_topology p = [("A->Inferred", 12%nat); ("B->Inferred", 11%nat); ("C->Inferred", 10%nat);
                     ("D->Inferred", 9%nat); ("E->Inferred", 5%nat)] /\
    count_where (String.eqb "F->Inferred")
      (map (connection (build_graph (Some star_folder)))
           (firstn 50 (edges_of_type (build_graph (Some star_folder)) (VStr "LINK")))) = 3%nat /\
    count_where (String.eqb "F->Inferred")
      (map (connection (build_graph (Some star_folder)))
           (edges_of_type (build_graph (Some star_folder)) (VStr "LINK"))) = 73%nat /\
    length (tp_properties p) = 3%nat /\
    In (":START_ID", 120%nat) (map (fun pp => (pp_key pp, pp_count pp)) (tp_properties p)) /\
    In (":END_ID", 120%nat) (map (fun pp => (pp_key pp, pp_count pp)) (tp_properties p)) /\
    In ("w", 110%nat) (map (fun pp => (pp_key pp, pp_count pp)) (tp_properties p)) /\
    edge_carriers (build_graph (Some star_folder)) (VStr "LINK") "late" = 10%nat /\
    edge_carriers (build_graph (Some star_folder)) (VStr "OTHER") "w" = 10%nat.
Proof.
  eexists. split; [vm_compute; reflexivity|].
  split; [vm_compute; reflexivity|].
  split.
  - etransitivity.
    + refine (proj1 (proj2 (proj2 (proj2
                (profile_edge_type_sampling (build_graph (Some star_folder))
                   (VStr "LINK") _ _))))).
      vm_compute. reflexivity.
    + vm_compute. reflexivity.
  - repeat split; try (vm_compute; reflexivity); vm_compute; tauto.
Defined.

(** ** Division of two counts against the literal 0.9 *)

Module DivFacts.
Local Open Scope Z_scope.

Lemma digits2_size p : digits2_pos p = Pos.size p.
Proof. induction p; simpl; congruence. Qed.

Lemma digits2_bounds p :
  2 ^ (Zpos (digits2_pos p) - 1) <= Zpos p < 2 ^ Zpos (digits2_pos p).
Proof.
  rewrite digits2_size. split.
  - pose proof (Pos.size_le p) as H.
    assert (H' : 2 ^ Zpos (Pos.size p) <= 2 * Zpos p).
    { rewrite <- Pos2Z.inj_pow. change (2 * Z.pos p) with (Z.pos p~0). now apply Pos2Z.pos_le_pos. }
    replace (Zpos (Pos.size p)) with (Z.succ (Zpos (Pos.size p) - 1)) in H' by lia.
    rewrite Z.pow_succ_r in H' by lia. lia.
  - pose proof (Pos.size_gt p) as H. rewrite <- Pos2Z.inj_pow. now apply Pos2Z.pos_lt_pos.
Qed.

Lemma digits2_unique p k :
  2 ^ (k - 1) <= Zpos p < 2 ^ k -> Zpos (digits2_pos p) = k.
Proof.
  intros [Hlo Hhi]. pose proof (digits2_bounds p) as [Dlo Dhi].
  set (d := Zpos (digits2_pos p)) in *.
  assert (0 < k).
  { destruct (Z.ltb_spec 0 k); [assumption|].
    exfalso. destruct (Z.eq_dec k 0) as [->|]; [simpl in Hhi; lia|].
    rewrite Z.pow_neg_r in Hhi by lia. lia. }
  destruct (Z.lt_trichotomy d k) as [Hlt|[Heq|Hgt]]; [|exact Heq|].
  - assert (2 ^ d <= 2 ^ (k - 1)) by (apply Z.pow_le_mono_r; lia). lia.
  - assert (2 ^ k <= 2 ^ (d - 1)) by (apply Z.pow_le_mono_r; lia). lia.
Qed.

Lemma iter_xO_val p k : Zpos (Pos.iter xO p k) = Zpos p * 2 ^ Zpos k.
Proof.
  induction k using Pos.peano_ind.
  - simpl. lia.
  - rewrite Pos.iter_succ, Pos2Z.inj_succ, Z.pow_succ_r by lia.
    rewrite Pos2Z.inj_xO, IHk. lia.
Qed.

Lemma loc_of_record m l : loc_of_shr_record (shr_record_of_loc m l) = l.
Proof. destruct l as [|[ | | ]]; reflexivity. Qed.

Lemma shr_m_record m l : shr_m (shr_record_of_loc m l) = m.
Proof. destruct l as [|[ | | ]]; reflexivity. Qed.

Lemma fexp_normal e : -1021 <= e -> fexp PyFloat.prec PyFloat.emax e = e - 53.
Proof. intros H. unfold fexp, emin, PyFloat.prec, PyFloat.emax. lia. Qed.

Lemma rne_range m l : Zpos m <= round_nearest_even (Zpos m) l <= Zpos m + 1.
Proof.
  destruct l as [|[ | | ]]; simpl; try lia.
  destruct m; simpl; lia.
Qed.

(* shr_fexp when no shift is needed *)
Lemma shr_fexp_53 m e l :
  Zpos (digits2_pos m) = 53 -> -1074 <= e ->
  shr_fexp PyFloat.prec PyFloat.emax (Zpos m) e l = (shr_record_of_loc (Zpos m) l, e).
Proof.
  intros Hd He. unfold shr_fexp. simpl Zdigits2. rewrite Hd.
  rewrite fexp_normal by lia. replace (53 + e - 53 - e) with 0 by lia. reflexivity.
Qed.

Lemma shr_fexp_54 m e l :
  Zpos (digits2_pos m) = 54 -> -1074 <= e ->
  shr_fexp PyFloat.prec PyFloat.emax (Zpos m) e l = (shr_1 (shr_record_of_loc (Zpos m) l), e + 1).
Proof.
  intros Hd He. unfold shr_fexp. simpl Zdigits2. rewrite Hd.
  rewrite fexp_normal by lia. replace (54 + e - 53 - e) with 1 by lia. reflexivity.
Qed.

Lemma bra_53 s m e l :
  Zpos (digits2_pos m) = 53 -> -1074 <= e <= 970 ->
  binary_round_aux PyFloat.prec PyFloat.emax s (Zpos m) e l =
  if round_nearest_even (Zpos m) l =? 2 ^ 53
  then S754_finite s (2 ^ 52)%positive (e + 1)
  else S754_finite s (Z.to_pos (round_nearest_even (Zpos m) l)) e.
Proof.
  intros Hd He. unfold binary_round_aux.
  rewrite shr_fexp_53 by (auto; lia).
  rewrite shr_m_record, loc_of_record.
  pose proof (rne_range m l) as Hr. pose proof (digits2_bounds m) as Hb. rewrite Hd in Hb.
  change (53 - 1) with 52 in Hb.
  destruct (round_nearest_even (Zpos m) l) as [|m'|m'] eqn:Em; try lia.
  destruct (Z.eqb_spec (Zpos m') (2 ^ 53)) as [E|E].
  - injection E as ->.
    rewrite (shr_fexp_54 (2 ^ 53)%positive) by (try reflexivity; lia).
    change (shr_m (shr_1 (shr_record_of_loc (Zpos (2 ^ 53)) loc_Exact)))
      with (Zpos (2 ^ 52)).
    cbv iota beta.
    destruct (Z.leb_spec (e + 1) (PyFloat.emax - PyFloat.prec)); [reflexivity | unfold PyFloat.emax, PyFloat.prec in *; lia].
  - rewrite shr_fexp_53; [| apply digits2_unique; change (53 - 1) with 52; lia | lia].
    simpl shr_m. cbv iota beta.
    destruct (Z.leb_spec e (PyFloat.emax - PyFloat.prec)); [reflexivity | unfold PyFloat.emax, PyFloat.prec in *; lia].
Qed.

Lemma bra_54 s m e l :
  Zpos (digits2_pos m) = 54 -> -1074 <= e <= 969 ->
  binary_round_aux PyFloat.prec PyFloat.emax s (Zpos m) e l =
  let mrs := shr_1 (shr_record_of_loc (Zpos m) l) in
  let m' := round_nearest_even (shr_m mrs) (loc_of_shr_record mrs) in
  if m' =? 2 ^ 53
  then S754_finite s (2 ^ 52)%positive (e + 2)
  else S754_finite s (Z.to_pos m') (e + 1).
Proof.
  intros Hd He. unfold binary_round_aux.
  rewrite shr_fexp_54 by (auto; lia).
  pose proof (digits2_bounds m) as Hb. rewrite Hd in Hb. change (54 - 1) with 53 in Hb.
  set (mrs := shr_1 (shr_record_of_loc (Zpos m) l)).
  assert (Hm : exists m1, shr_m mrs = Zpos m1 /\ 2 ^ 52 <= Zpos m1 < 2 ^ 53).
  { subst mrs. destruct m as [m1|m1|]; [| |simpl in Hb; lia].
    - exists m1. split; [destruct l as [|[ | | ]]; reflexivity|].
      rewrite Pos2Z.inj_xI in Hb. change (2 ^ 53) with (2 * 2 ^ 52) in Hb.
      change (2 ^ 54) with (2 * 2 ^ 53) in Hb. lia.
    - exists m1. split; [destruct l as [|[ | | ]]; reflexivity|].
      rewrite Pos2Z.inj_xO in Hb. change (2 ^ 53) with (2 * 2 ^ 52) in Hb.
      change (2 ^ 54) with (2 * 2 ^ 53) in Hb. lia. }
  destruct Hm as [m1 [Em1 Hb1]]. cbv zeta. rewrite Em1.
  pose proof (rne_range m1 (loc_of_shr_record mrs)) as Hr.
  destruct (round_nearest_even (Zpos m1) (loc_of_shr_record mrs)) as [|m'|m'] eqn:Em; try lia.
  destruct (Z.eqb_spec (Zpos m') (2 ^ 53)) as [E|E].
  - injection E as ->.
    rewrite (shr_fexp_54 (2 ^ 53)%positive) by (try reflexivity; lia).
    change (shr_m (shr_1 (shr_record_of_loc (Zpos (2 ^ 53)) loc_Exact)))
      with (Zpos (2 ^ 52)).
    cbv iota beta. replace (e + 1 + 1) with (e + 2) by lia.
    destruct (Z.leb_spec (e + 2) (PyFloat.emax - PyFloat.prec)); [reflexivity | unfold PyFloat.emax, PyFloat.prec in *; lia].
  - rewrite shr_fexp_53; [| apply digits2_unique; change (53 - 1) with 52; lia | lia].
    simpl shr_m. cbv iota beta.
    destruct (Z.leb_spec (e + 1) (PyFloat.emax - PyFloat.prec)); [reflexivity | unfold PyFloat.emax, PyFloat.prec in *; lia].
Qed.

Lemma digits2_le_53 p : Zpos p < 2 ^ 53 -> Zpos (digits2_pos p) <= 53.
Proof.
  intros H. pose proof (digits2_bounds p) as [Hlo _].
  destruct (Z.leb_spec (Zpos (digits2_pos p)) 53) as [|Hgt]; [assumption|].
  assert (2 ^ 53 <= 2 ^ (Zpos (digits2_pos p) - 1)) by (apply Z.pow_le_mono_r; lia). lia.
Qed.

Lemma of_int_pos p :
  Zpos p < 2 ^ 53 ->
  exists m, PyFloat.of_int (Zpos p) = S754_finite false m (Zpos (digits2_pos p) - 53) /\
            Zpos (digits2_pos m) = 53 /\
            Zpos m = Zpos p * 2 ^ (53 - Zpos (digits2_pos p)).
Proof.
  intros Hp. pose proof (digits2_le_53 p Hp) as Hd.
  pose proof (digits2_bounds p) as Hb.
  unfold PyFloat.of_int, binary_normalize, binary_round.
  rewrite fexp_normal by lia. rewrite Z.add_0_r.
  unfold shl_align.
  destruct (Zpos (digits2_pos p) - 53 - 0) as [|k|k] eqn:Ek; try lia.
  - assert (E53 : Zpos (digits2_pos p) = 53) by lia.
    exists p. rewrite E53 in *. change (53 - 53) with 0.
    rewrite bra_53 by (auto; lia). simpl round_nearest_even.
    destruct (Z.eqb_spec (Zpos p) (2 ^ 53)); [lia|].
    repeat split; auto. lia.
  - set (m := Pos.iter xO p k).
    assert (Em : Zpos m = Zpos p * 2 ^ (53 - Zpos (digits2_pos p))).
    { subst m. rewrite iter_xO_val. f_equal. f_equal. lia. }
    assert (Hm : Zpos (digits2_pos m) = 53).
    { apply digits2_unique. rewrite Em. change (53 - 1) with 52.
      set (d := Zpos (digits2_pos p)) in *.
      replace (2 ^ 52) with (2 ^ (d - 1) * 2 ^ (53 - d))
        by (rewrite <- Z.pow_add_r by lia; f_equal; lia).
      replace (2 ^ 53) with (2 ^ d * 2 ^ (53 - d))
        by (rewrite <- Z.pow_add_r by lia; f_equal; lia).
      assert (0 < 2 ^ (53 - d)) by (apply Z.pow_pos_nonneg; lia).
      split; [apply Z.mul_le_mono_nonneg_r | apply Z.mul_lt_mono_pos_r]; lia. }
    exists m. rewrite bra_53 by (auto; lia). simpl round_nearest_even.
    pose proof (digits2_bounds m) as Hbm. rewrite Hm in Hbm.
    destruct (Z.eqb_spec (Zpos m) (2 ^ 53)); [lia|].
    repeat split; auto.
Qed.

Lemma new_location_spec my r :
  0 < my -> 0 <= r < my ->
  new_location my r = if r =? 0 then loc_Exact else loc_Inexact (2 * r ?= my).
Proof.
  intros Hmy Hr. unfold new_location, new_location_even, new_location_odd.
  destruct (Z.even my) eqn:Ev; destruct (Z.eqb_spec r 0); try reflexivity.
  f_equal.
  assert (Hodd : Z.odd my = true) by (rewrite <- Z.negb_even, Ev; reflexivity).
  apply Z.odd_spec in Hodd as [k Hk].
  destruct (Z.compare_spec (2 * r + 1) my); destruct (Z.compare_spec (2 * r) my);
    try reflexivity; lia.
Qed.

Lemma div_normal mx ex my ey :
  Zpos (digits2_pos mx) = 53 -> Zpos (digits2_pos my) = 53 ->
  -52 <= ex <= 0 -> -52 <= ey <= 0 ->
  PyFloat.div (S754_finite false mx ex) (S754_finite false my ey) =
  binary_round_aux PyFloat.prec PyFloat.emax false (Zpos mx * 2 ^ 53 / Zpos my) (ex - ey - 53)
    (new_location (Zpos my) ((Zpos mx * 2 ^ 53) mod Zpos my)).
Proof.
  intros Hx Hy Hex Hey. unfold PyFloat.div, SFdiv, SFdiv_core_binary.
  simpl Zdigits2. rewrite Hx, Hy.
  replace (53 + ex - (53 + ey)) with (ex - ey) by lia.
  rewrite fexp_normal by lia.
  rewrite Z.min_l by lia.
  replace (ex - ey - (ex - ey - 53)) with 53 by lia.
  cbv iota beta. rewrite Z.shiftl_mul_pow2 by lia.
  unfold Z.div, Z.modulo.
  destruct (Z.div_eucl (Zpos mx * 2 ^ 53) (Zpos my)) as [q r]. reflexivity.
Qed.

Lemma gtb_09 mz ez :
  PyFloat.gtb (S754_finite false mz ez) PyFloat.lit_0_9 = true <->
  -53 < ez \/ (ez = -53 /\ mantissa_0_9 < Zpos mz).
Proof.
  unfold PyFloat.gtb, PyFloat.lit_0_9, SFltb, SFcompare, mantissa_0_9.
  destruct (Z.compare_spec (-53) ez) as [E|E|E].
  - subst ez. change (Pos.compare_cont Eq ?a ?b) with (Pos.compare a b).
    rewrite Pos2Z.inj_compare.
    destruct (Z.compare_spec 8106479329266893 (Zpos mz)) as [C|C|C].
    + split; [discriminate|]. intros [H|[_ H]]; exfalso; lia.
    + split; [|reflexivity]. intros _. right. split; [reflexivity|]. lia.
    + split; [discriminate|]. intros [H|[_ H]]; exfalso; lia.
  - split; [intros _; now left | reflexivity].
  - split; [discriminate|]. intros [H|[H _]]; exfalso; lia.
Qed.

Lemma threshold_exact h n :
  0 < n < 2 ^ 50 -> 0 <= h ->
  (2 * mantissa_0_9 + 1) * n <= 2 ^ 54 * h <-> 9 * n < 10 * h.
Proof.
  unfold mantissa_0_9. change (2 ^ 50) with 1125899906842624.
  change (2 ^ 54) with 18014398509481984. lia.
Qed.

Lemma quotient_ge X N q r K :
  0 < N -> X = q * N + r -> 0 <= r < N -> (K <= q <-> K * N <= X).
Proof. intros HN -> Hr. split; intros H; nia. Qed.

Lemma quotient_half X N q r K :
  0 < N -> X = q * N + r -> 0 <= r < N ->
  (K + 1 <= q \/ (q = K /\ N <= 2 * r) <-> (2 * K + 1) * N <= 2 * X).
Proof. intros HN -> Hr. split; [intros [H|[-> H]]|intros H]; nia. Qed.

Lemma rne_above q N r :
  0 < N -> 0 <= r < N -> 0 <= q ->
  (mantissa_0_9 < round_nearest_even q (if r =? 0 then loc_Exact else loc_Inexact (2 * r ?= N)) <->
   mantissa_0_9 + 1 <= q \/ (q = mantissa_0_9 /\ N <= 2 * r)).
Proof.
  intros HN Hr Hq. unfold mantissa_0_9.
  destruct (Z.eqb_spec r 0) as [->|Hr0].
  - simpl. lia.
  - destruct (Z.compare_spec (2 * r) N); unfold round_nearest_even; try lia.
    destruct (Z.even q) eqn:Ev; [|lia].
    apply Z.even_spec in Ev as [k ->]. lia.
Qed.

Lemma rne54_above q l :
  0 < q ->
  (mantissa_0_9 < round_nearest_even (shr_m (shr_1 (shr_record_of_loc q l)))
           (loc_of_shr_record (shr_1 (shr_record_of_loc q l))) <->
   2 * mantissa_0_9 + 1 <= q).
Proof.
  intros Hq. unfold mantissa_0_9. destruct q as [|p|p]; try lia.
  destruct p as [p|p|]; destruct l as [|[ | | ]]; cbn [shr_record_of_loc shr_1 shr_m loc_of_shr_record orb round_nearest_even];
    try lia;
    try (destruct (Z.even (Zpos p)) eqn:Ev; [apply Z.even_spec in Ev as [k Ek]|]; lia);
    simpl; lia.
Qed.

Lemma digits2_mono p q : Zpos p <= Zpos q -> Zpos (digits2_pos p) <= Zpos (digits2_pos q).
Proof.
  intros H. pose proof (digits2_bounds p) as [Hp _]. pose proof (digits2_bounds q) as [_ Hq].
  destruct (Z.leb_spec (Zpos (digits2_pos p)) (Zpos (digits2_pos q))) as [|Hgt]; [assumption|].
  assert (2 ^ Zpos (digits2_pos q) <= 2 ^ (Zpos (digits2_pos p) - 1))
    by (apply Z.pow_le_mono_r; lia). lia.
Qed.

Lemma digits2_le p k : 0 <= k -> Zpos p < 2 ^ k -> Zpos (digits2_pos p) <= k.
Proof.
  intros Hk H. pose proof (digits2_bounds p) as [Hlo _].
  destruct (Z.leb_spec (Zpos (digits2_pos p)) k) as [|Hgt]; [assumption|].
  assert (2 ^ k <= 2 ^ (Zpos (digits2_pos p) - 1)) by (apply Z.pow_le_mono_r; lia). lia.
Qed.

Lemma rne54_pos q l :
  2 <= q ->
  0 < round_nearest_even (shr_m (shr_1 (shr_record_of_loc q l)))
        (loc_of_shr_record (shr_1 (shr_record_of_loc q l))).
Proof.
  intros Hq. destruct q as [|p|p]; try lia.
  destruct p as [p|p|]; destruct l as [|[ | | ]];
    cbn [shr_record_of_loc shr_1 shr_m loc_of_shr_record orb round_nearest_even];
    try lia; destruct (Z.even (Zpos p)); lia.
Qed.

Lemma scale_cancel A B h n b :
  0 < b -> (A * (n * b) <= B * (h * b) <-> A * n <= B * h).
Proof.
  intros Hb. rewrite !Z.mul_assoc. symmetry. now apply Z.mul_le_mono_pos_r.
Qed.

Lemma small_quotient h n b t c :
  0 < b -> 0 < h -> 0 < c -> 2 * c <= t -> h * (b * t) < c * (n * b) -> 2 * h < n.
Proof.
  intros Hb Hh Hc Ht H.
  assert (H1 : h * t * b < c * n * b) by (rewrite <- !Z.mul_assoc, (Z.mul_comm t b); lia).
  apply Z.mul_lt_mono_pos_r in H1; [|exact Hb].
  assert (H2 : h * (2 * c) <= h * t) by (apply Z.mul_le_mono_nonneg_l; lia).
  assert (H3 : c * (2 * h) < c * n) by lia.
  apply Z.mul_lt_mono_pos_l in H3; [exact H3 | exact Hc].
Qed.

Lemma truediv_gt_09 (h n : positive) :
  Zpos h <= Zpos n < 2 ^ 50 ->
  PyFloat.gtb (PyFloat.truediv (Zpos h) (Zpos n)) PyFloat.lit_0_9 = true <-> 9 * Zpos n < 10 * Zpos h.
Proof.
  intros [Hle Hn].
  assert (Hn53 : Zpos n < 2 ^ 53).
  { change (2 ^ 50) with 1125899906842624 in Hn. change (2 ^ 53) with 9007199254740992. lia. }
  destruct (of_int_pos h) as (mx & Ex & Dx & Vx); [lia|].
  destruct (of_int_pos n) as (my & Ey & Dy & Vy); [lia|].
  pose proof (digits2_mono h n Hle) as Hd.
  pose proof (digits2_le n 50 ltac:(lia) Hn) as Hdn.
  assert (Hdh : 1 <= Zpos (digits2_pos h)) by lia.
  set (dh := Zpos (digits2_pos h)) in *. set (dn := Zpos (digits2_pos n)) in *.
  clearbody dh dn.
  unfold PyFloat.truediv. rewrite Ex, Ey. rewrite div_normal by (auto; lia).
  pose proof (digits2_bounds mx) as Bx. rewrite Dx in Bx. change (53 - 1) with 52 in Bx.
  pose proof (digits2_bounds my) as By. rewrite Dy in By. change (53 - 1) with 52 in By.
  assert (Hb : 8 <= 2 ^ (53 - dn)).
  { change 8 with (2 ^ 3). apply Z.pow_le_mono_r; lia. }
  assert (Ha : 2 ^ (53 - dh) = 2 ^ (53 - dn) * 2 ^ (dn - dh)).
  { rewrite <- Z.pow_add_r by lia. f_equal. lia. }
  rewrite Ha in Vx.
  assert (Ht : 0 < 2 ^ (dn - dh)) by (apply Z.pow_pos_nonneg; lia).
  set (b := 2 ^ (53 - dn)) in *. set (t := 2 ^ (dn - dh)) in *.
  assert (Hgap : (dn = dh /\ t = 1) \/ (dn = dh + 1 /\ t = 2) \/ (dh + 2 <= dn /\ 4 <= t)).
  { destruct (Z.eq_dec dn dh) as [E|E]; [left; split; [exact E|]|].
    - subst t. rewrite E, Z.sub_diag. reflexivity.
    - destruct (Z.eq_dec dn (dh + 1)) as [E1|E1]; right; [left|right]; split; try lia.
      + subst t. rewrite E1. replace (dh + 1 - dh) with 1 by lia. reflexivity.
      + subst t. change 4 with (2 ^ 2). apply Z.pow_le_mono_r; lia. }
  clearbody b t. clear Ha.
  set (H := Zpos mx) in *. set (N := Zpos my) in *.
  change (2 ^ 52) with 4503599627370496 in *.
  change (2 ^ 53) with 9007199254740992 in *.
  set (X := H * 9007199254740992).
  assert (HN : 0 < N) by lia.
  pose proof (Z.div_mod X N ltac:(lia)) as Hdm.
  pose proof (Z.mod_pos_bound X N HN) as Hr.
  assert (Hq : 4503599627370496 <= X / N < 18014398509481984).
  { split; [apply Z.div_le_lower_bound | apply Z.div_lt_upper_bound]; subst X; lia. }
  set (q := X / N) in *. set (r := X mod N) in *.
  assert (HX : X = q * N + r) by lia. clear Hdm.
  clearbody q r.
  rewrite new_location_spec by lia.
  destruct q as [|qp|qp]; try lia.
  pose proof (quotient_ge X N (Zpos qp) r 9007199254740992 HN HX Hr) as Hcut.
  pose proof (threshold_exact (Zpos h) (Zpos n) ltac:(lia) ltac:(lia)) as Hthr.
  destruct (Z.ltb_spec (Zpos qp) 9007199254740992) as [Hq53|Hq54].
  - (* a quotient of 53 digits: the dividend mantissa is the smaller one *)
    assert (HHN : H < N) by (subst X; lia).
    assert (Dq : Zpos (digits2_pos qp) = 53).
    { apply digits2_unique. change (2 ^ (53 - 1)) with 4503599627370496.
      change (2 ^ 53) with 9007199254740992. lia. }
    rewrite bra_53 by (auto; lia).
    pose proof (rne_above (Zpos qp) N r HN Hr ltac:(lia)) as Habove.
    pose proof (rne_range qp (if r =? 0 then loc_Exact else loc_Inexact (2 * r ?= N))) as Hrange.
    pose proof (quotient_half X N (Zpos qp) r mantissa_0_9 HN HX Hr) as Hhalf.
    set (m' := round_nearest_even (Zpos qp) _) in *. clearbody m'.
    change (2 ^ 53) with 9007199254740992.
    destruct Hgap as [[Hg Et]|Hg].
    + (* same number of digits *)
      subst dn t. rewrite Z.mul_1_r in Vx.
      assert (Hscale : (2 * mantissa_0_9 + 1) * N <= 2 * X <-> 9 * Zpos n < 10 * Zpos h).
      { rewrite <- Hthr. subst X. rewrite Vx, Vy.
        replace (2 * (Zpos h * b * 9007199254740992)) with (2 ^ 54 * (Zpos h * b))
          by (change (2 ^ 54) with 18014398509481984; lia).
        apply scale_cancel. lia. }
      rewrite <- Hscale, <- Hhalf, <- Habove.
      destruct (Z.eqb_spec m' 9007199254740992) as [Eo|Eo]; rewrite gtb_09.
      * unfold mantissa_0_9. split; [intros _; lia | intros _; left; lia].
      * rewrite Z2Pos.id by lia. split; [intros [?|[_ ?]]; [lia | assumption]|].
        intros Hm. right. split; [lia | exact Hm].
    + (* fewer digits: the quotient is below one half *)
      assert (Hsmall : 2 * Zpos h < Zpos n).
      { apply (small_quotient (Zpos h) (Zpos n) b t 1); lia. }
      destruct (Z.eqb_spec m' 9007199254740992) as [Eo|Eo]; rewrite gtb_09.
      * change (Zpos (2 ^ 52)) with 4503599627370496. unfold mantissa_0_9.
        split; [intros [?|[_ ?]]; lia | lia].
      * split; [intros [?|[? _]]; lia | lia].
  - (* a quotient of 54 digits: the dividend mantissa is the larger one *)
    assert (HNH : N <= H) by (subst X; lia).
    assert (Dq : Zpos (digits2_pos qp) = 54).
    { apply digits2_unique. change (2 ^ (54 - 1)) with 9007199254740992.
      change (2 ^ 54) with 18014398509481984. lia. }
    rewrite bra_54 by (auto; lia). cbv zeta.
    pose proof (rne54_above (Zpos qp)
                  (if r =? 0 then loc_Exact else loc_Inexact (2 * r ?= N)) ltac:(lia))
      as Habove.
    pose proof (rne54_pos (Zpos qp)
                  (if r =? 0 then loc_Exact else loc_Inexact (2 * r ?= N)) ltac:(lia))
      as Hpos.
    pose proof (quotient_ge X N (Zpos qp) r (2 * mantissa_0_9 + 1) HN HX Hr) as Hge.
    set (m' := round_nearest_even _ _) in *. clearbody m'.
    change (2 ^ 53) with 9007199254740992.
    destruct Hgap as [[Hg Et]|[[Hg Et]|[Hg Et]]].
    + (* same number of digits: the two integers are equal *)
      subst dn t. rewrite Z.mul_1_r in Vx.
      assert (HHN : H <= N).
      { rewrite Vx, Vy. apply Z.mul_le_mono_nonneg_r; lia. }
      assert (Ehn : Zpos h = Zpos n).
      { apply (Z.mul_reg_r _ _ b); lia. }
      destruct (Z.eqb_spec m' 9007199254740992) as [Eo|Eo]; rewrite gtb_09;
        (split; [intros _; lia | intros _; left; lia]).
    + (* one digit less *)
      subst dn t.
      assert (Hscale : (2 * mantissa_0_9 + 1) * N <= X <-> 9 * Zpos n < 10 * Zpos h).
      { rewrite <- Hthr. subst X. rewrite Vx, Vy.
        replace (Zpos h * (b * 2) * 9007199254740992) with (2 ^ 54 * (Zpos h * b))
          by (change (2 ^ 54) with 18014398509481984; lia).
        apply scale_cancel. lia. }
      rewrite <- Hscale, <- Hge, <- Habove.
      destruct (Z.eqb_spec m' 9007199254740992) as [Eo|Eo]; rewrite gtb_09.
      * unfold mantissa_0_9. split; [intros _; lia | intros _; left; lia].
      * rewrite Z2Pos.id by lia. split; [intros [?|[_ ?]]; [lia | assumption]|].
        intros Hm. right. split; [lia | exact Hm].
    + (* at least two digits less: the quotient is below one half *)
      assert (Hsmall : 2 * Zpos h < Zpos n).
      { apply (small_quotient (Zpos h) (Zpos n) b t 2); lia. }
      destruct (Z.eqb_spec m' 9007199254740992) as [Eo|Eo]; rewrite gtb_09.
      * change (Zpos (2 ^ 52)) with 4503599627370496. unfold mantissa_0_9.
        split; [intros [?|[_ ?]]; lia | lia].
      * split; [intros [?|[? _]]; lia | lia].
Qed.

End DivFacts.

(** ** Mandatory properties *)

Lemma count_where_le {A} (p : A -> bool) l : (count_where p l <= length l)%nat.
Proof. unfold count_where. apply List.filter_length_le. Qed.

(** The flag on counts: the quotient of the two floats is above the
    literal 0.9 exactly when ten times the carriers exceed nine times the
    population, for populations below [2^50]. *)
Lemma is_mandatory_iff (has_prop_count population : nat) :
  (0 < population)%nat -> (Z.of_nat population < 2 ^ 50)%Z ->
  (has_prop_count <= population)%nat ->
  is_mandatory has_prop_count population = true <->
  (9 * population < 10 * has_prop_count)%nat.
Proof.
  intros Hn Hbig Hle. unfold is_mandatory.
  destruct population as [|n']; [lia|].
  change (Z.of_nat (S n')) with (Zpos (Pos.of_succ_nat n')) in *.
  pose proof (Zpos_P_of_succ_nat n') as En.
  destruct has_prop_count as [|h'].
  - split; [|lia]. unfold PyFloat.truediv.
    destruct (DivFacts.of_int_pos (Pos.of_succ_nat n')) as (my & Ey & _).
    { change (2 ^ 53)%Z with 9007199254740992%Z.
      change (2 ^ 50)%Z with 1125899906842624%Z in Hbig. lia. }
    rewrite Ey. discriminate.
  - change (Z.of_nat (S h')) with (Zpos (Pos.of_succ_nat h')).
    pose proof (Zpos_P_of_succ_nat h') as Eh.
    rewrite DivFacts.truediv_gt_09 by lia. lia.
Qed.

Lemma mock_node_flag G e p :
  In e (mock_node_types G) -> In p (te_properties e) ->
  (0 < length (nodes_of_type G (te_name e)))%nat /\
  mandatory p = is_mandatory (node_carriers G (te_name e) (name p))
                             (length (nodes_of_type G (te_name e))).
Proof.
  unfold mock_node_types. intros He Hp. apply in_flat_map in He as [nt [_ He]].
  destruct (nodes_of_type G nt) as [|sample rest] eqn:Em; [destruct He|].
  destruct He as [<-|[]]. simpl in *. rewrite Em. split; [simpl; lia|].
  unfold mock_node_properties in Hp. apply in_flat_map in Hp as [kv [_ Hp]].
  destruct (String.eqb (fst kv) "node_type"); [destruct Hp|].
  destruct Hp as [<-|[]]. simpl. unfold node_carriers. now rewrite Em.
Qed.

Lemma mock_edge_flag G e p :
  In e (mock_edge_types G) -> In p (te_properties e) ->
  (0 < length (edges_of_type G (te_name e)))%nat /\
  mandatory p = is_mandatory (edge_carriers G (te_name e) (name p))
                             (length (edges_of_type G (te_name e))).
Proof.
  unfold mock_edge_types. intros He Hp. apply in_flat_map in He as [et [_ He]].
  destruct (edges_of_type G et) as [|sample rest] eqn:Em; [destruct He|].
  destruct He as [<-|[]]. simpl in *. rewrite Em. split; [simpl; lia|].
  unfold mock_edge_properties in Hp. apply in_flat_map in Hp as [kv [_ Hp]].
  destruct (String.eqb (fst kv) "type"); [destruct Hp|].
  destruct Hp as [<-|[]]. simpl. unfold edge_carriers. now rewrite Em.
Qed.

(** C1, as stated: of ten nodes of one type, nine carry [p]; the stated
    rule marks [p] mandatory.  The fallback does not: 9/10 is the literal
    0.9 and is not strictly above it. *)
Lemma nine_of_ten_not_mandatory :
  length (nodes_of_type (build_graph (Some [neurons_with_p 9; neurons_without_p 10 1]))
            (VStr "Neuron")) = 10%nat /\
  node_carriers (build_graph (Some [neurons_with_p 9; neurons_without_p 10 1]))
    (VStr "Neuron") "p" = 9%nat /\
  flag_of (node_types (generate_mock_schema
                         (build_graph (Some [neurons_with_p 9; neurons_without_p 10 1]))))
    (VStr "Neuron") "p" = Some false.
Proof. repeat split; vm_compute; reflexivity. Qed.

(** C1, amended: a property of a node type or of an edge type is marked
    mandatory exactly when more than 90% of the population of the type
    carries the key, that is when ten times the carriers exceed nine times
    the population (for populations below [2^50]).  In a type of ten nodes
    a property that all ten carry is mandatory; one that nine carry, or
    eight, is not. *)
Theorem mandatory_threshold (G : DiGraph) (e : type_entry) (p : property) :
  In p (te_properties e) ->
  (In e (node_types (generate_mock_schema G)) ->
   (Z.of_nat (length (nodes_of_type G (te_name e))) < 2 ^ 50)%Z ->
   (mandatory p = true <->
    (9 * length (nodes_of_type G (te_name e))
     < 10 * node_carriers G (te_name e) (name p))%nat)) /\
  (In e (edge_types (generate_mock_schema G)) ->
   (Z.of_nat (length (edges_of_type G (te_name e))) < 2 ^ 50)%Z ->
   (mandatory p = true <->
    (9 * length (edges_of_type G (te_name e))
     < 10 * edge_carriers G (te_name e) (name p))%nat)) /\
  (is_mandatory 10 10 = true /\ is_mandatory 9 10 = false /\ is_mandatory 8 10 = false) /\
  (flag_of (node_types (generate_mock_schema (build_graph (Some [neurons_with_p 10]))))
     (VStr "Neuron") "p" = Some true /\
   flag_of (node_types (generate_mock_schema
                          (build_graph (Some [neurons_with_p 9; neurons_without_p 10 1]))))
     (VStr "Neuron") "p" = Some false /\
   flag_of (node_types (generate_mock_schema
                          (build_graph (Some [neurons_with_p 8; neurons_without_p 9 2]))))
     (VStr "Neuron") "p" = Some false).
Proof.
  intros Hp. split; [|split; [|split]].
  - intros He Hbig. destruct (mock_node_flag G e p He Hp) as [Hpos ->].
    apply is_mandatory_iff; auto. apply count_where_le.
  - intros He Hbig. destruct (mock_edge_flag G e p He Hp) as [Hpos ->].
    apply is_mandatory_iff; auto. apply count_where_le.
  - repeat split; vm_compute; reflexivity.
  - repeat split; vm_compute; reflexivity.
Qed.

(** C1 at work: the property [p] of ten nodes that all carry it. *)
Lemma mandatory_threshold_witness :
  (9 * length (nodes_of_type (build_graph (Some [neurons_with_p 10])) (VStr "Neuron"))
   < 10 * node_carriers (build_graph (Some [neurons_with_p 10])) (VStr "Neuron") "p")%nat.
Proof.
  refine (proj1 (proj1 (mandatory_threshold (build_graph (Some [neurons_with_p 10]))
                          {| te_name := VStr "Neuron";
                             te_properties :=
                               [{| name := ":ID"; type := "String"; mandatory := true |};
                                {| name := "p"; type := "Long"; mandatory := true |}] |}
                          {| name := "p"; type := "Long"; mandatory := true |} _) _ _) _).
  - right. now left.
  - vm_compute. now left.
  - vm_compute. reflexivity.
  - reflexivity.
Defined.

(** * Further properties of the sources *)

(** ** File names and roles *)

Module NameFacts.

Lemma after_last_slash_app dir file acc :
  PyPath.after_last_slash (dir ++ String "/" file) acc = PyPath.after_last_slash file file.
Proof.
  revert acc. induction dir as [|c dir IH]; intros acc; simpl; [reflexivity|].
  destruct (Ascii.eqb c "/"); apply IH.
Qed.

Lemma contains_cons needle c hay :
  PyStr.contains needle (String c hay) = false ->
  String.prefix needle (String c hay) = false /\ PyStr.contains needle hay = false.
Proof.
  change (PyStr.contains needle (String c hay))
    with (if String.prefix needle (String c hay) then true else PyStr.contains needle hay).
  destruct (String.prefix needle (String c hay)); [discriminate|].
  intros H. now split.
Qed.

Lemma contains_char_cons c a s :
  PyStr.contains (String c "") (String a s) = false ->
  Ascii.eqb a c = false /\ PyStr.contains (String c "") s = false.
Proof.
  intros H. apply contains_cons in H as [Hp Hc]. split; [|exact Hc].
  simpl in Hp. destruct (ascii_dec c a) as [->|Hne].
  - destruct s; discriminate.
  - apply Ascii.eqb_neq. congruence.
Qed.

Lemma after_last_slash_none s acc :
  PyStr.contains "/" s = false -> PyPath.after_last_slash s acc = acc.
Proof.
  revert acc. induction s as [|a s IH]; intros acc H; simpl; [reflexivity|].
  apply contains_char_cons in H as [-> H]. now apply IH.
Qed.

Lemma contains_app_char c s t :
  PyStr.contains (String c "") s = false -> PyStr.contains (String c "") t = false ->
  PyStr.contains (String c "") (s ++ t) = false.
Proof.
  intros Hs Ht. induction s as [|a s IH]; simpl; [exact Ht|].
  apply contains_char_cons in Hs as [Ha Hs].
  destruct (ascii_dec c a) as [->|Hne].
  - now rewrite Ascii.eqb_refl in Ha.
  - now apply IH.
Qed.

Lemma last_ext_dot_stem stem rest pos seen best :
  PyStr.contains "." stem = false ->
  PyPath.last_ext_dot (stem ++ rest) pos seen best =
  PyPath.last_ext_dot rest (pos + String.length stem) (seen || PyStr.truthy stem) best.
Proof.
  revert pos seen. induction stem as [|a s IH]; intros pos seen H.
  - simpl. now rewrite Nat.add_0_r, orb_false_r.
  - apply contains_char_cons in H as [Ha H]. simpl. rewrite Ha, IH by exact H.
    rewrite orb_true_r. simpl.
    now rewrite Nat.add_succ_r.
Qed.

Lemma last_ext_dot_tail ext pos best :
  PyStr.contains "." ext = false ->
  PyPath.last_ext_dot ext pos true best = best.
Proof.
  revert pos. induction ext as [|a s IH]; intros pos H; simpl; [reflexivity|].
  apply contains_char_cons in H as [-> H]. now apply IH.
Qed.

Lemma substring_prefix s t : String.substring 0 (String.length s) (s ++ t) = s.
Proof.
  induction s as [|a s IH]; simpl.
  - now destruct t.
  - now rewrite IH.
Qed.

Lemma splitext_root_csv stem ext :
  stem <> "" -> PyStr.contains "." stem = false -> PyStr.contains "." ext = false ->
  PyPath.splitext_root (stem ++ "." ++ ext) = stem.
Proof.
  intros Hne Hs He. unfold PyPath.splitext_root.
  rewrite last_ext_dot_stem by exact Hs. simpl.
  assert (Ht : PyStr.truthy stem = true) by (destruct stem; [congruence | reflexivity]).
  rewrite Ht. simpl. rewrite last_ext_dot_tail by exact He.
  apply substring_prefix.
Qed.

Lemma sub_ci_absent pat s :
  PyStr.contains (PyStr.lower pat) (PyStr.lower s) = false -> PyPath.sub_ci pat s = s.
Proof.
  unfold PyPath.sub_ci. induction s as [|a s IH]; intros H; [reflexivity|].
  change (PyStr.lower (String a s)) with (String (PyStr.lower_ascii a) (PyStr.lower s)) in H.
  apply contains_cons in H as [Hp Hc].
  cbn [PyPath.sub_ci_from].
  change (PyStr.lower (String a s)) with (String (PyStr.lower_ascii a) (PyStr.lower s)).
  rewrite Hp. f_equal. now apply IH.
Qed.

Lemma existsb_Permutation {A} (p : A -> bool) l l' :
  Permutation l l' -> existsb p l = existsb p l'.
Proof.
  induction 1; simpl; try congruence.
  destruct (p x), (p y); reflexivity.
Qed.

End NameFacts.

(** X1: the type name of a file does not depend on the folder that holds it. *)
Theorem clean_type_name_folder (dir file : string) :
  clean_type_name (dir ++ "/" ++ file) = clean_type_name file.
Proof.
  unfold clean_type_name, PyPath.basename.
  change (dir ++ "/" ++ file) with (dir ++ String "/" file).
  rewrite NameFacts.after_last_slash_app.
  reflexivity.
Qed.

(** X2: a file [stem.csv] whose stem is ASCII text and has no dot, no slash
    and none of the dataset tags, in any letter case, gives its stem as
    type name. *)
Theorem clean_type_name_plain (dir stem : string) :
  stem <> "" -> is_ascii stem = true ->
  PyStr.contains "/" stem = false -> PyStr.contains "." stem = false ->
  (forall tag, In tag dataset_tags ->
               PyStr.contains (PyStr.lower tag) (PyStr.lower stem) = false) ->
  clean_type_name (dir ++ "/" ++ stem ++ ".csv") = stem.
Proof.
  intros Hne _ Hslash Hdot Htags.
  unfold clean_type_name, PyPath.basename.
  change (dir ++ "/" ++ stem ++ ".csv") with (dir ++ String "/" (stem ++ ".csv")).
  rewrite NameFacts.after_last_slash_app.
  rewrite NameFacts.after_last_slash_none
    by (apply NameFacts.contains_app_char; [exact Hslash | reflexivity]).
  change (stem ++ ".csv") with (stem ++ "." ++ "csv").
  rewrite NameFacts.splitext_root_csv by (auto; reflexivity).
  rewrite (NameFacts.sub_ci_absent "Neuprint_" stem) by (apply Htags; simpl; auto).
  rewrite (NameFacts.sub_ci_absent "_fib25" stem) by (apply Htags; simpl; auto).
  rewrite (NameFacts.sub_ci_absent "_hemibrain" stem) by (apply Htags; simpl; auto).
  apply NameFacts.sub_ci_absent, Htags. simpl; auto.
Qed.

(** X2 at work: a file of an upload folder. *)
Lemma clean_type_name_plain_witness :
  clean_type_name ("uploads/job_1" ++ "/" ++ "Person" ++ ".csv") = "Person".
Proof.
  apply (clean_type_name_plain "uploads/job_1" "Person").
  - discriminate.
  - reflexivity.
  - reflexivity.
  - reflexivity.
  - intros tag [<-|[<-|[<-|[<-|[]]]]]; reflexivity.
Defined.

(** X3: the role of a file does not depend on the order of its columns. *)
Theorem detect_file_role_order (cols cols' : list string) :
  Permutation cols cols' ->
  tag_of (detect_file_role cols) = tag_of (detect_file_role cols').
Proof.
  intros Hp. rewrite !detect_file_role_code. unfold code_role_tag.
  rewrite (NameFacts.existsb_Permutation is_start_col _ _ Hp),
    (NameFacts.existsb_Permutation is_end_col _ _ Hp),
    (NameFacts.existsb_Permutation (PyStr.contains ":ID") _ _ Hp),
    (NameFacts.existsb_Permutation (fun c => PyStr.contains "id" (PyStr.lower c)) _ _ Hp).
  reflexivity.
Qed.

(** X3 at work: two orders of the columns of an edge file. *)
Lemma detect_file_role_order_witness :
  tag_of (detect_file_role ["weight"; ":END_ID"; ":START_ID"]) =
  tag_of (detect_file_role [":END_ID"; "weight"; ":START_ID"]).
Proof.
  apply (detect_file_role_order ["weight"; ":END_ID"; ":START_ID"]
           [":END_ID"; "weight"; ":START_ID"]).
  apply perm_swap.
Defined.

(** ** Nodes of the built graph *)

Module NodeFacts.

Lemma edges_add_node G n a : nx.edges (nx.add_node n a G) = nx.edges G.
Proof.
  unfold nx.edges, nx.add_node. destruct (mem n (_succ G)) eqn:E; cbn [_succ]; [reflexivity|].
  rewrite set_absent by exact E. rewrite flat_map_app. simpl. now rewrite app_nil_r.
Qed.

Lemma edges_ensure_node G n : nx.edges (ensure_node n G) = nx.edges G.
Proof. unfold ensure_node. destruct (nx.has_node G n); [reflexivity | apply edges_add_node]. Qed.

Lemma edges_ensure_endpoints G u v : nx.edges (ensure_endpoints u v G) = nx.edges G.
Proof. unfold ensure_endpoints. now rewrite !edges_ensure_node. Qed.

Lemma node_attrs_add_node G n a m :
  nx.node_attrs (nx.add_node n a G) m =
  if String.eqb n m
  then Some (update (if mem n (_succ G) then default [] (get n (_node G)) else []) a)
  else nx.node_attrs G m.
Proof.
  unfold nx.node_attrs, nx.add_node.
  destruct (mem n (_succ G)); cbn [_node]; rewrite get_set; reflexivity.
Qed.

Lemma clash_free_node_type (r : attrs) :
  kwargs_clash add_node_bound r = false -> mem "node_type" r = false.
Proof.
  intros H. apply mem_false_keys. intros Hin.
  unfold kwargs_clash in H.
  assert (E : existsb (fun k => existsb (String.eqb k) add_node_bound) (keys r) = true).
  { apply existsb_exists. exists "node_type". split; [exact Hin | reflexivity]. }
  congruence.
Qed.

Lemma clash_found bound (r : attrs) c :
  In c (keys r) -> In c bound -> kwargs_clash bound r = true.
Proof.
  intros Hk Hb. unfold kwargs_clash. apply existsb_exists. exists c. split; [exact Hk|].
  apply existsb_exists. exists c. split; [exact Hb | apply String.eqb_refl].
Qed.

Lemma add_node_typed G n t r :
  mem "node_type" r = false -> typed G ->
  typed (nx.add_node n (("node_type", VStr t) :: r) G).
Proof.
  intros Hr HG m a. rewrite node_attrs_add_node.
  destruct (String.eqb n m); [|apply HG].
  intros [= <-]. exists t. now apply get_update_head.
Qed.

Lemma node_rows_typed type_name id_col rows G :
  typed G -> typed (graph_of (iterrows (node_row type_name id_col) rows G)).
Proof.
  revert G. induction rows as [|r rows IH]; intros G HG; simpl; [exact HG|].
  unfold node_row. destruct (get id_col r) as [n|]; [|exact HG].
  destruct (kwargs_clash add_node_bound r) eqn:E; [exact HG|].
  apply IH, add_node_typed; [|exact HG]. now apply clash_free_node_type.
Qed.

Lemma pass1_typed csv_files G : typed G -> typed (pass1 csv_files G).
Proof.
  unfold pass1. revert G. induction csv_files as [|f l IH]; intros G HG; simpl; [exact HG|].
  apply IH. unfold pass1_file.
  destruct (header f) as [cols|]; [|exact HG].
  destruct (detect_file_role cols); try exact HG.
  destruct (data f) as [rows|]; [|exact HG].
  now apply node_rows_typed.
Qed.

Lemma ensure_node_typed G n : typed G -> typed (ensure_node n G).
Proof.
  intros HG m a. destruct (nx.has_node G n) eqn:E.
  - rewrite node_attrs_ensure_present by exact E. apply HG.
  - rewrite node_attrs_ensure_absent by exact E.
    destruct (String.eqb n m); [|apply HG].
    intros [= <-]. exists "Inferred". reflexivity.
Qed.

Lemma ensure_endpoints_nodes G u v a :
  graph_ok G ->
  _node (nx.add_edge u v a (ensure_endpoints u v G)) = _node (ensure_endpoints u v G).
Proof.
  intros HG. apply add_edge_nodes.
  - unfold ensure_endpoints. now apply ensure_node_ok, ensure_node_ok.
  - apply ensure_endpoints_present. now left.
  - apply ensure_endpoints_present. right. now left.
Qed.

Lemma run_op_typed G o : graph_ok G -> typed G -> typed (run_op G o).
Proof.
  intros Hok HG. destruct o as [u v|u v t r]; simpl.
  - unfold ensure_endpoints. now apply ensure_node_typed, ensure_node_typed.
  - intros m a. unfold nx.node_attrs. rewrite ensure_endpoints_nodes by exact Hok.
    revert m a. unfold ensure_endpoints. now apply ensure_node_typed, ensure_node_typed.
Qed.

Lemma run_ops_typed ops G : graph_ok G -> typed G -> typed (fold_left run_op ops G).
Proof.
  revert G. induction ops as [|o ops IH]; intros G Hok HG; simpl; [exact HG|].
  apply IH; [now apply run_op_ok | now apply run_op_typed].
Qed.

Lemma has_node_ensure G n m :
  nx.has_node (ensure_node n G) m = true -> n = m \/ nx.has_node G m = true.
Proof.
  unfold ensure_node. destruct (nx.has_node G n); [now right|].
  rewrite has_node_add_node. intros H. apply orb_true_iff in H as [H|H]; [left|now right].
  now apply String.eqb_eq.
Qed.

Lemma has_node_run_op G o m :
  graph_ok G -> nx.has_node (run_op G o) m = true ->
  In m (endpoints o) \/ nx.has_node G m = true.
Proof.
  intros Hok. assert (He : forall u v, nx.has_node (ensure_endpoints u v G) m = true ->
                                       In m [u; v] \/ nx.has_node G m = true).
  { intros u v H. unfold ensure_endpoints in H.
    apply has_node_ensure in H as [<-|H]; [left; right; now left|].
    apply has_node_ensure in H as [<-|H]; [left; now left | now right]. }
  destruct o as [u v|u v t r]; simpl; [apply He|].
  unfold nx.has_node at 1. rewrite ensure_endpoints_nodes by exact Hok. apply He.
Qed.

Lemma has_node_run_ops ops G m :
  graph_ok G -> nx.has_node (fold_left run_op ops G) m = true ->
  (exists o, In o ops /\ In m (endpoints o)) \/ nx.has_node G m = true.
Proof.
  revert G. induction ops as [|o ops IH]; intros G Hok H; simpl in H; [now right|].
  apply IH in H as [(o' & Ho' & Hm)|H]; [| |now apply run_op_ok].
  - left. exists o'. split; [now right | exact Hm].
  - apply has_node_run_op in H as [H|H]; [|now right|exact Hok].
    left. exists o. split; [now left | exact H].
Qed.

Lemma rows_ops_origin type_name start_col end_col rows o :
  In o (rows_ops type_name start_col end_col rows) ->
  exists r u v, In r rows /\ get start_col r = Some u /\ get end_col r = Some v /\
                endpoints o = [py_str u; py_str v].
Proof.
  induction rows as [|r rows IH]; simpl; [intros []|].
  destruct (get start_col r) as [u|] eqn:Eu; [|intros []].
  destruct (get end_col r) as [v|] eqn:Ev; [|intros []].
  destruct (kwargs_clash add_edge_bound r).
  - intros [<-|[]]. exists r, u, v. repeat split; auto.
  - intros [<-|H].
    + exists r, u, v. repeat split; auto.
    + destruct (IH H) as (r' & u' & v' & Hr & ? & ? & ?).
      exists r', u', v'. repeat split; auto.
Qed.

Lemma pass2_ops_origin csv_files o x :
  In o (pass2_ops csv_files) -> In x (endpoints o) ->
  exists f, In f csv_files /\ names_endpoint f x.
Proof.
  unfold pass2_ops. intros Ho Hx. apply in_flat_map in Ho as (f & Hf & Ho).
  exists f. split; [exact Hf|]. unfold file_ops in Ho.
  destruct (header f) as [cols|] eqn:Hh; [|destruct Ho].
  destruct (detect_file_role cols) as [s e| |] eqn:Hr; try destruct Ho.
  destruct (data f) as [rows|] eqn:Hd; [|destruct Ho].
  apply rows_ops_origin in Ho as (r & u & v & Hin & Gu & Gv & He).
  apply in_map_iff in Hin as (cells & <- & Hin).
  exists cols, s, e, rows, cells. repeat split; auto.
  pose proof (get_converted cols cells s e s (or_introl eq_refl)) as Cu.
  pose proof (get_converted cols cells s e e (or_intror eq_refl)) as Cv.
  rewrite Gu in Cu. rewrite Gv in Cv. simpl in Cu, Cv.
  rewrite He in Hx. destruct Hx as [<-|[<-|[]]]; [left | right]; congruence.
Qed.

Lemma build_graph_typed data_dir : typed (build_graph data_dir).
Proof.
  assert (H0 : typed nx.empty) by (intros n a; discriminate).
  destruct data_dir as [csv_files|]; [|exact H0].
  rewrite build_graph_run.
  apply run_ops_typed; [apply pass1_ok, empty_ok|].
  now apply pass1_typed.
Qed.

End NodeFacts.

(** X4: pass 1 leaves the edges of the graph as they are. *)
Theorem pass1_adds_no_edge (csv_files : list csv_file) (G : DiGraph) :
  nx.edges (pass1 csv_files G) = nx.edges G /\
  nx.number_of_edges (pass1 csv_files G) = nx.number_of_edges G.
Proof.
  assert (H : nx.edges (pass1 csv_files G) = nx.edges G).
  { apply (pass1_ind (fun G' => nx.edges G' = nx.edges G)); [reflexivity|].
    intros. now rewrite NodeFacts.edges_add_node. }
  split; [exact H|]. unfold nx.number_of_edges. now rewrite H.
Qed.

(** X5: every node of the built graph carries a [node_type] that is a text. *)
Theorem every_node_typed (data_dir : option (list csv_file)) (n : string) (a : attrs) :
  nx.node_attrs (build_graph data_dir) n = Some a ->
  exists t, PyDict.get "node_type" a = Some (VStr t).
Proof.
  revert n a. fold (typed (build_graph data_dir)).
  destruct data_dir as [csv_files|]; [|intros n a; discriminate].
  rewrite build_graph_run.
  apply NodeFacts.run_ops_typed; [apply pass1_ok, empty_ok|].
  apply NodeFacts.pass1_typed. intros n a. discriminate.
Qed.

(** X5 at work: the placeholder [y] of a small graph. *)
Lemma every_node_typed_witness :
  exists t, PyDict.get "node_type" [("node_type", VStr "Inferred")] = Some (VStr t).
Proof.
  apply (every_node_typed (Some [person_csv; follows_csv]) "y").
  reflexivity.
Defined.

(** X6: the built graph lists a node once, and every node is declared by a row
    of a node file or named by a row of an edge file. *)
Theorem node_origin (csv_files : list csv_file) :
  List.NoDup (PyDict.keys (nx.nodes (build_graph (Some csv_files)))) /\
  (forall x, nx.has_node (build_graph (Some csv_files)) x = true ->
             In x (declared_ids csv_files) \/
             exists f, In f csv_files /\ names_endpoint f x).
Proof.
  split.
  - pose proof (build_graph_ok (Some csv_files)) as H.
    unfold nx.nodes. rewrite (ok_keys _ H). apply (ok_nodup _ H).
  - intros x. rewrite build_graph_run. intros H.
    apply NodeFacts.has_node_run_ops in H as [(o & Ho & Hx)|H]; [| |apply pass1_ok, empty_ok].
    + right. now apply (NodeFacts.pass2_ops_origin csv_files o).
    + left. now apply pass1_declared.
Qed.

(** X7: a node file with a column that bears the name of a parameter of the
    [add_node] call adds nothing to the graph. *)
Theorem reserved_node_column (G : DiGraph) (f : csv_file) (cols : list string)
        (id_col : string) (rows : list (list scalar)) (c : string) :
  header f = Some cols -> detect_file_role cols = RoleNode id_col -> data f = Some rows ->
  (forall cells, In cells rows -> length cells = length cols) ->
  In c cols -> In c add_node_bound ->
  pass1_file G f = G.
Proof.
  intros Hh Hr Hd Hlen Hc Hb. unfold pass1_file. rewrite Hh, Hr, Hd.
  destruct rows as [|cells rows]; [reflexivity|]. simpl. unfold node_row.
  destruct (get id_col _); [|reflexivity].
  rewrite (NodeFacts.clash_found add_node_bound _ c); [reflexivity| |exact Hb].
  rewrite keys_astype. apply in_keys_row_dict; [|exact Hc]. apply Hlen. now left.
Qed.

(** X7 at work: a node file with a column [node_type]. *)
Lemma reserved_node_column_witness :
  pass1_file nx.empty {| path := "data/Person.csv"; header := Some [":ID"; "node_type"];
                         data := Some [[VStr "x"; VStr "P"]] |} = nx.empty.
Proof.
  apply (reserved_node_column nx.empty _ [":ID"; "node_type"] ":ID"
           [[VStr "x"; VStr "P"]] "node_type"); try reflexivity.
  - intros cells [<-|[]]. reflexivity.
  - right. now left.
  - right. right. now left.
Defined.

(** X8: an edge file with a column that bears the name of a parameter of the
    [add_edge] call adds no edge; the two endpoints of its first row
    become nodes all the same. *)
Theorem reserved_edge_column (G : DiGraph) (f : csv_file) (cols : list string)
        (start_col end_col : string) (rows : list (list scalar)) (c : string) :
  header f = Some cols -> detect_file_role cols = RoleEdge start_col end_col ->
  data f = Some rows ->
  (forall cells, In cells rows -> length cells = length cols) ->
  In c cols -> In c add_edge_bound ->
  nx.edges (pass2_file G f) = nx.edges G /\
  (rows = [] -> pass2_file G f = G) /\
  (forall cells rest, rows = cells :: rest ->
     exists u v, cell cols cells start_col = Some u /\ cell cols cells end_col = Some v /\
                 pass2_file G f = ensure_node v (ensure_node u G)).
Proof.
  intros Hh Hr Hd Hlen Hc Hb.
  assert (Hfirst : forall cells rest, rows = cells :: rest ->
     exists u v, cell cols cells start_col = Some u /\ cell cols cells end_col = Some v /\
                 pass2_file G f = ensure_node v (ensure_node u G)).
  { intros cells rest ->. unfold pass2_file. rewrite Hh, Hr, Hd. simpl. unfold edge_row.
    destruct (detect_edge_cols _ _ _ Hr) as [Hs He].
    pose proof (get_converted cols cells start_col end_col start_col (or_introl eq_refl)) as Cu.
    pose proof (get_converted cols cells start_col end_col end_col (or_intror eq_refl)) as Cv.
    assert (Hks : forall col, In col cols -> cell cols cells col <> None).
    { intros col Hcol. unfold cell.
      destruct (get col (row_dict cols cells)) eqn:E; [discriminate|].
      apply get_None_keys in E. exfalso. apply E.
      apply in_keys_row_dict; [apply Hlen; now left | exact Hcol]. }
    destruct (get start_col _) as [u|] eqn:Gu;
      [|exfalso; apply (Hks start_col Hs); now rewrite <- Cu].
    destruct (get end_col _) as [v|] eqn:Gv;
      [|exfalso; apply (Hks end_col He); now rewrite <- Cv].
    rewrite (NodeFacts.clash_found add_edge_bound _ c); [| |exact Hb].
    - exists (py_str u), (py_str v). simpl in Cu, Cv. repeat split; auto.
    - rewrite !keys_astype. apply in_keys_row_dict; [apply Hlen; now left | exact Hc]. }
  assert (Hnil : rows = [] -> pass2_file G f = G).
  { intros ->. unfold pass2_file. now rewrite Hh, Hr, Hd. }
  split; [|split; [exact Hnil | exact Hfirst]].
  destruct rows as [|cells rest]; [now rewrite Hnil|].
  destruct (Hfirst cells rest eq_refl) as (u & v & _ & _ & ->).
  now rewrite !NodeFacts.edges_ensure_node.
Qed.

(** X8 at work: an edge file with a column [type]. *)
Lemma reserved_edge_column_witness :
  nx.edges (pass2_file nx.empty
              {| path := "data/LIKES.csv"; header := Some [":START_ID"; ":END_ID"; "type"];
                 data := Some [[VStr "x"; VStr "y"; VStr "t"]] |}) = [].
Proof.
  apply (reserved_edge_column nx.empty _ [":START_ID"; ":END_ID"; "type"] ":START_ID" ":END_ID"
           [[VStr "x"; VStr "y"; VStr "t"]] "type"); try reflexivity.
  - intros cells [<-|[]]. reflexivity.
  - right. right. now left.
  - right. right. right. now left.
Defined.

(** ** Attributes of an edge *)

Module MergeFacts.

Lemma merged_cons base row rows :
  merged (Some (update (default [] base) row)) rows = merged base (row :: rows).
Proof. destruct rows; reflexivity. Qed.

Lemma run_ops_merge ops G u v :
  nx.edge_attrs (fold_left run_op ops G) u v =
  merged (nx.edge_attrs G u v) (rows_between u v ops).
Proof.
  revert G. induction ops as [|o ops IH]; intros G; [reflexivity|].
  cbn [fold_left]. rewrite IH, run_op_edge_attrs.
  destruct o as [u' v'|u' v' t r]; cbn [rows_between flat_map]; [reflexivity|].
  destruct (String.eqb u' u && String.eqb v' v) eqn:E; [|reflexivity].
  apply andb_true_iff in E as [Eu Ev].
  apply String.eqb_eq in Eu. apply String.eqb_eq in Ev. subst u' v'.
  cbn [app]. apply merged_cons.
Qed.

Lemma keys_fold_update (rows : list attrs) (base : attrs) k :
  In k (keys (fold_left update rows base)) <->
  In k (keys base) \/ exists row, In row rows /\ In k (keys row).
Proof.
  revert base. induction rows as [|row rows IH]; intros base; simpl.
  - split; [now left | intros [H|(row & [] & _)]; exact H].
  - rewrite IH, in_keys_update. split.
    + intros [[H|H]|(row' & Hr & Hk)]; [now left | right | right].
      * exists row. split; [now left | exact H].
      * exists row'. split; [now right | exact Hk].
    + intros [H|(row' & [<-|Hr] & Hk)]; [left; now left | left; now right | right].
      exists row'. now split.
Qed.

End MergeFacts.

(** X9: the attributes of an edge of the built graph are what successive
    updates with the ingested rows between its endpoints leave, in the
    order of the rows: a later row overwrites the cells of an earlier one,
    and every column of every such row is a key of the edge. *)
Theorem edge_attrs_merge (csv_files : list csv_file) (u v : string) :
  nx.edge_attrs (build_graph (Some csv_files)) u v =
    merged None (rows_between u v (pass2_ops csv_files)) /\
  (forall d row k,
      nx.edge_attrs (build_graph (Some csv_files)) u v = Some d ->
      In row (rows_between u v (pass2_ops csv_files)) -> In k (PyDict.keys row) ->
      In k (PyDict.keys d)).
Proof.
  assert (E : nx.edge_attrs (build_graph (Some csv_files)) u v =
              merged None (rows_between u v (pass2_ops csv_files))).
  { rewrite build_graph_run, MergeFacts.run_ops_merge. rewrite pass1_no_edge. reflexivity. }
  split; [exact E|]. intros d row k Hd Hrow Hk. rewrite E in Hd.
  destruct (rows_between u v (pass2_ops csv_files)) as [|r0 rows] eqn:Er; [destruct Hrow|].
  injection Hd as <-. apply MergeFacts.keys_fold_update.
  destruct Hrow as [<-|Hrow].
  - left. apply in_keys_update. right. exact Hk.
  - right. exists row. split; [exact Hrow | exact Hk].
Qed.

(** ** Attributes of a node *)

Module CallFacts.

Lemma node_rows_run type_name id_col rows G :
  graph_of (iterrows (node_row type_name id_col) rows G) =
  fold_left run_call (node_rows_calls type_name id_col rows) G.
Proof.
  revert G. induction rows as [|r rows IH]; intros G; simpl; [reflexivity|].
  unfold node_row. destruct (get id_col r) as [n|]; [|reflexivity].
  destruct (kwargs_clash add_node_bound r); [reflexivity|].
  simpl. apply IH.
Qed.

Lemma pass1_file_run G f : pass1_file G f = fold_left run_call (file_node_calls f) G.
Proof.
  unfold pass1_file, file_node_calls.
  destruct (header f) as [cols|]; [|reflexivity].
  destruct (detect_file_role cols); try reflexivity.
  destruct (data f) as [rows|]; [|reflexivity].
  apply node_rows_run.
Qed.

Lemma pass1_calls_run csv_files G :
  pass1 csv_files G = fold_left run_call (pass1_calls csv_files) G.
Proof.
  unfold pass1, pass1_calls. rewrite fold_left_flat_map.
  revert G. induction csv_files as [|f l IH]; intros G; simpl; [reflexivity|].
  now rewrite IH, pass1_file_run.
Qed.

Lemma node_attrs_add_node_ok G n a m :
  graph_ok G ->
  nx.node_attrs (nx.add_node n a G) m =
  if String.eqb n m then Some (update (default [] (nx.node_attrs G n)) a)
  else nx.node_attrs G m.
Proof.
  intros HG. rewrite NodeFacts.node_attrs_add_node.
  destruct (String.eqb n m); [|reflexivity].
  rewrite (has_node_succ G n HG). unfold nx.has_node, mem, nx.node_attrs.
  now destruct (get n (_node G)).
Qed.

Lemma run_calls_merge calls G n :
  graph_ok G ->
  nx.node_attrs (fold_left run_call calls G) n =
  merged (nx.node_attrs G n) (calls_for n calls).
Proof.
  revert G. induction calls as [|[m a] calls IH]; intros G HG; [reflexivity|].
  cbn [fold_left]. rewrite IH by now apply add_node_ok.
  unfold run_call. cbn [fst snd]. rewrite node_attrs_add_node_ok by exact HG.
  unfold calls_for. cbn [List.filter fst].
  destruct (String.eqb_spec m n) as [->|Hne]; [|reflexivity].
  cbn [map snd]. apply MergeFacts.merged_cons.
Qed.

End CallFacts.

(** X27: the attributes of a node that node rows declare are what successive
    updates with the ingested rows of that identifier leave, in the order
    of the rows and across files: a later row overwrites the cells of an
    earlier one, the type tag included, and the edge rows change nothing.
    A node that no ingested node row declares is absent or a placeholder. *)
Theorem node_attrs_merge (csv_files : list csv_file) (n : string) :
  (calls_for n (pass1_calls csv_files) <> [] ->
   nx.node_attrs (build_graph (Some csv_files)) n =
     merged None (calls_for n (pass1_calls csv_files))) /\
  (calls_for n (pass1_calls csv_files) = [] ->
   nx.node_attrs (build_graph (Some csv_files)) n = None \/
   nx.node_attrs (build_graph (Some csv_files)) n = Some inferred_attrs).
Proof.
  assert (E : nx.node_attrs (pass1 csv_files nx.empty) n =
              merged None (calls_for n (pass1_calls csv_files))).
  { rewrite CallFacts.pass1_calls_run. apply CallFacts.run_calls_merge, empty_ok. }
  rewrite build_graph_run. split; intros Hc.
  - destruct (calls_for n (pass1_calls csv_files)) as [|r rows] eqn:Er; [congruence|].
    apply run_ops_frame; [apply pass1_ok, empty_ok | exact E].
  - rewrite Hc in E.
    apply (run_ops_inferred (pass2_ops csv_files) (pass1 csv_files nx.empty) n);
      [apply pass1_ok, empty_ok | now left].
Qed.

(** ** Profiles and report *)

Module ReportFacts.

Lemma get_flat_absent {A B} (g : A -> option B) (l : dict A) n :
  ~ In n (keys l) ->
  get n (flat_map (fun '(m, d) => match g d with Some x => [(m, x)] | None => [] end) l) = None.
Proof.
  induction l as [|[m d] l IH]; simpl; intros Hn; [reflexivity|].
  destruct (g d); simpl.
  - destruct (String.eqb_spec n m) as [->|Hne]; [exfalso; apply Hn; now left|].
    apply IH. intros H. apply Hn. now right.
  - apply IH. intros H. apply Hn. now right.
Qed.

Lemma get_node_attributes_spec G key n :
  List.NoDup (keys (_node G)) ->
  get n (nx.get_node_attributes G key) = node_value G n key.
Proof.
  unfold nx.get_node_attributes, node_value, nx.node_attrs.
  induction (_node G) as [|[m d] l IH]; simpl; intros Hnd; [reflexivity|].
  apply NoDup_cons_iff in Hnd as [Hm Hnd].
  destruct (get key d) as [x|] eqn:E; simpl.
  - destruct (String.eqb n m); [now rewrite E | now apply IH].
  - destruct (String.eqb_spec n m) as [->|Hne]; [|now apply IH].
    rewrite E. now apply (get_flat_absent (fun d => get key d)).
Qed.

Lemma node_value_mem G n key :
  mem key (default [] (nx.node_attrs G n)) =
  match node_value G n key with Some _ => true | None => false end.
Proof. unfold node_value, mem. destruct (nx.node_attrs G n); reflexivity. Qed.

Lemma flat_option_length {A B} (g : A -> option B) (l : list A) :
  length (flat_map (fun x => match g x with Some y => [y] | None => [] end) l) =
  count_where (fun x => match g x with Some _ => true | None => false end) l.
Proof.
  unfold count_where. induction l as [|x l IH]; simpl; [reflexivity|].
  destruct (g x); simpl; now rewrite IH.
Qed.

Lemma flat_option_ext {A B} (g g' : A -> option B) (l : list A) :
  (forall x, g x = g' x) ->
  flat_map (fun x => match g x with Some y => [y] | None => [] end) l =
  flat_map (fun x => match g' x with Some y => [y] | None => [] end) l.
Proof.
  intros H. induction l as [|x l IH]; simpl; [reflexivity|]. now rewrite H, IH.
Qed.

Lemma in_flat_option {A B} (g : A -> option B) (l : list A) y :
  In y (flat_map (fun x => match g x with Some y => [y] | None => [] end) l) <->
  exists x, In x l /\ g x = Some y.
Proof.
  rewrite in_flat_map. split; intros (x & Hx & H); exists x; (split; [exact Hx|]).
  - destruct (g x); [destruct H as [<-|[]]; reflexivity | destruct H].
  - rewrite H. now left.
Qed.

Lemma firstn_NoDup {A} (l : list A) n : List.NoDup l -> List.NoDup (firstn n l).
Proof.
  intros H. apply NoDup_ListNoDup. apply NoDup_ListNoDup in H.
  eapply sublist_NoDup; [exact H | apply sublist_take].
Qed.

Lemma firstn_In {A} (l : list A) n x : In x (firstn n l) -> In x l.
Proof.
  intros H. rewrite <- (firstn_skipn n l). apply in_or_app. now left.
Qed.

(** Counting a list by tags: when every tag of the list is in [tags] and
    [tags] lists no tag twice, the classes add up to the tagged elements. *)
Lemma indicator_sum {T} `{EqDecision T} (tags : list T) (t0 : T) :
  List.NoDup tags -> In t0 tags ->
  sum_list_with (fun t => if bool_decide (t0 = t) then 1%nat else 0%nat) tags = 1%nat.
Proof.
  induction tags as [|t tags IH]; intros Hnd Hin; [destruct Hin|].
  apply NoDup_cons_iff in Hnd as [Ht Hnd]. simpl.
  destruct (bool_decide_reflect (t0 = t)) as [->|Hne].
  - assert (E : sum_list_with (fun t' => if bool_decide (t = t') then 1%nat else 0%nat) tags
                = 0%nat).
    { clear IH Hin Hnd. induction tags as [|t' tags IH]; [reflexivity|]. simpl.
      destruct (bool_decide_reflect (t = t')) as [->|_]; [exfalso; apply Ht; now left|].
      apply IH. intros H. apply Ht. now right. }
    now rewrite E.
  - destruct Hin as [->|Hin]; [congruence|]. now rewrite IH.
Qed.

Lemma sum_list_with_ext {A} (f g : A -> nat) l :
  (forall x, f x = g x) -> sum_list_with f l = sum_list_with g l.
Proof. intros H. induction l as [|x l IH]; simpl; [reflexivity|]. now rewrite H, IH. Qed.

Lemma sum_list_with_add {A} (f g : A -> nat) l :
  sum_list_with (fun x => (f x + g x)%nat) l = (sum_list_with f l + sum_list_with g l)%nat.
Proof. induction l as [|x l IH]; simpl; [reflexivity|]. rewrite IH. lia. Qed.

Lemma sum_list_with_zero {A} (l : list A) : sum_list_with (fun _ => 0%nat) l = 0%nat.
Proof. induction l as [|x l IH]; simpl; [reflexivity | exact IH]. Qed.

Lemma class_sum {A T} `{EqDecision T} (tag : A -> option T) (tags : list T) (l : list A) :
  List.NoDup tags ->
  (forall x t, In x l -> tag x = Some t -> In t tags) ->
  sum_list_with (fun t => count_where (fun x => bool_decide (tag x = Some t)) l) tags =
  count_where (fun x => match tag x with Some _ => true | None => false end) l.
Proof.
  intros Hnd. unfold count_where.
  induction l as [|x l IH]; intros Hin.
  - simpl. apply sum_list_with_zero.
  - rewrite (sum_list_with_ext _
               (fun t => ((if bool_decide (tag x = Some t) then 1 else 0)
                          + length (List.filter (fun y => bool_decide (tag y = Some t)) l))%nat))
      by (intros t; simpl; destruct (bool_decide (tag x = Some t)); reflexivity).
    rewrite sum_list_with_add, IH by (intros y t Hy; apply Hin; now right).
    simpl. destruct (tag x) as [t0|] eqn:E.
    + rewrite (sum_list_with_ext _ (fun t => if bool_decide (t0 = t) then 1%nat else 0%nat)).
      * rewrite indicator_sum; [reflexivity | exact Hnd |].
        apply (Hin x t0); [now left | exact E].
      * intros t. rewrite (bool_decide_ext (Some t0 = Some t) (t0 = t)); [reflexivity|].
        split; congruence.
    + rewrite (sum_list_with_ext _ (fun _ => 0%nat)) by reflexivity.
      now rewrite sum_list_with_zero.
Qed.

Lemma nodes_of_type_length G nt :
  length (nodes_of_type G nt) =
  count_where (fun na => bool_decide (get "node_type" (snd na) = Some nt)) (nx.nodes G).
Proof. unfold nodes_of_type, count_where. apply length_map. Qed.

Lemma in_node_tags G t :
  In t (tag_set (values (nx.get_node_attributes G "node_type"))) <->
  exists na, In na (nx.nodes G) /\ get "node_type" (snd na) = Some t.
Proof.
  unfold tag_set. rewrite <- list_elem_of_In, elem_of_remove_dups, list_elem_of_In.
  unfold values, nx.get_node_attributes, nx.nodes. rewrite in_map_iff. split.
  - intros ([n x] & <- & Hin). apply in_flat_map in Hin as ([m d] & Hmd & Hin).
    exists (m, d). split; [exact Hmd|]. simpl.
    destruct (get "node_type" d); [destruct Hin as [[= <- <-]|[]]; reflexivity | destruct Hin].
  - intros ([m d] & Hmd & E). simpl in E. exists (m, t). split; [reflexivity|].
    apply in_flat_map. exists (m, d). split; [exact Hmd|]. rewrite E. now left.
Qed.

Lemma profile_node_type_count rs G t :
  match profile_node_type rs G t with
  | Some p => tp_count p
  | None => 0%nat
  end = length (nodes_of_type G t).
Proof.
  unfold profile_node_type.
  destruct (length (nodes_of_type G t) =? 0)%nat eqn:E; [|reflexivity].
  now apply Nat.eqb_eq in E.
Qed.

Lemma sum_omap {A B} (f : A -> option B) (c : B -> nat) (l : list A) :
  sum_list_with c (omap f l) =
  sum_list_with (fun x => match f x with Some y => c y | None => 0%nat end) l.
Proof.
  induction l as [|x l IH]; [reflexivity|]. simpl.
  destruct (f x); simpl; [f_equal|]; exact IH.
Qed.

Lemma in_edge_tags G t :
  In t (tag_set (edge_attribute_values G "type")) <->
  exists e, In e (nx.edges G) /\ get "type" (snd e) = Some t.
Proof.
  unfold tag_set, edge_attribute_values.
  rewrite <- list_elem_of_In, elem_of_remove_dups, list_elem_of_In.
  apply (in_flat_option (fun e : string * string * attrs => get "type" (snd e))).
Qed.

Lemma edge_tags_inhabited G t :
  In t (tag_set (edge_attribute_values G "type")) -> edges_of_type G t <> [].
Proof.
  intros Ht E. apply in_edge_tags in Ht as (e & He & Et).
  assert (H : (0 < count_where (fun e => bool_decide (get "type" (snd e) = Some t))
                     (nx.edges G))%nat).
  { apply (ProfileFacts.count_where_pos _ _ e He). now apply bool_decide_eq_true. }
  unfold count_where in H. fold (edges_of_type G t) in H. rewrite E in H. simpl in H. lia.
Qed.

Lemma profile_edge_type_count G t :
  match profile_edge_type G t with
  | Some p => tp_count p
  | None => 0%nat
  end = length (edges_of_type G t).
Proof.
  unfold profile_edge_type.
  destruct (length (edges_of_type G t) =? 0)%nat eqn:E; [|reflexivity].
  now apply Nat.eqb_eq in E.
Qed.

Lemma last_type_some u v rows :
  In (u, v) (map fst rows) -> exists t, last_type u v rows = Some t.
Proof.
  induction rows as [|row rows IH] using rev_ind; [intros []|].
  rewrite map_app, in_app_iff, last_type_app. simpl. intros [H|[H|[]]].
  - destruct (String.eqb _ u && String.eqb _ v); [eexists; reflexivity | now apply IH].
  - rewrite H. simpl. rewrite !String.eqb_refl. eexists. reflexivity.
Qed.

Lemma build_graph_edge_typed data_dir u v d :
  In (u, v, d) (nx.edges (build_graph data_dir)) ->
  exists t, get "type" d = Some (VStr t).
Proof.
  intros Hin. pose proof (build_graph_ok data_dir) as Hok.
  apply (in_edges_lookup _ u v d Hok) in Hin.
  destruct data_dir as [csv_files|]; [|discriminate].
  assert (Hk : In (u, v) (map fst (ingested (pass2_ops csv_files)))).
  { assert (Hne : nx.edge_attrs (build_graph (Some csv_files)) u v <> None) by congruence.
    rewrite build_graph_run in Hne. apply run_ops_edges in Hne as [Hne|Hne]; [|exact Hne].
    now rewrite pass1_no_edge in Hne. }
  destruct (last_type_some u v _ Hk) as [t Ht].
  pose proof (run_ops_tag (pass2_ops csv_files) (pass1 csv_files nx.empty) u v
                (pass2_ops_clean csv_files)) as Htag.
  rewrite <- build_graph_run, Ht in Htag. unfold edge_tag in Htag. rewrite Hin in Htag.
  now exists t.
Qed.

End ReportFacts.

(** X10: the node profile of a type: its count is the population of the type;
    a reported key is not [node_type], is carried by a sampled node, and
    its count is the number of carriers in the whole population; there are
    at most five examples, all different, each the text of a value of the
    key on a node of the type. *)
Theorem profile_node_type_counts (rs : list string -> nat -> list string)
        (G : DiGraph) (target_type : scalar) (p : type_profile) :
  graph_ok G ->
  profile_node_type rs G target_type = Some p ->
  tp_count p = length (nodes_of_type G target_type) /\
  (0 < tp_count p)%nat /\
  forall pp, In pp (tp_properties p) ->
    pp_key pp <> "node_type" /\
    (exists n, In n (rs (nodes_of_type G target_type) (Nat.min (tp_count p) 1000)) /\
               PyDict.mem (pp_key pp) (default [] (nx.node_attrs G n)) = true) /\
    pp_count pp = node_carriers G target_type (pp_key pp) /\
    (0 < pp_count pp <= tp_count p)%nat /\
    (length (pp_examples pp) <= 5)%nat /\ List.NoDup (pp_examples pp) /\
    (forall ex, In ex (pp_examples pp) ->
                exists n v, In n (nodes_of_type G target_type) /\
                            node_value G n (pp_key pp) = Some v /\ ex = py_str v).
Proof.
  intros HG Hp. unfold profile_node_type in Hp.
  destruct (length (nodes_of_type G target_type) =? 0)%nat eqn:E0; [discriminate|].
  apply Nat.eqb_neq in E0. injection Hp as <-. cbn [tp_count tp_properties].
  split; [reflexivity|]. split; [lia|].
  intros pp Hpp. apply in_flat_map in Hpp as (key & Hkey & Hpp).
  assert (Hnd : List.NoDup (keys (_node G))).
  { rewrite (ok_keys _ HG). apply (ok_nodup _ HG). }
  rewrite (ReportFacts.flat_option_ext _ (fun n => node_value G n key)) in Hpp
    by (intros n; now apply ReportFacts.get_node_attributes_spec).
  set (vals := flat_map (fun n => match node_value G n key with
                                  | Some y => [y] | None => [] end)
                        (nodes_of_type G target_type)) in *.
  assert (Hlen : length vals = node_carriers G target_type key).
  { unfold vals, node_carriers. rewrite ReportFacts.flat_option_length.
    unfold count_where. f_equal. apply filter_ext. intros n.
    now rewrite ReportFacts.node_value_mem. }
  destruct vals as [|sample_val rest] eqn:Ev; [destruct Hpp|].
  destruct Hpp as [<-|[]]. cbn [pp_key pp_count pp_examples].
  apply ProfileFacts.in_key_set in Hkey as (Hne & d & Hd & Hk).
  apply in_map_iff in Hd as (n & <- & Hn).
  split; [exact Hne|]. split; [exists n; split; [exact Hn | now apply mem_keys]|].
  split; [exact Hlen|]. split.
  { split; [simpl; lia|]. rewrite Hlen. apply count_where_le. }
  split; [apply firstn_le_length|]. split.
  { apply ReportFacts.firstn_NoDup, NoDup_ListNoDup, NoDup_remove_dups. }
  intros ex Hex. apply ReportFacts.firstn_In in Hex.
  rewrite <- list_elem_of_In, elem_of_remove_dups, list_elem_of_In in Hex.
  apply in_map_iff in Hex as (v & <- & Hv). apply ReportFacts.firstn_In in Hv.
  rewrite <- Ev in Hv. unfold vals in Hv.
  apply ReportFacts.in_flat_option in Hv as (m & Hm & Hv). now exists m, v.
Qed.

(** X10 at work: the node type Person of a small graph. *)
Lemma profile_node_type_counts_witness :
  exists p,
    profile_node_type (fun l _ => l) (build_graph (Some [person_csv; follows_csv]))
      (VStr "Person") = Some p /\
    tp_count p = 1%nat.
Proof.
  eexists. split; [vm_compute; reflexivity|].
  refine (proj1 (profile_node_type_counts (fun l _ => l)
                   (build_graph (Some [person_csv; follows_csv])) (VStr "Person") _ _ _)).
  - apply build_graph_ok.
  - vm_compute. reflexivity.
Defined.

(** X11: the report of a built graph has one node profile for each node type
    and one edge profile for each edge type; the counts of the node profiles
    add up to the number of nodes and those of the edge profiles to the
    number of edges, which are the two totals of the report. *)
Theorem report_counts_add_up (rs : list string -> nat -> list string)
        (data_dir : option (list csv_file)) :
  (List.NoDup (map tp_type (node_profiles (profile_graph rs (build_graph data_dir)))) /\
   (forall t, In t (map tp_type (node_profiles (profile_graph rs (build_graph data_dir)))) <->
              exists na, In na (nx.nodes (build_graph data_dir)) /\
                         PyDict.get "node_type" (snd na) = Some t) /\
   sum_list_with tp_count (node_profiles (profile_graph rs (build_graph data_dir))) =
     nx.number_of_nodes (build_graph data_dir) /\
   total_nodes (profile_graph rs (build_graph data_dir))
     = nx.number_of_nodes (build_graph data_dir)) /\
  (List.NoDup (map tp_type (edge_profiles (profile_graph rs (build_graph data_dir)))) /\
   (forall t, In t (map tp_type (edge_profiles (profile_graph rs (build_graph data_dir)))) <->
              exists e, In e (nx.edges (build_graph data_dir)) /\
                        PyDict.get "type" (snd e) = Some t) /\
   sum_list_with tp_count (edge_profiles (profile_graph rs (build_graph data_dir))) =
     nx.number_of_edges (build_graph data_dir) /\
   total_edges (profile_graph rs (build_graph data_dir))
     = nx.number_of_edges (build_graph data_dir)).
Proof.
  set (G := build_graph data_dir). split.
  - set (tags := tag_set (values (nx.get_node_attributes G "node_type"))).
    assert (Hsome : forall t, In t tags ->
              exists p, profile_node_type rs G t = Some p /\ tp_type p = t).
    { intros t Ht. apply ReportFacts.in_node_tags in Ht as (na & Hna & Et).
      unfold profile_node_type.
      destruct (length (nodes_of_type G t) =? 0)%nat eqn:E; [|eexists; split; reflexivity].
      apply Nat.eqb_eq in E. rewrite ReportFacts.nodes_of_type_length in E.
      exfalso.
      assert (H : (0 < count_where (fun na => bool_decide (get "node_type" (snd na) = Some t))
                         (nx.nodes G))%nat).
      { apply (ProfileFacts.count_where_pos _ _ na Hna). now apply bool_decide_eq_true. }
      lia. }
    assert (Emap : map tp_type (node_profiles (profile_graph rs G)) = tags).
    { cbn [profile_graph node_profiles]. fold G tags. clearbody tags.
      induction tags as [|t tags IH]; [reflexivity|]. simpl.
      destruct (Hsome t (or_introl eq_refl)) as (p & -> & <-). simpl. f_equal.
      apply IH. intros t' Ht'. apply Hsome. now right. }
    split; [|split; [|split; [|reflexivity]]].
    + rewrite Emap. apply NoDup_ListNoDup, NoDup_remove_dups.
    + intros t. rewrite Emap. apply ReportFacts.in_node_tags.
    + cbn [profile_graph node_profiles]. fold G tags.
      rewrite ReportFacts.sum_omap.
      rewrite (ReportFacts.sum_list_with_ext _ (fun t => length (nodes_of_type G t)))
        by (intros t; apply ReportFacts.profile_node_type_count).
      rewrite (ReportFacts.sum_list_with_ext _
                 (fun t => count_where
                             (fun na => bool_decide (get "node_type" (snd na) = Some t))
                             (nx.nodes G)))
        by (intros t; apply ReportFacts.nodes_of_type_length).
      rewrite (ReportFacts.class_sum (fun na : string * attrs => get "node_type" (snd na))).
      * unfold count_where, nx.number_of_nodes, nx.nodes. f_equal.
        apply forallb_filter_id. apply forallb_forall. intros [n a] Hin. simpl.
        destruct (NodeFacts.build_graph_typed data_dir n a) as [t ->]; [|reflexivity].
        apply In_get; [|exact Hin].
        pose proof (build_graph_ok data_dir) as H.
        unfold G. rewrite (ok_keys _ H). apply (ok_nodup _ H).
      * unfold tags, tag_set. apply NoDup_ListNoDup, NoDup_remove_dups.
      * intros na t Hna Et. apply ReportFacts.in_node_tags. now exists na.
  - set (tags := tag_set (edge_attribute_values G "type")).
    assert (Hsome : forall t, In t tags ->
              exists p, profile_edge_type G t = Some p /\ tp_type p = t).
    { intros t Ht. apply ReportFacts.edge_tags_inhabited in Ht.
      unfold profile_edge_type.
      destruct (length (edges_of_type G t) =? 0)%nat eqn:E; [|eexists; split; reflexivity].
      apply Nat.eqb_eq in E. destruct (edges_of_type G t); [congruence | discriminate]. }
    assert (Emap : map tp_type (edge_profiles (profile_graph rs G)) = tags).
    { cbn [profile_graph edge_profiles]. fold G tags. clearbody tags.
      induction tags as [|t tags IH]; [reflexivity|]. simpl.
      destruct (Hsome t (or_introl eq_refl)) as (p & -> & <-). simpl. f_equal.
      apply IH. intros t' Ht'. apply Hsome. now right. }
    split; [|split; [|split; [|reflexivity]]].
    + rewrite Emap. apply NoDup_ListNoDup, NoDup_remove_dups.
    + intros t. rewrite Emap. apply ReportFacts.in_edge_tags.
    + cbn [profile_graph edge_profiles]. fold G tags.
      rewrite ReportFacts.sum_omap.
      rewrite (ReportFacts.sum_list_with_ext _ (fun t => length (edges_of_type G t)))
        by (intros t; apply ReportFacts.profile_edge_type_count).
      change (fun t => length (edges_of_type G t))
        with (fun t => count_where
                         (fun e : string * string * attrs =>
                            bool_decide (get "type" (snd e) = Some t)) (nx.edges G)).
      rewrite (ReportFacts.class_sum (fun e : string * string * attrs => get "type" (snd e))).
      * unfold count_where, nx.number_of_edges. f_equal.
        apply forallb_filter_id. apply forallb_forall. intros [[u v] d] Hin. simpl.
        now destruct (ReportFacts.build_graph_edge_typed data_dir u v d Hin) as [t ->].
      * unfold tags, tag_set. apply NoDup_ListNoDup, NoDup_remove_dups.
      * intros e t He Et. apply ReportFacts.in_edge_tags. now exists e.
Qed.

(** ** The two pipelines, to the end *)

Module JobFacts.

(** What the routes read of a finished job. *)
Lemma job_outcome {J : Type} (env : environment J)
      (data_dir : option (list csv_file)) (output_dir : string) (w : world J) :
  (status (process_schema_discovery env data_dir output_dir w) = "completed" /\
   exists j file evs,
     file <> "" /\
     result (process_schema_discovery env data_dir output_dir w) = Some j /\
     output_file (process_schema_discovery env data_dir output_dir w) = Some file /\
     trace (process_schema_discovery env data_dir output_dir w)
       = (evs ++ [EvWrite file (Some j)])%list) \/
  status (process_schema_discovery env data_dir output_dir w) = "error".
Proof.
  unfold process_schema_discovery.
  destruct (nx.number_of_nodes (build_graph data_dir) =? 0)%nat; [now right|].
  destruct (call_gemini_api env _ _ _ _) as [response w'].
  destruct (PyStr.opt_truthy response); [|now right].
  destruct (extract_json env _) as [j|]; [|now right].
  destruct (json_truthy env j); [|now right].
  left. split; [reflexivity|]. exists j. eexists. eexists.
  split; [|repeat split]. now destruct output_dir.
Qed.

End JobFacts.

(** X15: a job ends completed or in error.  It is completed exactly when one
    schema file was written: the schema is the parsed answer, it is truthy,
    and the job holds it with the path of the file and a progress of 100.
    A job that ends in error has written nothing and holds no result. *)
Theorem job_ends_completed_or_error {J : Type} (env : environment J)
        (data_dir : option (list csv_file)) (output_dir : string) (w : world J) :
  (status (process_schema_discovery env data_dir output_dir w) = "completed" /\
   exists j file evs,
     json_truthy env j = true /\
     result (process_schema_discovery env data_dir output_dir w) = Some j /\
     file <> "" /\
     output_file (process_schema_discovery env data_dir output_dir w) = Some file /\
     progress (process_schema_discovery env data_dir output_dir w) = 100%nat /\
     trace (process_schema_discovery env data_dir output_dir w)
       = (trace w ++ evs ++ [EvWrite file (Some j)])%list /\
     existsb is_schema_write evs = false) \/
  (status (process_schema_discovery env data_dir output_dir w) = "error" /\
   result (process_schema_discovery env data_dir output_dir w) = result w /\
   output_file (process_schema_discovery env data_dir output_dir w) = output_file w /\
   exists evs,
     trace (process_schema_discovery env data_dir output_dir w) = (trace w ++ evs)%list /\
     existsb is_schema_write evs = false).
Proof.
  unfold process_schema_discovery, call_gemini_api.
  destruct (nx.number_of_nodes (build_graph data_dir) =? 0)%nat.
  { right. simpl. repeat split. exists []. now rewrite app_nil_r. }
  destruct (negb (PyStr.opt_truthy (api_key env)) || negb (PyStr.opt_truthy (api_key env))).
  - cbn [PyStr.opt_truthy default from_option].
    destruct (PyStr.truthy (json_dumps env _));
      [|right; simpl; repeat split; exists [EvSleep]; now split].
    destruct (extract_json env _) as [j|];
      [destruct (json_truthy env j) eqn:Ej|].
    + left. simpl. split; [reflexivity|]. exists j. eexists. exists [EvSleep].
      repeat split; auto; [now destruct output_dir | now rewrite <- app_assoc].
    + right. simpl. repeat split. exists [EvSleep]. now split.
    + right. simpl. repeat split. exists [EvSleep]. now split.
  - destruct (generate_content env _) as [text|];
      [|right; simpl; repeat split; eexists [EvOracle _]; now split].
    cbn [PyStr.opt_truthy default from_option].
    destruct (PyStr.truthy text);
      [|right; simpl; repeat split; eexists [EvOracle _]; now split].
    destruct (extract_json env _) as [j|];
      [destruct (json_truthy env j) eqn:Ej|].
    + left. simpl. split; [reflexivity|]. exists j. eexists. eexists [EvOracle _].
      repeat split; auto; [now destruct output_dir | now rewrite <- app_assoc].
    + right. simpl. repeat split. eexists [EvOracle _]. now split.
    + right. simpl. repeat split. eexists [EvOracle _]. now split.
Qed.

(** X16: without a credential the job synthesizes the schema itself: its trace
    gains no oracle call, whatever the data.  With a credential and a node
    in the graph it calls the oracle once, with the profile of the graph. *)
Theorem oracle_called_with_credential_only {J : Type} (env : environment J)
        (data_dir : option (list csv_file)) (output_dir : string) (w : world J) :
  (PyStr.opt_truthy (api_key env) = false ->
   exists evs,
     trace (process_schema_discovery env data_dir output_dir w) = (trace w ++ evs)%list /\
     existsb is_oracle_call evs = false) /\
  (PyStr.opt_truthy (api_key env) = true ->
   nx.number_of_nodes (build_graph data_dir) <> 0%nat ->
   exists evs,
     trace (process_schema_discovery env data_dir output_dir w)
       = (trace w ++ EvOracle (profile_graph (random_sample env) (build_graph data_dir))
            :: evs)%list /\
     existsb is_oracle_call evs = false).
Proof.
  unfold process_schema_discovery, call_gemini_api. split.
  - intros Hk. rewrite Hk.
    destruct (nx.number_of_nodes (build_graph data_dir) =? 0)%nat.
    { exists []. simpl. now rewrite app_nil_r. }
    cbn [negb orb PyStr.opt_truthy default].
    destruct (PyStr.truthy (json_dumps env _)); [|exists [EvSleep]; now split].
    destruct (extract_json env _) as [j|];
      [destruct (json_truthy env j)|]; simpl.
    + eexists [EvSleep; EvWrite _ _]. split; [|reflexivity].
      now rewrite <- app_assoc.
    + exists [EvSleep]. now split.
    + exists [EvSleep]. now split.
  - intros Hk Hn. apply Nat.eqb_neq in Hn. rewrite Hn, Hk.
    cbn [negb orb].
    destruct (generate_content env _) as [text|]; [|exists []; now split].
    cbn [PyStr.opt_truthy default from_option].
    destruct (PyStr.truthy text); [|exists []; now split].
    destruct (extract_json env _) as [j|];
      [destruct (json_truthy env j)|]; simpl.
    + eexists [EvWrite _ _]. split; [|reflexivity]. now rewrite <- app_assoc.
    + exists []. now split.
    + exists []. now split.
Qed.

(** X13: the command-line run without a credential neither calls the oracle nor
    writes a file; with a node in the graph it reports the failure. *)
Theorem cli_without_credential {J : Type} (env : environment J)
        (data_dir : option (list csv_file)) (output_dir : string) :
  PyStr.opt_truthy (api_key env) = false ->
  existsb is_oracle_call (cli_main env data_dir output_dir) = false /\
  existsb is_schema_write (cli_main env data_dir output_dir) = false /\
  (nx.number_of_nodes (build_graph data_dir) <> 0%nat ->
   exists line, cli_main env data_dir output_dir = [EvMakedirs output_dir; EvPrint line]).
Proof.
  intros Hk. unfold cli_main, cli_call_gemini_api. rewrite Hk.
  destruct (nx.number_of_nodes (build_graph data_dir) =? 0)%nat eqn:E; simpl.
  - repeat split. intros H. now apply Nat.eqb_eq in E.
  - repeat split. intros _. eexists. reflexivity.
Qed.

(** X13 at work: a run without a credential on one node file. *)
Lemma cli_without_credential_witness :
  existsb is_oracle_call
    (cli_main {| api_key := None;
                 generate_content := fun _ => Some "{}";
                 random_sample := fun l _ => l;
                 json_loads := fun s => Some s;
                 json_truthy := fun _ => true;
                 json_dumps := fun _ => "{}" |}
       (Some [person_csv]) "out") = false.
Proof.
  refine (proj1 (cli_without_credential _ _ _ _)).
  reflexivity.
Defined.

(** X14: an answer that does not parse: the command-line run writes the file
    all the same, with the null schema, while the job writes nothing and
    ends in error. *)
Theorem unparsed_answer {J : Type} (env : environment J)
        (data_dir : option (list csv_file)) (output_dir : string) (w : world J)
        (text : string) :
  PyStr.opt_truthy (api_key env) = true ->
  nx.number_of_nodes (build_graph data_dir) <> 0%nat ->
  generate_content env (profile_graph (random_sample env) (build_graph data_dir)) = Some text ->
  PyStr.truthy text = true ->
  extract_json env text = None ->
  (exists file line,
     cli_main env data_dir output_dir
     = [EvMakedirs output_dir;
        EvOracle (profile_graph (random_sample env) (build_graph data_dir));
        EvWrite file None;
        EvPrint line]) /\
  status (process_schema_discovery env data_dir output_dir w) = "error" /\
  message (process_schema_discovery env data_dir output_dir w)
    = "Failed to parse JSON response from API" /\
  trace (process_schema_discovery env data_dir output_dir w)
    = (trace w ++ [EvOracle (profile_graph (random_sample env) (build_graph data_dir))])%list.
Proof.
  intros Hk Hn Hg Ht Hx. apply Nat.eqb_neq in Hn.
  unfold cli_main, cli_call_gemini_api, process_schema_discovery, call_gemini_api.
  rewrite Hn, Hk. cbn [negb orb]. rewrite Hg.
  change (default "" (Some text)) with text. cbn [PyStr.opt_truthy].
  rewrite Ht, Hx. split; [eexists; eexists; reflexivity|]. repeat split.
Qed.

(** X14 at work: an answer that is no JSON text. *)
Lemma unparsed_answer_witness :
  status (process_schema_discovery
            {| api_key := Some "key";
               generate_content := fun _ => Some "not json";
               random_sample := fun l _ => l;
               json_loads := fun s : string => None;
               json_truthy := fun _ : string => true;
               json_dumps := fun _ => "{}" |}
            (Some [person_csv]) "out" queued) = "error".
Proof.
  refine (proj1 (proj2 (unparsed_answer _ (Some [person_csv]) "out" queued "not json"
                          _ _ _ _ _))); try reflexivity.
  vm_compute. discriminate.
Defined.

(** ** File names of uploads and fenced answers *)

Module TextFacts.
Import NameFacts.

Lemma contains_char_intro c a s :
  Ascii.eqb a c = false -> PyStr.contains (String c "") s = false ->
  PyStr.contains (String c "") (String a s) = false.
Proof.
  intros Ha Hs.
  change (PyStr.contains (String c "") (String a s))
    with (if String.prefix (String c "") (String a s) then true
          else PyStr.contains (String c "") s).
  rewrite Hs. simpl. destruct (ascii_dec c a) as [->|_]; [|reflexivity].
  now rewrite Ascii.eqb_refl in Ha.
Qed.


Lemma after_last_dot_none s acc :
  PyStr.contains "." s = false -> after_last_dot s acc = acc.
Proof.
  revert acc. induction s as [|a s IH]; intros acc H; simpl; [reflexivity|].
  apply contains_char_cons in H as [-> H]. now apply IH.
Qed.

Lemma after_last_dot_app stem ext acc :
  PyStr.contains "." ext = false ->
  after_last_dot (stem ++ String "." ext) acc = Some ext.
Proof.
  intros He. revert acc. induction stem as [|a s IH]; intros acc; simpl.
  - now apply after_last_dot_none.
  - destruct (Ascii.eqb a "."); apply IH.
Qed.

Lemma after_last_dot_split s acc ext :
  after_last_dot s acc = Some ext ->
  (acc = Some ext /\ PyStr.contains "." s = false) \/ exists stem, s = stem ++ String "." ext.
Proof.
  revert acc. induction s as [|a s IH]; intros acc; simpl.
  - intros ->. now left.
  - destruct (Ascii.eqb_spec a ".") as [->|Hne]; intros H; apply IH in H as [[H1 H2]|[stem ->]].
    + injection H1 as <-. right. now exists "".
    + right. now exists (String "." stem).
    + left. split; [exact H1|].
      apply contains_char_intro; [now apply Ascii.eqb_neq | exact H2].
    + right. now exists (String a stem).
Qed.

Lemma contains_char_app c stem rest :
  PyStr.contains (String c "") (stem ++ String c rest) = true.
Proof.
  induction stem as [|a s IH].
  - simpl. destruct (ascii_dec c c); [|congruence]. now destruct rest.
  - change (String a s ++ String c rest) with (String a (s ++ String c rest)).
    change (PyStr.contains (String c "") (String a (s ++ String c rest)))
      with (if String.prefix (String c "") (String a (s ++ String c rest)) then true
            else PyStr.contains (String c "") (s ++ String c rest)).
    rewrite IH. now destruct (String.prefix _ _).
Qed.

Lemma lower_csv_no_dot ext : PyStr.lower ext = "csv" -> PyStr.contains "." ext = false.
Proof.
  destruct ext as [|a [|b [|c [|d ext]]]]; try discriminate.
  intros H. simpl in H. injection H as Ha Hb Hc.
  repeat (apply contains_char_intro;
          [apply Ascii.eqb_neq; intros ->; discriminate|]).
  reflexivity.
Qed.

Lemma blank_lstrip ws s : blank ws = true -> PyText.lstrip (ws ++ s) = PyText.lstrip s.
Proof.
  induction ws as [|c ws IH]; intros H; [reflexivity|].
  simpl in H. apply andb_true_iff in H as [Hc H]. simpl. rewrite Hc. now apply IH.
Qed.

Lemma blank_rstrip_nil ws : blank ws = true -> PyText.rstrip ws = "".
Proof.
  induction ws as [|c ws IH]; intros H; [reflexivity|].
  simpl in H. apply andb_true_iff in H as [Hc H]. simpl. rewrite (IH H). now rewrite Hc.
Qed.

Lemma append_nil_r s : s ++ "" = s.
Proof.
  induction s as [|a s IH]; [reflexivity|].
  change (String a s ++ "") with (String a (s ++ "")). now rewrite IH.
Qed.

Lemma append_assoc s t u : (s ++ t) ++ u = s ++ t ++ u.
Proof.
  induction s as [|a s IH]; [reflexivity|].
  change ((String a s ++ t) ++ u) with (String a ((s ++ t) ++ u)). now rewrite IH.
Qed.

Lemma rstrip_fence s ws c :
  PyText.is_space c = false -> blank ws = true ->
  PyText.rstrip (s ++ String c ws) = s ++ String c "".
Proof.
  intros Hc Hws. induction s as [|a s IH].
  - simpl. now rewrite (blank_rstrip_nil ws Hws), Hc.
  - change (String a s ++ String c ws) with (String a (s ++ String c ws)).
    cbn [PyText.rstrip]. rewrite IH. now destruct s.
Qed.

Lemma remove_from_free c old body tail :
  PyStr.contains (String c "") body = false ->
  PyText.remove_from (String c old) 0 (body ++ tail) =
  body ++ PyText.remove_from (String c old) 0 tail.
Proof.
  induction body as [|a body IH]; intros H; [reflexivity|].
  apply contains_char_cons in H as [Ha H].
  change (String a body ++ tail) with (String a (body ++ tail)).
  cbn [PyText.remove_from String.prefix].
  destruct (ascii_dec c a) as [->|_]; [now rewrite Ascii.eqb_refl in Ha|].
  now rewrite (IH H).
Qed.

Lemma prefix_app old rest : String.prefix old (old ++ rest) = true.
Proof.
  induction old as [|a old IH]; [now destruct rest|].
  change (String a old ++ rest) with (String a (old ++ rest)). simpl.
  destruct (ascii_dec a a); [exact IH | congruence].
Qed.

Lemma remove_from_skip old p rest :
  PyText.remove_from old (String.length p) (p ++ rest) = PyText.remove_from old 0 rest.
Proof.
  induction p as [|a p IH]; [now destruct rest|].
  change (String a p ++ rest) with (String a (p ++ rest)). exact IH.
Qed.

Lemma remove_from_prefix c old rest :
  PyText.remove_from (String c old) 0 (String c old ++ rest) =
  PyText.remove_from (String c old) 0 rest.
Proof.
  change (String c old ++ rest) with (String c (old ++ rest)).
  cbn [PyText.remove_from].
  change (String c (old ++ rest)) with (String c old ++ rest).
  rewrite prefix_app.
  replace (String.length (String c old) - 1)%nat with (String.length old) by (simpl; lia).
  apply remove_from_skip.
Qed.

Lemma contains_char_lstrip c s :
  PyStr.contains (String c "") s = false ->
  PyStr.contains (String c "") (PyText.lstrip s) = false.
Proof.
  induction s as [|a s IH]; intros H; [exact H|].
  simpl. destruct (PyText.is_space a); [|exact H].
  apply IH. now apply contains_char_cons in H as [_ H].
Qed.

Lemma contains_char_rstrip c s :
  PyStr.contains (String c "") s = false ->
  PyStr.contains (String c "") (PyText.rstrip s) = false.
Proof.
  induction s as [|a s IH]; intros H; [exact H|].
  apply contains_char_cons in H as [Ha H]. specialize (IH H).
  cbn [PyText.rstrip]. destruct (PyText.rstrip s) as [|b r].
  - destruct (PyText.is_space a); [reflexivity|]. now apply contains_char_intro.
  - now apply contains_char_intro.
Qed.

End TextFacts.

(** X17: a file name is accepted exactly when it ends with a dot and an
    extension that is "csv" in some letter case. *)
Theorem allowed_file_csv (filename : string) :
  allowed_file filename = true <->
  exists stem ext, filename = stem ++ "." ++ ext /\ PyStr.lower ext = "csv".
Proof.
  unfold allowed_file. split.
  - intros H. apply andb_true_iff in H as [_ H].
    destruct (after_last_dot filename None) as [ext|] eqn:E; [|discriminate].
    simpl in H. rewrite orb_false_r in H. apply String.eqb_eq in H.
    apply TextFacts.after_last_dot_split in E as [[E _]|[stem ->]]; [discriminate|].
    now exists stem, ext.
  - intros (stem & ext & -> & Hext).
    change (stem ++ "." ++ ext) with (stem ++ String "." ext).
    rewrite TextFacts.contains_char_app.
    rewrite TextFacts.after_last_dot_app by now apply TextFacts.lower_csv_no_dot.
    simpl. now rewrite Hext.
Qed.

(** X12: an answer inside a fence, with ASCII white space around it, parses
    as the text between the fence marks; an answer of ASCII text without a
    backquote parses as its text without the white space around it. *)
Theorem extract_json_fenced {J : Type} (env : environment J) (ws body ws' text : string) :
  (blank ws = true -> blank ws' = true -> PyStr.contains "`" body = false ->
   extract_json env (ws ++ "```json" ++ body ++ "```" ++ ws') = json_loads env body) /\
  (is_ascii text = true -> PyStr.contains "`" text = false ->
   extract_json env text = json_loads env (PyText.strip text)).
Proof.
  unfold extract_json, PyText.strip, PyText.remove. split.
  - intros Hws Hws' Hb. f_equal.
    rewrite TextFacts.blank_lstrip by exact Hws.
    change (PyText.lstrip ("```json" ++ body ++ "```" ++ ws'))
      with ("```json" ++ body ++ "```" ++ ws').
    replace ("```json" ++ body ++ "```" ++ ws')
      with (("```json" ++ body ++ "``") ++ String "`" ws')
      by (now rewrite !TextFacts.append_assoc).
    rewrite TextFacts.rstrip_fence by (auto; reflexivity).
    rewrite !TextFacts.append_assoc.
    rewrite (TextFacts.remove_from_prefix "`" "``json").
    change ("``" ++ "`") with "```".
    rewrite (TextFacts.remove_from_free "`" "``json") by exact Hb.
    change (PyText.remove_from "```json" 0 "```") with "```".
    rewrite (TextFacts.remove_from_free "`" "``") by exact Hb.
    change (PyText.remove_from "```" 0 "```") with "".
    apply TextFacts.append_nil_r.
  - intros _ Ht. f_equal.
    assert (Hs : PyStr.contains "`" (PyText.rstrip (PyText.lstrip text)) = false)
      by now apply TextFacts.contains_char_rstrip, TextFacts.contains_char_lstrip.
    set (s := PyText.rstrip (PyText.lstrip text)) in *.
    rewrite <- (TextFacts.append_nil_r s) at 1.
    rewrite (TextFacts.remove_from_free "`" "``json") by exact Hs.
    simpl PyText.remove_from at 1. rewrite TextFacts.append_nil_r.
    rewrite <- (TextFacts.append_nil_r s) at 1.
    rewrite (TextFacts.remove_from_free "`" "``") by exact Hs.
    simpl. apply TextFacts.append_nil_r.
Qed.

(** X12 at work: a fenced answer and a bare one, with a parser that returns
    the text it is given. *)
Lemma extract_json_fenced_witness :
  extract_json echo_env ("  " ++ "```json" ++ "{}" ++ "```" ++ " ") = Some "{}" /\
  extract_json echo_env "  {} " = Some "{}".
Proof.
  split.
  - apply (proj1 (extract_json_fenced echo_env "  " "{}" " " "")); reflexivity.
  - etransitivity.
    + apply (proj2 (extract_json_fenced echo_env "" "" "" "  {} ")); reflexivity.
    + reflexivity.
Defined.

(** ** Fallback schema *)

Module MockFacts.

Lemma prop_type_range v : In (prop_type v) mock_property_types.
Proof. destruct v; simpl; auto. Qed.

Lemma mock_node_properties_names G members a :
  map name (mock_node_properties G members a) = keys_without "node_type" a.
Proof.
  unfold mock_node_properties, keys_without, keys.
  induction a as [|[k v] a IH]; [reflexivity|].
  cbn [flat_map map List.filter fst snd].
  destruct (String.eqb k "node_type"); cbn [negb app]; [exact IH|].
  simpl. now rewrite IH.
Qed.

Lemma mock_node_properties_type G members a p :
  In p (mock_node_properties G members a) ->
  exists v, In (name p, v) a /\ type p = prop_type v.
Proof.
  unfold mock_node_properties. intros Hp. apply in_flat_map in Hp as ([k v] & Hkv & Hp).
  simpl in Hp. destruct (String.eqb k "node_type"); [destruct Hp|].
  destruct Hp as [<-|[]]. now exists v.
Qed.

Lemma mock_edge_properties_type members a p :
  In p (mock_edge_properties members a) ->
  exists v, In (name p, v) a /\ type p = prop_type v.
Proof.
  unfold mock_edge_properties. intros Hp. apply in_flat_map in Hp as ([k v] & Hkv & Hp).
  simpl in Hp. destruct (String.eqb k "type"); [destruct Hp|].
  destruct Hp as [<-|[]]. now exists v.
Qed.

Lemma mock_node_entry G e :
  In e (mock_node_types G) ->
  exists n rest,
    nodes_of_type G (te_name e) = n :: rest /\
    te_properties e = mock_node_properties G (n :: rest) (default [] (nx.node_attrs G n)).
Proof.
  unfold mock_node_types. intros He. apply in_flat_map in He as (nt & _ & He).
  destruct (nodes_of_type G nt) as [|n rest] eqn:Em; [destruct He|].
  destruct He as [<-|[]]. simpl. exists n, rest. now split.
Qed.

Lemma mock_edge_entry G e :
  In e (mock_edge_types G) ->
  exists x rest,
    edges_of_type G (te_name e) = x :: rest /\
    te_properties e = mock_edge_properties (x :: rest) (snd x).
Proof.
  unfold mock_edge_types. intros He. apply in_flat_map in He as (et & _ & He).
  destruct (edges_of_type G et) as [|x rest] eqn:Em; [destruct He|].
  destruct He as [<-|[]]. simpl. exists x, rest. now split.
Qed.

Lemma mock_node_names G :
  map te_name (mock_node_types G) =
  tag_set (values (nx.get_node_attributes G "node_type")).
Proof.
  unfold mock_node_types.
  assert (H : forall t, In t (tag_set (values (nx.get_node_attributes G "node_type"))) ->
                        nodes_of_type G t <> []).
  { intros t Ht E. apply ReportFacts.in_node_tags in Ht as (na & Hna & Et).
    assert (Hp : (0 < count_where (fun na => bool_decide (get "node_type" (snd na) = Some t))
                         (nx.nodes G))%nat).
    { apply (ProfileFacts.count_where_pos _ _ na Hna). now apply bool_decide_eq_true. }
    rewrite <- ReportFacts.nodes_of_type_length, E in Hp. simpl in Hp. lia. }
  induction (tag_set (values (nx.get_node_attributes G "node_type"))) as [|t tags IH];
    [reflexivity|].
  cbn [flat_map]. destruct (nodes_of_type G t) as [|n rest] eqn:E.
  - exfalso. now apply (H t (or_introl eq_refl)).
  - simpl. f_equal. apply IH. intros t' Ht'. apply H. now right.
Qed.

Lemma mock_edge_properties_names members a :
  map name (mock_edge_properties members a) = keys_without "type" a.
Proof.
  unfold mock_edge_properties, keys_without, keys.
  induction a as [|[k v] a IH]; [reflexivity|].
  cbn [flat_map map List.filter fst snd].
  destruct (String.eqb k "type"); cbn [negb app]; [exact IH|].
  simpl. now rewrite IH.
Qed.

Lemma mock_edge_names G :
  map te_name (mock_edge_types G) = tag_set (edge_attribute_values G "type").
Proof.
  unfold mock_edge_types.
  pose proof (ReportFacts.edge_tags_inhabited G) as H.
  induction (tag_set (edge_attribute_values G "type")) as [|t tags IH]; [reflexivity|].
  cbn [flat_map]. destruct (edges_of_type G t) as [|x rest] eqn:E.
  - exfalso. now apply (H t (or_introl eq_refl)).
  - simpl. f_equal. apply IH. intros t' Ht'. apply H. now right.
Qed.

End MockFacts.

(** X18: the fallback never emits the type Boolean: the type of a property
    of a node type or of an edge type is String, Long or Double. *)
Theorem fallback_never_boolean (G : DiGraph) (e : type_entry) (p : property) :
  In e (node_types (generate_mock_schema G) ++ edge_types (generate_mock_schema G))%list ->
  In p (te_properties e) ->
  In (type p) mock_property_types /\ type p <> "Boolean".
Proof.
  intros He Hp.
  assert (Hv : exists v, type p = prop_type v).
  { apply in_app_or in He as [He|He].
    - apply MockFacts.mock_node_entry in He as (n & rest & _ & E). rewrite E in Hp.
      apply MockFacts.mock_node_properties_type in Hp as (v & _ & Hv). now exists v.
    - apply MockFacts.mock_edge_entry in He as (x & rest & _ & E). rewrite E in Hp.
      apply MockFacts.mock_edge_properties_type in Hp as (v & _ & Hv). now exists v. }
  destruct Hv as [v Hv]. split; [rewrite Hv; apply MockFacts.prop_type_range|].
  rewrite Hv. destruct v; discriminate.
Qed.

(** X18 at work: the property [name] of the node type Person. *)
Lemma fallback_never_boolean_witness :
  In "String" mock_property_types.
Proof.
  refine (proj1 (fallback_never_boolean (build_graph (Some [person_csv]))
                   {| te_name := VStr "Person";
                      te_properties :=
                        [{| name := ":ID"; type := "String"; mandatory := true |};
                         {| name := "name"; type := "String"; mandatory := true |}] |}
                   {| name := "name"; type := "String"; mandatory := true |} _ _)).
  - vm_compute. now left.
  - right. now left.
Defined.

(** X19: the fallback lists every node type of the graph once, with the
    keys of the first node of the type, in their order and without
    [node_type], as its properties; and every edge type once, with the keys
    of the first edge of the type without [type]. *)
Theorem fallback_type_lists (G : DiGraph) :
  (List.NoDup (map te_name (node_types (generate_mock_schema G))) /\
   (forall t, In t (map te_name (node_types (generate_mock_schema G))) <->
              exists na, In na (nx.nodes G) /\ PyDict.get "node_type" (snd na) = Some t) /\
   (forall e, In e (node_types (generate_mock_schema G)) ->
              exists n rest,
                nodes_of_type G (te_name e) = n :: rest /\
                map name (te_properties e) =
                  keys_without "node_type" (default [] (nx.node_attrs G n)))) /\
  (List.NoDup (map te_name (edge_types (generate_mock_schema G))) /\
   (forall t, In t (map te_name (edge_types (generate_mock_schema G))) <->
              exists e, In e (nx.edges G) /\ PyDict.get "type" (snd e) = Some t) /\
   (forall e, In e (edge_types (generate_mock_schema G)) ->
              exists x rest,
                edges_of_type G (te_name e) = x :: rest /\
                map name (te_properties e) = keys_without "type" (snd x))).
Proof.
  cbn [generate_mock_schema node_types edge_types].
  rewrite MockFacts.mock_node_names, MockFacts.mock_edge_names. split.
  - split; [apply NoDup_ListNoDup, NoDup_remove_dups|].
    split; [apply ReportFacts.in_node_tags|].
    intros e He. apply MockFacts.mock_node_entry in He as (n & rest & Em & ->).
    exists n, rest. split; [exact Em|]. apply MockFacts.mock_node_properties_names.
  - split; [apply NoDup_ListNoDup, NoDup_remove_dups|].
    split; [apply ReportFacts.in_edge_tags|].
    intros e He. apply MockFacts.mock_edge_entry in He as (x & rest & Em & ->).
    exists x, rest. split; [exact Em|]. apply MockFacts.mock_edge_properties_names.
Qed.

(** ** Name matching: edge cases and ties *)

Module TieFacts.
Import FloatFacts.

(** From [x <= b] and [b < t], [x < t], for [x] and [b] that are numbers. *)
Lemma ltb_le_lt x b t :
  x <> S754_nan -> b <> S754_nan ->
  SFltb b x = false -> SFltb b t = true -> SFltb x t = true.
Proof.
  unfold SFltb, SFcompare.
  destruct x as [sx|sx| |sx mx ex]; destruct b as [sb|sb| |sb mb eb];
    destruct t as [st|st| |st mt et];
    try destruct sx; try destruct sb; try destruct st; simpl;
    try congruence; try reflexivity; intros _ _ H1 H2;
    split_compare; simpl in *; try discriminate; try reflexivity; lia.
Qed.

Lemma gtb_number x y : PyFloat.gtb x y = true -> x <> S754_nan.
Proof. intros H ->. unfold PyFloat.gtb, SFltb, SFcompare in H. now destruct y as [[]|[]| |[]]. Qed.

Lemma first_best_step name seen st x :
  best_inv name seen st -> first_best name seen (snd st) ->
  first_best name (seen ++ [x]) (snd (best_step name st x)).
Proof.
  destruct st as [bs [t|]]; unfold best_inv, best_step, first_best; simpl.
  - intros (-> & Hin & Hgt & Hmax) (l1 & l2 & -> & Hl1).
    destruct (PyFloat.gtb (similar name x) PyFloat.lit_0_8) eqn:E1;
      [destruct (PyFloat.gtb (similar name x) (similar name t)) eqn:E2|]; simpl.
    + exists (l1 ++ t :: l2)%list, []. split; [reflexivity|].
      intros t' Ht' Hgt'. unfold PyFloat.gtb in *.
      apply (ltb_le_lt _ (similar name t)); auto.
      * now apply (gtb_number _ PyFloat.lit_0_8).
      * now apply (gtb_number _ PyFloat.lit_0_8).
    + exists l1, (l2 ++ [x])%list. split; [now rewrite <- app_assoc|exact Hl1].
    + exists l1, (l2 ++ [x])%list. split; [now rewrite <- app_assoc|exact Hl1].
  - intros (-> & Hnone) _.
    destruct (PyFloat.gtb (similar name x) PyFloat.lit_0_8) eqn:E1;
      [destruct (PyFloat.gtb (similar name x) PyFloat.zero) eqn:E2|]; simpl; auto.
    exists seen, []. split; [reflexivity|].
    intros t' Ht' Hgt'. now rewrite (Hnone t' Ht') in Hgt'.
Qed.

Lemma first_best_fold name targets :
  first_best name targets (snd (fold_left (best_step name) targets (PyFloat.zero, None))).
Proof.
  induction targets as [|x l IH] using rev_ind; [exact I|].
  rewrite fold_left_app. simpl. apply first_best_step; [|exact IH].
  apply MatchFacts.best_inv_fold.
Qed.

Lemma similar_empty_l t : similar "" t = PyFloat.zero.
Proof. reflexivity. Qed.

End TieFacts.

(** X20: among candidates of the same ratio the first one is returned: every
    candidate listed before the returned one that clears the threshold has
    a strictly smaller ratio. *)
Theorem find_best_match_first (name : string) (targets : list string) (t : string) :
  find_best_match name targets = Some t ->
  exists l1 l2,
    targets = (l1 ++ t :: l2)%list /\
    (forall t', In t' l1 -> PyFloat.gtb (similar name t') PyFloat.lit_0_8 = true ->
                PyFloat.gtb (similar name t) (similar name t') = true) /\
    (forall t', In t' l1 -> similar name t' <> similar name t).
Proof.
  intros H. pose proof (TieFacts.first_best_fold name targets) as F.
  pose proof (MatchFacts.best_inv_fold name targets) as B.
  unfold find_best_match in H. unfold best_inv in B. rewrite H in F, B.
  destruct F as (l1 & l2 & E & Hl1). destruct B as (_ & _ & Hgt & _).
  exists l1, l2. split; [exact E|]. split; [exact Hl1|].
  intros t' Ht' Heq. specialize (Hl1 t' Ht'). rewrite Heq in Hl1.
  rewrite FloatFacts.gtb_irrefl in Hl1. now specialize (Hl1 Hgt).
Qed.

(** X20 at work: two candidates of ratio 1.0, the first of which is returned. *)
Lemma find_best_match_first_witness :
  exists l1 l2, ["abcdX"; "abcde"; "ABCDE"] = (l1 ++ "abcde" :: l2)%list.
Proof.
  destruct (find_best_match_first "abcde" ["abcdX"; "abcde"; "ABCDE"] "abcde")
    as (l1 & l2 & E & _).
  - vm_compute. reflexivity.
  - now exists l1, l2.
Defined.

(** X21: a name that is empty matches nothing and is matched by nothing: a type
    without a name is left out of the match list on both sides. *)
Theorem find_best_match_blank (name : string) (targets : list string) :
  find_best_match "" targets = None /\
  find_best_match name [] = None /\
  find_best_match name targets <> Some "" /\
  (forall gt_d inf_d g m, In (g, m) (match_names gt_d inf_d) -> g <> "" /\ m <> "").
Proof.
  assert (H1 : forall l, find_best_match "" l = None).
  { intros l. pose proof (MatchFacts.best_inv_fold "" l) as B. unfold best_inv in B.
    unfold find_best_match. destruct (snd _) as [t|]; [|reflexivity].
    destruct B as (_ & _ & Hgt & _). rewrite TieFacts.similar_empty_l in Hgt. discriminate. }
  assert (H2 : forall n l, find_best_match n l <> Some "").
  { intros n l E. apply MatchFacts.best_match_truthy in E. discriminate. }
  split; [apply H1|]. split; [reflexivity|]. split; [apply H2|].
  intros gt_d inf_d g m Hin. unfold match_names in Hin.
  apply in_flat_map in Hin as (g' & _ & Hin).
  destruct (find_best_match g' (keys inf_d)) as [m'|] eqn:E; [|destruct Hin].
  destruct (PyStr.truthy m') eqn:Em; [|destruct Hin].
  destruct Hin as [[= -> ->]|[]]. split.
  - intros ->. now rewrite H1 in E.
  - intros ->. discriminate.
Qed.

(** ** Property comparison *)

Module CompareFacts.

Lemma size_list_to_set_le (l : list string) :
  (size (list_to_set l : gset string) <= length l)%nat.
Proof.
  induction l as [|x l IH]; [now rewrite list_to_set_nil, size_empty|].
  rewrite list_to_set_cons, size_union_alt, size_singleton. simpl.
  pose proof (subseteq_size (list_to_set l ∖ {[x]}) (list_to_set l : gset string)) as H.
  assert (Hs : (list_to_set l ∖ {[x]} : gset string) ⊆ list_to_set l).
  { intros y Hy. now apply elem_of_difference in Hy as [Hy _]. }
  specialize (H Hs). lia.
Qed.

Lemma size_prop_names props : (size (prop_names props) <= length props)%nat.
Proof.
  unfold prop_names. etransitivity; [apply size_list_to_set_le|].
  induction props as [|p props IH]; [reflexivity|]. simpl.
  rewrite List.length_app.
  destruct (jp_name p) as [s|]; [destruct (PyStr.truthy s)|]; simpl; lia.
Qed.

Lemma index_by_NoDup key types : List.NoDup (keys (index_by key types)).
Proof.
  unfold index_by. generalize (default [] types). intros l.
  induction l as [|n l IH] using rev_ind; [constructor|].
  rewrite fold_left_app. simpl. now apply NoDup_keys_set.
Qed.

Lemma match_names_fst gt_d inf_d :
  exists keep, map fst (match_names gt_d inf_d) = List.filter keep (keys gt_d).
Proof.
  unfold match_names.
  exists (fun g => match find_best_match g (keys inf_d) with
                   | Some m => PyStr.truthy m
                   | None => false
                   end).
  induction (keys gt_d) as [|g l IH]; [reflexivity|]. simpl.
  rewrite map_app, IH.
  destruct (find_best_match g (keys inf_d)) as [m|]; [destruct (PyStr.truthy m)|]; reflexivity.
Qed.

Lemma match_names_in gt_d inf_d g m :
  In (g, m) (match_names gt_d inf_d) -> In g (keys gt_d) /\ In m (keys inf_d).
Proof.
  unfold match_names. intros Hin. apply in_flat_map in Hin as (g' & Hg & Hin).
  destruct (find_best_match g' (keys inf_d)) as [m'|] eqn:E; [|destruct Hin].
  destruct (PyStr.truthy m'); [|destruct Hin].
  destruct Hin as [[= -> ->]|[]]. split; [exact Hg|].
  pose proof (MatchFacts.best_inv_fold g (keys inf_d)) as B. unfold best_inv in B.
  unfold find_best_match in E. rewrite E in B. now destruct B as (_ & Hin & _).
Qed.

Lemma index_by_keys key types k :
  In k (keys (index_by key types)) -> In k (map key (default [] types)).
Proof.
  unfold index_by. generalize (default [] types). intros l.
  induction l as [|n l IH] using rev_ind; [intros []|].
  rewrite fold_left_app, map_app. simpl. rewrite keys_set.
  destruct (mem (key n) _); intros H; apply in_or_app.
  - left. now apply IH.
  - apply in_app_or in H as [H|[<-|[]]]; [left; now apply IH | right; now left].
Qed.

Lemma index_by_length key types :
  (length (index_by key types) <= length (default [] types))%nat.
Proof.
  unfold index_by. generalize (default [] types). intros l.
  induction l as [|n l IH] using rev_ind; [reflexivity|].
  rewrite fold_left_app, List.length_app. simpl. rewrite length_set.
  destruct (mem (key n) _); lia.
Qed.

Lemma sum_list_with_le {A} (f g : A -> nat) l :
  (forall x, (f x <= g x)%nat) -> (sum_list_with f l <= sum_list_with g l)%nat.
Proof.
  intros H. induction l as [|x l IH]; simpl; [lia|]. specialize (H x). lia.
Qed.

End CompareFacts.

(** X22: the three sets of a property comparison split the names: the correct
    and the missing names are the reference names, the correct and the
    extra names are the candidate names, no name is in two of the sets,
    and comparing the other way round exchanges missing and extra. *)
Theorem compare_properties_partition (gt_props inf_props : list json_property) :
  let correct := fst (fst (compare_properties gt_props inf_props)) in
  let missing := snd (fst (compare_properties gt_props inf_props)) in
  let extra := snd (compare_properties gt_props inf_props) in
  correct ∪ missing = prop_names gt_props /\
  correct ∪ extra = prop_names inf_props /\
  correct ## missing /\ correct ## extra /\ missing ## extra /\
  (size correct + size missing = size (prop_names gt_props))%nat /\
  (size correct + size extra = size (prop_names inf_props))%nat /\
  compare_properties inf_props gt_props = (correct, extra, missing).
Proof.
  unfold compare_properties. cbn [fst snd].
  set (A := prop_names gt_props). set (B := prop_names inf_props).
  assert (H1 : A ∩ B ∪ A ∖ B = A).
  { apply set_eq. intros x.
    rewrite elem_of_union, elem_of_intersection, elem_of_difference.
    destruct (decide (x ∈ B)); tauto. }
  assert (H2 : A ∩ B ∪ B ∖ A = B).
  { apply set_eq. intros x.
    rewrite elem_of_union, elem_of_intersection, elem_of_difference.
    destruct (decide (x ∈ A)); tauto. }
  assert (D1 : A ∩ B ## A ∖ B).
  { apply elem_of_disjoint. intros x.
    rewrite elem_of_intersection, elem_of_difference. tauto. }
  assert (D2 : A ∩ B ## B ∖ A).
  { apply elem_of_disjoint. intros x.
    rewrite elem_of_intersection, elem_of_difference. tauto. }
  repeat split; auto.
  - apply elem_of_disjoint. intros x. rewrite !elem_of_difference. tauto.
  - rewrite <- (size_union _ _ D1). now rewrite H1.
  - rewrite <- (size_union _ _ D2). now rewrite H2.
  - f_equal. f_equal. apply set_eq. intros x. rewrite !elem_of_intersection. tauto.
Qed.

(** X23: the comparison never counts more matched properties than reference
    properties; a reference type is matched at most once, to a candidate
    type, and no more types are matched than the reference lists. *)
Theorem matched_at_most_total (gt inf : json_schema) :
  (matched_properties (compare_schemas gt inf) <= total_properties (compare_schemas gt inf))%nat /\
  List.NoDup (map fst (node_matches (compare_schemas gt inf))) /\
  (forall g m, In (g, m) (node_matches (compare_schemas gt inf)) ->
               In g (map node_key (default [] (js_node_types gt))) /\
               In m (map node_key (default [] (js_node_types inf)))) /\
  (length (node_matches (compare_schemas gt inf)) <= length (default [] (js_node_types gt)))%nat.
Proof.
  set (gt_nodes := index_by node_key (js_node_types gt)).
  set (inf_nodes := index_by node_key (js_node_types inf)).
  assert (E : matched_properties (compare_schemas gt inf) =
                sum_list_with (fun m => size (pd_correct (detail_of gt_nodes inf_nodes m)))
                  (match_names gt_nodes inf_nodes) /\
              total_properties (compare_schemas gt inf) =
                sum_list_with (fun m => length (properties_of gt_nodes (fst m)))
                  (match_names gt_nodes inf_nodes) /\
              node_matches (compare_schemas gt inf) = match_names gt_nodes inf_nodes).
  { unfold compare_schemas. fold gt_nodes inf_nodes. rewrite property_fold. now repeat split. }
  destruct E as (-> & -> & ->).
  destruct (CompareFacts.match_names_fst gt_nodes inf_nodes) as [keep Hk].
  split; [|split; [|split]].
  - apply CompareFacts.sum_list_with_le. intros m. cbn [detail_of pd_correct].
    etransitivity; [|apply CompareFacts.size_prop_names].
    apply subseteq_size. intros x Hx. now apply elem_of_intersection in Hx as [Hx _].
  - rewrite Hk. apply List.NoDup_filter, CompareFacts.index_by_NoDup.
  - intros g m Hin. apply CompareFacts.match_names_in in Hin as [Hg Hm].
    split; now apply CompareFacts.index_by_keys.
  - rewrite <- (length_map fst), Hk.
    etransitivity; [apply List.filter_length_le|].
    unfold keys. rewrite length_map. apply CompareFacts.index_by_length.
Qed.

(** ** Routes of the web application *)

Module RouteFacts.

Lemma endswith_app s suffix : endswith (s ++ suffix) suffix = true.
Proof.
  induction s as [|a s IH].
  - change ("" ++ suffix) with suffix. destruct suffix; simpl; [reflexivity|].
    now rewrite Ascii.eqb_refl, String.eqb_refl.
  - change (String a s ++ suffix) with (String a (s ++ suffix)).
    cbn [endswith]. rewrite IH. apply orb_true_r.
Qed.

Lemma written_last {J} (t : list (event J)) file c :
  written (t ++ [EvWrite file c]) file = true.
Proof.
  unfold written. rewrite existsb_app. simpl. rewrite String.eqb_refl. apply orb_true_r.
Qed.

End RouteFacts.

(** X24: after a discovery job the status route shows a result exactly when the
    job completed, and the download route then serves the file that the job
    wrote; for a job that ended in error no result is shown and nothing is
    served. *)
Theorem served_result {J : Type} (env : environment J)
        (data_dir : option (list csv_file)) (output_dir : string) (w : world J)
        (jobs : gmap string (world J)) (job_id : string) :
  let finished := process_schema_discovery env data_dir output_dir w in
  let jobs' := <[job_id := finished]> jobs in
  exists r,
    get_status jobs' job_id = Some r /\
    ((sr_status r = "completed" /\
      exists j file,
        sr_result r = Some (j, file) /\
        In (EvWrite file (Some j)) (trace finished) /\
        download_result jobs' (written (trace finished)) job_id = DlSend file) \/
     (sr_status r = "error" /\ sr_result r = None /\
      forall path_exists, download_result jobs' path_exists job_id = DlNotAvailable)).
Proof.
  intros finished jobs'. unfold get_status, download_result, jobs'.
  rewrite lookup_insert_eq. eexists. split; [reflexivity|]. cbn [sr_status sr_result].
  destruct (JobFacts.job_outcome env data_dir output_dir w)
    as [(Hs & j & file & evs & Hne & Hr & Hf & Ht)|Hs];
    fold finished in Hs |- *; rewrite Hs.
  - left. split; [reflexivity|]. fold finished in Hr, Hf, Ht. exists j, file.
    rewrite Hr, Hf. simpl. split; [reflexivity|]. split.
    + rewrite Ht. apply in_or_app. right. now left.
    + rewrite Ht, RouteFacts.written_last.
      destruct file; [congruence | reflexivity].
  - right. now repeat split.
Qed.

(** X25: the ground-truth route finds the file that the extraction script
    writes: its name passes the filter whatever the dataset name, so a
    listing that has it is never answered with "no files"; and a schema that
    is served comes from a listed file that passes the filter. *)
Theorem ground_truth_found {J : Type} (dataset_name : string) (files : list string)
        (load : string -> option J) :
  is_gt_file (golden_truth_file dataset_name) = true /\
  (In (golden_truth_file dataset_name) files ->
   get_ground_truth (Some files) load <> GtNoFiles /\
   get_ground_truth (Some files) load <> GtNoDirectory) /\
  (forall j, get_ground_truth (Some files) load = GtSchema j ->
             exists f, In f files /\ is_gt_file f = true /\ load ("gt_schema/" ++ f) = Some j) /\
  ((forall f, In f files -> is_gt_file f = false) ->
   get_ground_truth (Some files) load = GtNoFiles).
Proof.
  assert (Hg : is_gt_file (golden_truth_file dataset_name) = true).
  { unfold is_gt_file, golden_truth_file. apply andb_true_iff. split.
    - rewrite <- TextFacts.append_assoc. apply RouteFacts.endswith_app.
    - reflexivity. }
  split; [exact Hg|]. unfold get_ground_truth. split; [|split].
  - intros Hin.
    assert (Hf : In (golden_truth_file dataset_name) (List.filter is_gt_file files))
      by (apply filter_In; now split).
    destruct (List.filter is_gt_file files) as [|f l]; [destruct Hf|].
    destruct (load _); split; discriminate.
  - intros j. destruct (List.filter is_gt_file files) as [|f l] eqn:E; [discriminate|].
    destruct (load ("gt_schema/" ++ f)) as [j'|] eqn:El; [|discriminate].
    intros [= <-]. exists f.
    assert (Hf : In f (List.filter is_gt_file files)) by (rewrite E; now left).
    apply filter_In in Hf as [Hf1 Hf2]. now repeat split.
  - intros Hnone. destruct (List.filter is_gt_file files) as [|f l] eqn:E; [reflexivity|].
    assert (Hf : In f (List.filter is_gt_file files)) by (rewrite E; now left).
    apply filter_In in Hf as [Hf1 Hf2]. now rewrite (Hnone f Hf1) in Hf2.
Qed.

(** ** The comparison script *)

Module ScriptFacts.

Lemma cli_gt_key_node n k : cli_gt_key n = Some k -> node_key n = k.
Proof.
  unfold cli_gt_key, node_key, py_or.
  destruct (jt_name n) as [[|c s]|]; simpl;
    destruct (jt_labels n) as [[|l ls]|]; congruence.
Qed.

Lemma cli_inf_key_node n k : cli_inf_key n = Some k -> node_key n = k.
Proof.
  unfold cli_inf_key, node_key, py_or.
  destruct (jt_name n) as [[|c s]|]; simpl;
    destruct (jt_labels n) as [[|l ls]|]; congruence.
Qed.

Lemma cli_index_fold key (l : list json_type) acc :
  (forall n k, key n = Some k -> node_key n = k) ->
  fold_left (fun acc n => match acc, key n with
                          | Some d, Some k => Some (set k n d)
                          | _, _ => None
                          end) l acc =
  match acc with
  | Some d => if forallb (fun n => bool_decide (is_Some (key n))) l
              then Some (fold_left (fun d n => set (node_key n) n d) l d)
              else None
  | None => None
  end.
Proof.
  intros Hk. revert acc. induction l as [|n l IH]; intros acc; simpl.
  - now destruct acc.
  - rewrite IH. destruct acc as [d|]; [|reflexivity].
    destruct (key n) as [k|] eqn:E; simpl; [|reflexivity].
    now rewrite (Hk n k E).
Qed.

Lemma cli_index_spec key types :
  (forall n k, key n = Some k -> node_key n = k) ->
  cli_index key types =
  if forallb (fun n => bool_decide (is_Some (key n))) (default [] types)
  then Some (index_by node_key types) else None.
Proof. intros Hk. unfold cli_index, index_by. now rewrite cli_index_fold. Qed.

End ScriptFacts.

(** X26: the script and the web comparison agree: when the script does not
    raise it prints the score that the web comparison reports, and none
    when the web comparison counts no reference property.  It raises
    exactly when a type without a name has no label to take its place. *)
Theorem cli_compare_agrees (gt inf : json_schema) :
  (forall r, cli_compare gt inf = Some r ->
     r = (if (0 <? total_properties (compare_schemas gt inf))%nat
          then PyFloat.hundredths
                 (raw_accuracy (matched_properties (compare_schemas gt inf))
                               (total_properties (compare_schemas gt inf)))
          else None) /\
     (forall k, r = Some k -> k <> 0%Z ->
                accuracy (compare_schemas gt inf)
                = PyFloat.div (PyFloat.of_int k) (PyFloat.of_int 100))) /\
  (cli_compare gt inf = None <->
   (exists n, In n (default [] (js_node_types gt)) /\ cli_gt_key n = None) \/
   (exists n, In n (default [] (js_node_types inf)) /\ cli_inf_key n = None)).
Proof.
  unfold cli_compare.
  rewrite (ScriptFacts.cli_index_spec cli_gt_key) by apply ScriptFacts.cli_gt_key_node.
  rewrite (ScriptFacts.cli_index_spec cli_inf_key) by apply ScriptFacts.cli_inf_key_node.
  assert (Hall : forall key l,
            forallb (fun n : json_type => bool_decide (is_Some (key n))) l = false <->
            exists n, In n l /\ key n = (None : option string)).
  { intros key l. induction l as [|n l IH]; simpl.
    - split; [discriminate | intros (n & [] & _)].
    - destruct (key n) as [k|] eqn:E; simpl.
      + rewrite IH. split; intros (m & Hm & Em); exists m.
        * split; [now right | exact Em].
        * destruct Hm as [<-|Hm]; [congruence | now split].
      + split; [|reflexivity]. intros _. exists n. split; [now left | exact E]. }
  split.
  - intros r.
    destruct (forallb _ (default [] (js_node_types gt))); [|discriminate].
    destruct (forallb _ (default [] (js_node_types inf))); [|discriminate].
    unfold compare_schemas.
    destruct (fold_left _ _ _) as [[p m] d]. cbn [total_properties matched_properties accuracy].
    unfold raw_accuracy.
    remember (PyFloat.mul (PyFloat.truediv (Z.of_nat m) (Z.of_nat p)) (PyFloat.of_int 100))
      as score.
    intros [= <-].
    destruct (0 <? p)%nat; [|split; [reflexivity | discriminate]].
    split; [reflexivity|].
    intros k Hk Hne. now apply round2_hundredths.
  - rewrite <- !Hall.
    destruct (forallb _ (default [] (js_node_types gt))).
    + destruct (forallb _ (default [] (js_node_types inf))).
      * destruct (fold_left _ _ _) as [[p m] d]. split; [discriminate|].
        intros [H|H]; discriminate.
      * split; auto.
    + split; auto.
Qed.
